(** * The California water-law scrapers, embedded and verified

    Two programs are modelled here:

    - [ccr-scraper.py], class [CaliforniaRegulationsScraper] (module [CCR]):
      the regulations scraper, with its formula-image extractor and its
      content normalizer;
    - [water-code-scraper.py] (module [WaterCode]): the statute scraper, with
      its three-level discovery of parts, chapters and articles and its
      flat-schema text extraction.

    Conventions of the embedding.

    - A Python [str] is a [string]; every character of the model stands for
      one code point below 256, so that [len] is [String.length] and the
      section sign is the single character 167.  Code points above 255 are
      outside the alphabet of the model.
    - A parsed document (a BeautifulSoup tree) is a [Bs4.node].  The tree
      is immutable, so code that edits the document in place is written as
      a function that returns the edited tree.
    - The network, the HTML parser, urllib and the file system are the
      fields of a [World]; what the program does to its surroundings (the
      requests it sends, the files it writes) is threaded explicitly
      through a [Sys] value.
    - An uncaught Python exception is the outcome [Raise].  The
      functions of urllib raise [ValueError] on a malformed address:
      [urljoin] and [urlparse] are partial in the [World], and a call
      outside any [try] hands the exception on.

    What the model leaves out or assumes: [print] and [time.sleep] have
    no counterpart; the directories exist ([mkdir] and [makedirs]
    succeed); the world answers a request by its address alone, the
    same way each time; the local lists that are never read again
    ([all_content], and [article['sections']] of the regulations
    scraper) are not kept. *)

From Stdlib Require Import String Ascii List Bool Arith Lia.
From Stdlib Require Import Decimal DecimalString.
From Stdlib Require DecimalNat DecimalFacts.
Import ListNotations.

Set Warnings "-register-all".

Local Open Scope string_scope.
Local Open Scope list_scope.

(* ===================================================================== *)
(** * Python strings *)
(* ===================================================================== *)

Module PyStr.

(** The formatted string literal [f"..."]: its pieces, concatenated. *)
Definition fstr (pieces : list string) : string := String.concat "" pieces.

Definition chr (n : nat) : string := String (ascii_of_nat n) "".

Definition between (lo hi n : nat) : bool := Nat.leb lo n && Nat.leb n hi.

Definition nl : string := chr 10.

(** [str.isspace] on one character below 256. *)
Definition isspace (c : ascii) : bool :=
  let n := nat_of_ascii c in
  between 9 13 n || between 28 32 n || Nat.eqb n 133 || Nat.eqb n 160.

(** [\d] of [re] on a character below 256: the decimal digits. *)
Definition isdigit (c : ascii) : bool :=
  between 48 57 (nat_of_ascii c).

(** [[a-z]] of [re]. *)
Definition is_lower_az (c : ascii) : bool :=
  between 97 122 (nat_of_ascii c).

Definition lower_char (c : ascii) : ascii :=
  let n := nat_of_ascii c in
  if between 65 90 n || (between 192 222 n && negb (Nat.eqb n 215))
  then ascii_of_nat (n + 32) else c.

(** [str.upper] leaves the model's alphabet at 181, 223 and 255; these
    three characters are kept as they are. *)
Definition upper_char (c : ascii) : ascii :=
  let n := nat_of_ascii c in
  if between 97 122 n || (between 224 254 n && negb (Nat.eqb n 247))
  then ascii_of_nat (n - 32) else c.

Fixpoint map_chars (f : ascii -> ascii) (s : string) : string :=
  match s with
  | EmptyString => EmptyString
  | String c r => String (f c) (map_chars f r)
  end.

Definition lower : string -> string := map_chars lower_char.
Definition upper : string -> string := map_chars upper_char.

(** [truthy s] is Python's [bool(s)]. *)
Definition truthy (s : string) : bool :=
  match s with EmptyString => false | _ => true end.

Definition startswith (pre s : string) : bool := String.prefix pre s.

(** [needle in hay]. *)
Fixpoint contains (needle hay : string) : bool :=
  String.prefix needle hay
  || match hay with
     | EmptyString => false
     | String _ r => contains needle r
     end.

Fixpoint lstrip (s : string) : string :=
  match s with
  | EmptyString => EmptyString
  | String c r => if isspace c then lstrip r else s
  end.

Fixpoint rstrip (s : string) : string :=
  match s with
  | EmptyString => EmptyString
  | String c r =>
      match rstrip r with
      | EmptyString => if isspace c then EmptyString else String c EmptyString
      | r' => String c r'
      end
  end.

Definition strip (s : string) : string := lstrip (rstrip s).

(** [s.rstrip(d)] for a one-character [d]: every trailing [d] goes. *)
Fixpoint rstrip_char (d : ascii) (s : string) : string :=
  match s with
  | EmptyString => EmptyString
  | String c r =>
      match rstrip_char d r with
      | EmptyString =>
          if Ascii.eqb c d then EmptyString else String c EmptyString
      | r' => String c r'
      end
  end.

(** [s.replace(a, b)] for one-character [a] and [b]. *)
Definition replace_char (a b : ascii) : string -> string :=
  map_chars (fun c => if Ascii.eqb c a then b else c).

(** [s[:n]]. *)
Definition take (n : nat) (s : string) : string := String.substring 0 n s.

(** [c * n] for a one-character string [c]. *)
Fixpoint repeat_char (c : ascii) (n : nat) : string :=
  match n with
  | O => EmptyString
  | S k => String c (repeat_char c k)
  end.

(** [sep.join(l)]. *)
Definition join (sep : string) (l : list string) : string :=
  String.concat sep l.

(** [str(n)] for a natural number. *)
Definition of_nat (n : nat) : string :=
  NilZero.string_of_uint (Nat.to_uint n).

(** [s.split('/')[-1]]: what follows the last slash. *)
Fixpoint last_segment (s : string) : string :=
  match s with
  | EmptyString => EmptyString
  | String c r =>
      if contains "/" r then last_segment r
      else if Ascii.eqb c "/" then r else s
  end.

(** [re.sub(cls, repl, s)] for a character class [cls] and a replacement
    [repl] of at most one character. *)
Fixpoint sub_class (cls : ascii -> bool) (repl : string) (s : string)
  : string :=
  match s with
  | EmptyString => EmptyString
  | String c r =>
      if cls c then repl ++ sub_class cls repl r
      else String c (sub_class cls repl r)
  end.

(** [re.sub(r'\s+', '_', s)]: each maximal run of whitespace becomes one
    underscore. *)
Fixpoint sub_spaces (s : string) : string :=
  match s with
  | EmptyString => EmptyString
  | String c r =>
      if isspace c
      then match r with
           | String c' _ =>
               if isspace c' then sub_spaces r else String "_" (sub_spaces r)
           | EmptyString => "_"
           end
      else String c (sub_spaces r)
  end.

(** [re.match(r'^\([a-z]\)', s)]. *)
Definition starts_with_letter_item (s : string) : bool :=
  match s with
  | String a (String b (String c _)) =>
      Ascii.eqb a "(" && is_lower_az b && Ascii.eqb c ")"
  | _ => false
  end.

(** The whole of [s] is [\d+(?:\.\d+)*].  [seen] says that the group
    being read already has a digit. *)
Fixpoint digit_groups (seen : bool) (s : string) : bool :=
  match s with
  | EmptyString => seen
  | String c r =>
      if isdigit c then digit_groups true r
      else if Ascii.eqb c "." then seen && digit_groups false r
      else false
  end.

(** [s] without its last character when that one is a line feed. *)
Fixpoint chomp (s : string) : option string :=
  match s with
  | EmptyString => None
  | String c EmptyString =>
      if Ascii.eqb c (ascii_of_nat 10) then Some EmptyString else None
  | String c r => option_map (String c) (chomp r)
  end.

(** [re.match(r'^\d+(?:\.\d+)*$', s)].  In [re], [$] holds at the end of
    the string and also just before a line feed that ends the string. *)
Definition match_section_number (s : string) : bool :=
  digit_groups false s
  || match chomp s with
     | Some s' => digit_groups false s'
     | None => false
     end.

(** One character of a section number read as a regular expression: the
    dot stands for any character but the line feed, anything else for
    itself. *)
Definition pattern_char (p c : ascii) : bool :=
  if Ascii.eqb p "." then negb (Ascii.eqb c (ascii_of_nat 10))
  else Ascii.eqb p c.

(** What is left of [text] once [pat] has matched at its start. *)
Fixpoint match_pattern (pat text : string) : option string :=
  match pat with
  | EmptyString => Some text
  | String p pat' =>
      match text with
      | EmptyString => None
      | String c text' =>
          if pattern_char p c then match_pattern pat' text' else None
      end
  end.

Definition skip_dot (s : string) : string :=
  match s with
  | String c r => if Ascii.eqb c "." then r else s
  | EmptyString => EmptyString
  end.

(** [re.sub(f'^{section_num}\.?\\s*', '', text)] for a [section_num]
    made of digits, dots and line feeds (what [match_section_number]
    lets through): the number is read as a pattern, then an optional
    dot and all the whitespace that follows are consumed. *)
Definition strip_section_number (section_num text : string) : string :=
  match match_pattern section_num text with
  | Some rest => lstrip (skip_dot rest)
  | None => text
  end.

End PyStr.

(* ===================================================================== *)
(** * The parsed document *)
(* ===================================================================== *)

Module Bs4.
Import PyStr.

(** An element has a name, its [class] attribute (a list of tokens, the
    one multi-valued attribute the scrapers read; [None] when absent),
    its other attributes as strings, and its children.  A [Text] is a
    [NavigableString]. *)
Inductive node : Type :=
| Text (s : string)
| Tag (name : string) (cls : option (list string))
      (attrs : list (string * string)) (children : list node).

(** The [BeautifulSoup] object that the parser returns. *)
Definition document (children : list node) : node :=
  Tag "[document]" None [] children.

Fixpoint lookup (k : string) (attrs : list (string * string))
  : option string :=
  match attrs with
  | [] => None
  | (k', v) :: r => if String.eqb k k' then Some v else lookup k r
  end.

(** [tag.get(k)]. *)
Definition get (k : string) (n : node) : option string :=
  match n with
  | Text _ => None
  | Tag _ _ attrs _ => lookup k attrs
  end.

(** [tag.get(k, default)]. *)
Definition get_default (k default : string) (n : node) : string :=
  match get k n with Some v => v | None => default end.

(** [tag.get('class', [])]. *)
Definition get_class (n : node) : list string :=
  match n with
  | Tag _ (Some l) _ _ => l
  | _ => []
  end.

Definition children_of (n : node) : list node :=
  match n with
  | Text _ => []
  | Tag _ _ _ cs => cs
  end.

Definition named (name : string) (n : node) : bool :=
  match n with
  | Text _ => false
  | Tag nm _ _ _ => String.eqb nm name
  end.

Definition named_any (names : list string) (n : node) : bool :=
  existsb (fun name => named name n) names.

(** [class_=c] for a single token [c]. *)
Definition has_class (c : string) (n : node) : bool :=
  existsb (String.eqb c) (get_class n).

(** [{k: v}] as an attribute filter. *)
Definition attr_is (k v : string) (n : node) : bool :=
  match get k n with
  | Some v' => String.eqb v' v
  | None => false
  end.

(** [k=True] as an attribute filter. *)
Definition has_attr (k : string) (n : node) : bool :=
  match get k n with Some _ => true | None => false end.

(** [style=lambda x: x and frag in x]. *)
Definition style_has (frag : string) (n : node) : bool :=
  match get "style" n with
  | Some x => truthy x && contains frag x
  | None => false
  end.

(** A descendant together with where it stands: its parent and the
    siblings that follow it. *)
Record located : Type := Located {
  here : node;
  parent : node;
  following : list node
}.

(** Every descendant in document order. *)
Fixpoint located_descendants (n : node) : list located :=
  match n with
  | Text _ => []
  | Tag _ _ _ cs =>
      (fix go (l : list node) : list located :=
         match l with
         | [] => []
         | c :: r => Located c n r :: located_descendants c ++ go r
         end) cs
  end.

Definition descendants (n : node) : list node :=
  map here (located_descendants n).

(** [n.find_all(...)] for a filter [p]. *)
Definition find_all (p : node -> bool) (n : node) : list node :=
  filter p (descendants n).

(** [n.find(...)]. *)
Definition find (p : node -> bool) (n : node) : option node :=
  hd_error (find_all p n).

(** The strings of a node in document order. *)
Fixpoint strings (n : node) : list string :=
  match n with
  | Text s => [s]
  | Tag _ _ _ cs => flat_map strings cs
  end.

(** [n.get_text()]. *)
Definition get_text (n : node) : string := String.concat "" (strings n).

(** [n.get_text(strip=True)]: each string is stripped, the empty ones
    are dropped, the rest concatenated. *)
Definition get_text_strip (n : node) : string :=
  String.concat "" (filter truthy (map strip (strings n))).

(** The first element that follows among the siblings, as the loop
    [while next_elem and isinstance(next_elem, str)] finds it. *)
Fixpoint next_element (following : list node) : option node :=
  match following with
  | [] => None
  | Text _ :: r => next_element r
  | t :: _ => Some t
  end.

(** [p]'s first match in document order, [n] itself being a candidate,
    with [f] applied to it; [None] when nothing matches. *)
Fixpoint edit_first (p : node -> bool) (f : node -> node) (n : node)
  : option node :=
  if p n then Some (f n)
  else
    match n with
    | Text _ => None
    | Tag nm c a cs =>
        option_map (Tag nm c a)
          ((fix go (l : list node) : option (list node) :=
              match l with
              | [] => None
              | x :: r =>
                  match edit_first p f x with
                  | Some x' => Some (x' :: r)
                  | None => option_map (cons x) (go r)
                  end
              end) cs)
    end.

Fixpoint edit_first_in (p : node -> bool) (f : node -> node)
         (l : list node) : option (list node) :=
  match l with
  | [] => None
  | x :: r =>
      match edit_first p f x with
      | Some x' => Some (x' :: r)
      | None => option_map (cons x) (edit_first_in p f r)
      end
  end.

(** The same among the descendants of [n]: what an in-place edit of
    the node returned by [n.find(p)] does to [n]. *)
Definition edit_found (p : node -> bool) (f : node -> node) (n : node)
  : node :=
  match n with
  | Text s => Text s
  | Tag nm c a cs =>
      match edit_first_in p f cs with
      | Some cs' => Tag nm c a cs'
      | None => n
      end
  end.

End Bs4.

(* ===================================================================== *)
(** * The surroundings of a run *)
(* ===================================================================== *)

Module Env.
Import PyStr.

(** What [urlparse] returns, as far as the scrapers read it. *)
Record parsed_url : Type := {
  (** [parsed.path]. *)
  url_path : string;
  (** [parse_qs(parsed.query).get(key, [''])[0]]. *)
  url_param : string -> string
}.

(** What the scrapers call and do not define. *)
Record World : Type := {
  (** [get(url)] followed by [raise_for_status()]: the body of the
      response, or [None] when either raises. *)
  http_get : string -> option string;
  (** [BeautifulSoup(content, 'html.parser')]. *)
  html_parser : string -> Bs4.node;
  (** [urllib.parse.urljoin(base, url)], or [None] when it raises
      [ValueError]. *)
  urljoin : string -> string -> option string;
  (** [urllib.parse.urlparse(url)], or [None] when it raises
      [ValueError]. *)
  urlparse : string -> option parsed_url;
  (** Whether [open(path, 'w')] and the writes that follow succeed. *)
  writable : string -> bool
}.

(** What a file holds: raw bytes, text, or a JSON dump of a value of
    the program. *)
Inductive content (J : Type) : Type :=
| Bytes (b : string)
| Chars (s : string)
| Json (j : J).
Arguments Bytes {J} b.
Arguments Chars {J} s.
Arguments Json {J} j.

(** The trace of a run: the requests sent and the files written, both
    in the order of the events. *)
Record Sys (J : Type) : Type := {
  requests : list string;
  files : list (string * content J)
}.
Arguments requests {J} s.
Arguments files {J} s.

Definition start {J : Type} : Sys J := {| requests := []; files := [] |}.

Definition sent {J : Type} (url : string) (st : Sys J) : Sys J :=
  {| requests := requests st ++ [url]; files := files st |}.

Definition written {J : Type} (path : string) (c : content J) (st : Sys J)
  : Sys J :=
  {| requests := requests st; files := files st ++ [(path, c)] |}.

(** How a call ends: with a value, or with an exception that nothing
    caught. *)
Inductive outcome (A : Type) : Type :=
| Ok (a : A)
| Raise.
Arguments Ok {A} a.
Arguments Raise {A}.

(** A loop that appends to a list what [f] gives for each element, and
    that an exception raised by [f] leaves at once. *)
Fixpoint collect {A B : Type} (f : A -> outcome (list B)) (l : list A)
  : outcome (list B) :=
  match l with
  | [] => Ok []
  | x :: r =>
      match f x with
      | Raise => Raise
      | Ok found =>
          match collect f r with
          | Raise => Raise
          | Ok rest => Ok (found ++ rest)
          end
      end
  end.

(** [pathlib]'s [/] and [os.path.join] on a directory and a name. *)
Definition path_join (dir name : string) : string := fstr [dir; "/"; name].

End Env.

(* ===================================================================== *)
(** * ccr-scraper.py *)
(* ===================================================================== *)

Module CCR.
Import PyStr Bs4 Env.

(** [self]: the two directories set by [__init__]. *)
Record CaliforniaRegulationsScraper : Type := {
  output_dir : string;
  images_dir : string
}.

Definition base_url : string := "https://shared-govt.westlaw.com".

Definition init (output_dir : string) : CaliforniaRegulationsScraper :=
  {| output_dir := output_dir; images_dir := path_join output_dir "images" |}.

Record image_record : Type := {
  original_url : string;
  local_file : string;
  alt_text : string;
  description : string
}.

Record section_info : Type := {
  section_title : string;
  section_url : string
}.

Record article_info : Type := {
  article_title : string;
  article_url : string
}.

(** An entry of [article_info['sections']] in the log. *)
Record logged_section : Type := {
  ls_title : string;
  ls_url : string;
  ls_filename : string;
  ls_images : list string
}.

Record logged_article : Type := {
  la_title : string;
  la_url : string;
  la_sections : list logged_section
}.

Record scraping_log : Type := {
  chapter_title : string;
  chapter_url : string;
  articles : list logged_article;
  total_sections : nat;
  images_downloaded : nat
}.

(** The two JSON files of a run. *)
Inductive json : Type :=
| LogJson (log : scraping_log)
| ImagesJson (images : list image_record).

Definition sys : Type := Sys json.

Section Scraper.
Variable w : World.
Variable self : CaliforniaRegulationsScraper.

Definition get_page_content (url : string) (st : sys)
  : option node * sys :=
  (option_map (html_parser w) (http_get w url), sent url st).

(** One turn of the loop shared by [extract_articles_from_chapter]
    and [extract_sections_from_article]: title and absolute address of
    the first link of the item.  [urljoin] is called outside any
    [try]. *)
Definition link_of (li : node) : outcome (list (string * string)) :=
  match find (named "a") li with
  | Some link =>
      match get "href" link with
      | Some href =>
          if truthy href
          then match urljoin w base_url href with
               | Some url => Ok [(get_text_strip link, url)]
               | None => Raise
               end
          else Ok []
      | None => Ok []
      end
  | None => Ok []
  end.

(** The body shared by the two methods, from the lookup of the white
    box on. *)
Definition listed_links (soup : node) : outcome (list (string * string)) :=
  match find (fun n => named "ul" n && has_class "co_genericWhiteBox" n)
             soup with
  | None => Ok []
  | Some box => collect link_of (find_all (named "li") box)
  end.

Definition extract_articles_from_chapter (chapter_url : string) (st : sys)
  : outcome (list article_info) * sys :=
  match get_page_content chapter_url st with
  | (None, st) => (Ok [], st)
  | (Some soup, st) =>
      match listed_links soup with
      | Ok links =>
          (Ok (map (fun l => {| article_title := fst l;
                                article_url := snd l |}) links), st)
      | Raise => (Raise, st)
      end
  end.

Definition extract_sections_from_article (article_url : string) (st : sys)
  : outcome (list section_info) * sys :=
  match get_page_content article_url st with
  | (None, st) => (Ok [], st)
  | (Some soup, st) =>
      match listed_links soup with
      | Ok links =>
          (Ok (map (fun l => {| section_title := fst l;
                                section_url := snd l |}) links), st)
      | Raise => (Raise, st)
      end
  end.

(** One loop of [convert_subscripts_to_text] as it shows on a
    descendant [n] of the element: every outermost [tag] element is
    replaced by one string, the marker followed by the text the
    element had.  (An element nested in a replaced one is replaced
    too, inside a subtree that no longer belongs to the document.) *)
Fixpoint replace_runs (tag marker : string) (n : node) : node :=
  match n with
  | Text s => Text s
  | Tag nm c a cs =>
      if String.eqb nm tag then Text (fstr [marker; get_text n])
      else Tag nm c a (map (replace_runs tag marker) cs)
  end.

Definition replace_runs_below (tag marker : string) (element : node)
  : node :=
  match element with
  | Text s => Text s
  | Tag nm c a cs => Tag nm c a (map (replace_runs tag marker) cs)
  end.

Definition convert_subscripts_to_text (element : node) : node :=
  replace_runs_below "sup" "^" (replace_runs_below "sub" "_" element).

Definition filename_class (c : ascii) : bool :=
  existsb (Ascii.eqb c)
    ["<"; ">"; ":"; ascii_of_nat 34; "/"; ascii_of_nat 92; "|"; "?"; "*";
     ascii_of_nat 167]%char.

(** The whole body is in a [try]: an exception of [urlparse], of the
    request or of the write makes the method return [None]. *)
Definition download_image (img_url section_title : string) (st : sys)
  : option string * sys :=
  let clean_title :=
    sub_class (fun c => filename_class c || Ascii.eqb c ".") "_"
              section_title in
  let clean_title := sub_spaces clean_title in
  match urlparse w img_url with
  | None => (None, st)
  | Some parsed_url =>
      let img_name := last_segment (url_path parsed_url) in
      let img_name :=
        if negb (truthy img_name) || negb (contains "." img_name)
        then "formula.png" else img_name in
      let local_filename := fstr [clean_title; "_"; img_name] in
      let local_path := path_join (images_dir self) local_filename in
      let st := sent img_url st in
      match http_get w img_url with
      | None => (None, st)
      | Some body =>
          if writable w local_path
          then (Some local_filename, written local_path (Bytes body) st)
          else (None, st)
      end
  end.

(** Lines 135-140; [None] when [urljoin] raises. *)
Definition image_url (img_src : string) : option string :=
  if startswith "/" img_src then urljoin w "https://govt.westlaw.com" img_src
  else if startswith "http" img_src then Some img_src
  else urljoin w base_url img_src.

(** The test of lines 147-149 on the classes of the parent and on the
    lowered [alt]. *)
Definition looks_mathematical (parent_class : list string)
           (img_alt : string) : bool :=
  existsb (contains "figure") parent_class
  || contains "formula" img_alt
  || contains "equation" img_alt
  || existsb (fun word => contains word img_alt)
             ["sum"; "equals"; "water loss"].

Definition placeholder (local_filename : string) (img : node) : node :=
  Text (fstr [nl; "[IMAGE: "; local_filename; " - ";
              get_default "alt" "Mathematical formula" img; "]"; nl]).

(** The body of the loop of [process_mathematical_images] for one
    [img]: the record appended and the string that takes the place of
    the image, if any.  The address is made absolute before the image
    is tested, outside any [try]. *)
Definition process_image (section_title : string)
           (parent_class : list string) (img : node) (st : sys)
  : outcome (option (image_record * node)) * sys :=
  match get "src" img with
  | Some img_src =>
      if truthy img_src then
        match image_url img_src with
        | None => (Raise, st)
        | Some img_url =>
            let img_alt := lower (get_default "alt" "" img) in
            if looks_mathematical parent_class img_alt then
              match download_image img_url section_title st with
              | (Some local_filename, st) =>
                  (Ok (Some ({| original_url := img_url;
                                local_file := local_filename;
                                alt_text := get_default "alt" "" img;
                                description :=
                                  fstr ["Mathematical formula from ";
                                        section_title] |},
                             placeholder local_filename img)), st)
              | (None, st) => (Ok None, st)
              end
            else (Ok None, st)
        end
      else (Ok None, st)
  | None => (Ok None, st)
  end.

(** [process_mathematical_images] below a node whose parent has the
    classes [parent_class]: the images are visited in document order;
    the result is the edited node, the records appended and the new
    trace, or [Raise] with the trace as it was when [urljoin] raised.
    (With [html.parser] an [img] has no children; were there any, the
    loop would visit them too, also under an image that was replaced,
    and so does the model.) *)
Fixpoint process_images_in (section_title : string)
         (parent_class : list string) (n : node) (st : sys)
  : outcome (node * list image_record) * sys :=
  match n with
  | Text s => (Ok (Text s, []), st)
  | Tag nm c a cs =>
      match (if String.eqb nm "img"
             then process_image section_title parent_class n st
             else (Ok None, st)) with
      | (Raise, st) => (Raise, st)
      | (Ok found, st) =>
          match (fix go (l : list node) (st : sys)
                   : outcome (list node * list image_record) * sys :=
                   match l with
                   | [] => (Ok ([], []), st)
                   | x :: r =>
                       match process_images_in section_title (get_class n)
                                               x st with
                       | (Raise, st) => (Raise, st)
                       | (Ok (x', r1), st) =>
                           match go r st with
                           | (Raise, st) => (Raise, st)
                           | (Ok (r', r2), st) =>
                               (Ok (x' :: r', r1 ++ r2), st)
                           end
                       end
                   end) cs st with
          | (Raise, st) => (Raise, st)
          | (Ok (cs', below), st) =>
              match found with
              | Some (record, text) => (Ok (text, record :: below), st)
              | None => (Ok (Tag nm c a cs', below), st)
              end
          end
      end
  end.

(** The document is edited in place: the model returns it beside the
    list the method returns. *)
Definition process_mathematical_images (soup : node)
           (section_title : string) (st : sys)
  : outcome (node * list image_record) * sys :=
  match soup with
  | Text s => (Ok (Text s, []), st)
  | Tag nm c a cs =>
      match (fix go (l : list node) (st : sys)
               : outcome (list node * list image_record) * sys :=
               match l with
               | [] => (Ok ([], []), st)
               | x :: r =>
                   match process_images_in section_title (get_class soup)
                                           x st with
                   | (Raise, st) => (Raise, st)
                   | (Ok (x', r1), st) =>
                       match go r st with
                       | (Raise, st) => (Raise, st)
                       | (Ok (r', r2), st) => (Ok (x' :: r', r1 ++ r2), st)
                       end
                   end
               end) cs st with
      | (Raise, st) => (Raise, st)
      | (Ok (cs', images), st) => (Ok (Tag nm c a cs', images), st)
      end
  end.

Definition is_doc_content (n : node) : bool :=
  named "div" n && attr_is "id" "co_document" n.

Definition is_content_block (n : node) : bool :=
  named "div" n && has_class "co_contentBlock" n.

(** The test of line 206. *)
Definition is_skipped (block : node) : bool :=
  existsb (fun cls => existsb (String.eqb cls) (get_class block))
          ["co_documentHead"; "co_printHeading"].

(** Lines 181-199: the title, its underline and a blank line, then
    the items of the citation list and a blank line. *)
Definition is_title_section (n : node) : bool :=
  named "div" n && attr_is "id" "co_docHeaderTitle" n.

Definition is_citation_list (n : node) : bool :=
  named "ul" n && attr_is "id" "co_docHeaderCitation" n.

Definition heading_lines (soup : node) : list string :=
  match find is_title_section soup with
  | None => []
  | Some title_section =>
      (match find (named "h1") title_section with
       | Some title_h1 =>
           let title_text := get_text_strip title_h1 in
           [title_text; repeat_char "=" (String.length title_text); ""]
       | None => []
       end)
      ++
      (match find is_citation_list title_section with
       | Some citation_ul =>
           filter truthy
                  (map get_text_strip (find_all (named "li") citation_ul))
           ++ [""]
       | None => []
       end)
  end.

(** The three methods below append to [content_lines]; they return
    the list as it is after the call. *)
Definition process_section_block (block : node)
           (content_lines : list string) : list string :=
  fold_left
    (fun lines para =>
       let para_text := get_text_strip para in
       if truthy para_text
       then (if starts_with_letter_item para_text
             then lines ++ [""] else lines) ++ [para_text]
       else lines)
    (find_all (fun n => named "div" n && has_class "co_paragraph" n) block)
    content_lines
  ++ [""].

Definition process_subsection_block (block : node)
           (content_lines : list string) : list string :=
  let text := get_text_strip block in
  if truthy text then content_lines ++ [text; ""] else content_lines.

Definition process_paragraph_block (block : node)
           (content_lines : list string) : list string :=
  let text := get_text_strip block in
  if truthy text then content_lines ++ [text] else content_lines.

(** One turn of the loop of lines 204-224.  A block is read when its
    turn comes; by then an enclosing block may have been converted,
    and whatever stood in one of its runs has left the document.  In
    both cases the subtree of the block then holds what
    [convert_subscripts_to_text] makes of the subtree it had before
    the loop, which is what is read here. *)
Definition process_block (content_lines : list string) (block : node)
  : list string :=
  if is_skipped block then content_lines
  else
    let block := convert_subscripts_to_text block in
    if has_class "co_section" block
    then process_section_block block content_lines
    else if has_class "co_subsection" block
    then process_subsection_block block content_lines
    else if has_class "co_paragraph" block
    then process_paragraph_block block content_lines
    else
      let text := get_text_strip block in
      if truthy text
         && negb (existsb (fun pre => startswith pre text)
                          ["Note:"; "History:"; "Credits"])
      then content_lines ++ [text; ""]
      else content_lines.

(** What the loop of lines 204-224 leaves of a descendant of the
    content container: the outermost blocks that are not skipped are
    converted (nothing is left to convert in the blocks they
    enclose). *)
Fixpoint convert_blocks (n : node) : node :=
  match n with
  | Text s => Text s
  | Tag nm c a cs =>
      if is_content_block n && negb (is_skipped n)
      then convert_subscripts_to_text n
      else Tag nm c a (map convert_blocks cs)
  end.

Definition convert_blocks_below (doc_content : node) : node :=
  match doc_content with
  | Text s => Text s
  | Tag nm c a cs => Tag nm c a (map convert_blocks cs)
  end.

(** Lines 174-226 on the document as the image extractor left it: the
    content returned, and the document as it is afterwards. *)
Definition normalize (soup : node) : string * node :=
  match find is_doc_content soup with
  | None => ("", soup)
  | Some doc_content =>
      let content_lines := heading_lines soup in
      let content_blocks := find_all is_content_block doc_content in
      let content_lines :=
        fold_left process_block content_blocks content_lines in
      (join nl content_lines,
       edit_found is_doc_content convert_blocks_below soup)
  end.

Definition extract_section_content (section_url section_title : string)
           (st : sys) : outcome (string * list image_record) * sys :=
  match get_page_content section_url st with
  | (None, st) => (Ok ("", []), st)
  | (Some soup, st) =>
      match process_mathematical_images soup section_title st with
      | (Raise, st) => (Raise, st)
      | (Ok (soup, images), st) => (Ok (fst (normalize soup), images), st)
      end
  end.

Definition create_safe_filename (title : string) : string :=
  let clean_title := sub_class filename_class "" title in
  let clean_title := sub_spaces (strip clean_title) in
  if Nat.ltb 100 (String.length clean_title) then take 100 clean_title
  else clean_title.

Definition section_file (i : nat) (article : article_info)
           (section : section_info) (content : string) : string :=
  fstr ["CALIFORNIA CODE OF REGULATIONS"; nl;
        "Title 23. Waters"; nl;
        "Division 3. State Water Resources Control Board and Regional Water Quality Control Boards"; nl;
        "Chapter 3.5. Urban Water Use Efficiency and Conservation"; nl;
        "Article "; of_nat i; ": "; article_title article; nl;
        "URL: "; section_url section; nl;
        repeat_char "=" 80; nl; nl;
        content].

(** The two accumulators of the run that outlive an article. *)
Record tally : Type := {
  all_images : list image_record;
  sections_written : nat
}.

(** The loop of lines 297-335 from section number [j] on;
    [logged] is [article_info['sections']]. *)
Fixpoint scrape_sections (i : nat) (article : article_info) (j : nat)
         (sections : list section_info) (logged : list logged_section)
         (t : tally) (st : sys)
  : outcome (list logged_section * tally) * sys :=
  match sections with
  | [] => (Ok (logged, t), st)
  | section :: rest =>
      match extract_section_content (section_url section)
                                    (section_title section) st with
      | (Raise, st) => (Raise, st)
      | (Ok (content, images), st) =>
          if truthy content then
            let filename :=
              fstr ["article_"; of_nat i; "_section_"; of_nat j; "_";
                    create_safe_filename (section_title section); ".txt"] in
            let filepath := path_join (output_dir self) filename in
            if writable w filepath then
              let st :=
                written filepath
                        (Chars (section_file i article section content))
                        st in
              let section_info :=
                {| ls_title := section_title section;
                   ls_url := section_url section;
                   ls_filename := filename;
                   ls_images := map local_file images |} in
              scrape_sections i article (S j) rest
                (logged ++ [section_info])
                {| all_images := all_images t ++ images;
                   sections_written := S (sections_written t) |} st
            else (Raise, st)
          else scrape_sections i article (S j) rest logged t st
      end
  end.

(** The loop of lines 283-337 from article number [i] on; [logged] is
    [scraping_log['articles']]. *)
Fixpoint scrape_articles (i : nat) (articles : list article_info)
         (logged : list logged_article) (t : tally) (st : sys)
  : outcome (list logged_article * tally) * sys :=
  match articles with
  | [] => (Ok (logged, t), st)
  | article :: rest =>
      match extract_sections_from_article (article_url article) st with
      | (Raise, st) => (Raise, st)
      | (Ok sections, st) =>
          match scrape_sections i article 1 sections [] t st with
          | (Ok (article_sections, t), st) =>
              let article_info :=
                {| la_title := article_title article;
                   la_url := article_url article;
                   la_sections := article_sections |} in
              scrape_articles (S i) rest (logged ++ [article_info]) t st
          | (Raise, st) => (Raise, st)
          end
      end
  end.

(** The method returns nothing; the model returns the log and the
    list of images as they are when it ends. *)
Definition scrape_chapter_3_5 (chapter_url : string) (st : sys)
  : outcome (scraping_log * list image_record) * sys :=
  match extract_articles_from_chapter chapter_url st with
  | (Raise, st) => (Raise, st)
  | (Ok articles, st) =>
      match scrape_articles 1 articles []
              {| all_images := []; sections_written := 0 |} st with
      | (Raise, st) => (Raise, st)
      | (Ok (logged, t), st) =>
          let scraping_log :=
            {| chapter_title :=
                 "Chapter 3.5. Urban Water Use Efficiency and Conservation";
               chapter_url := chapter_url;
               articles := logged;
               total_sections := sections_written t;
               images_downloaded := List.length (all_images t) |} in
          let log_file := path_join (output_dir self) "scraping_log.json" in
          if writable w log_file then
            let st := written log_file (Json (LogJson scraping_log)) st in
            match all_images t with
            | [] => (Ok (scraping_log, all_images t), st)
            | _ :: _ =>
                let images_file :=
                  path_join (output_dir self) "images_metadata.json" in
                if writable w images_file
                then (Ok (scraping_log, all_images t),
                      written images_file (Json (ImagesJson (all_images t)))
                              st)
                else (Raise, st)
            end
          else (Raise, st)
      end
  end.

End Scraper.
End CCR.

(* ===================================================================== *)
(** * water-code-scraper.py *)
(* ===================================================================== *)

Module WaterCode.
Import PyStr Bs4 Env.

Definition BASE_URL : string := "https://leginfo.legislature.ca.gov".
Definition OUTPUT_BASE_DIR : string := "california_legal_codes".

(** The dictionaries built by the three discovery functions. *)
Record article_info : Type := {
  a_url : string;
  a_title : string;
  a_code : string;
  a_division : string;
  a_part : string;
  a_chapter : string;
  a_article : string;
  a_range : string
}.

Record chapter_info : Type := {
  c_url : string;
  c_title : string;
  c_code : string;
  c_division : string;
  c_part : string;
  c_chapter : string;
  c_has_articles : bool;
  c_range : string;
  c_articles : list article_info
}.

Record part_info : Type := {
  p_url : string;
  p_title : string;
  p_part : string;
  p_code : string;
  p_division : string;
  p_has_chapters : bool;
  p_range : string;
  p_chapters : list chapter_info
}.

(** An entry of [CODE_SECTIONS_TO_SCRAPE]. *)
Record config : Type := {
  code : string;
  code_name : string;
  division : string;
  division_name : option string;
  parts : option (list string)
}.

Definition CODE_SECTIONS_TO_SCRAPE : list config :=
  [ {| code := "WAT"; code_name := "Water Code"; division := "6";
       division_name :=
         Some "CONSERVATION, DEVELOPMENT, AND UTILIZATION OF STATE WATER RESOURCES";
       parts := None |};
    {| code := "HSC"; code_name := "Health and Safety Code";
       division := "104"; division_name := None;
       parts := Some ["12"] |} ].

(** The structure file holds the list of parts. *)
Definition sys : Type := Sys (list part_info).

Record counts : Type := {
  successful_downloads : nat;
  total_items : nat
}.

Section Scraper.
Variable w : World.

Definition is_branch (n : node) : bool :=
  named "div" n && attr_is "id" "expandedbranchcodesid" n.

Definition is_link (n : node) : bool := named "a" n && has_attr "href" n.

Definition indented (frag : string) (n : node) : bool :=
  named "div" n && style_has frag n.

(** [range_div.get_text(strip=True) if range_div else ""]. *)
Definition range_of (anchor : node) : string :=
  match find (indented "float:right") anchor with
  | Some range_div => get_text_strip range_div
  | None => ""
  end.

(** [specific_parts and part.rstrip('.') not in specific_parts]. *)
Definition filtered_out (specific_parts : option (list string))
           (part : string) : bool :=
  match specific_parts with
  | None | Some [] => false
  | Some l => negb (existsb (String.eqb (rstrip_char "." part)) l)
  end.

(** One turn of the loop of [get_division_structure]: the parts the
    anchor adds to [parts_info].  [urlparse] (line 78) and [urljoin]
    (line 94) are called outside any [try]. *)
Definition part_of_anchor (code division : string)
           (specific_parts : option (list string)) (anchor : node)
  : outcome (list part_info) :=
  let href := get_default "href" "" anchor in
  match find (indented "margin-left:20px") anchor with
  | None => Ok []
  | Some part_div =>
      let link_text := get_text_strip part_div in
      if negb (contains "PART" (upper link_text)) then Ok []
      else if contains "(Reserved)" link_text then Ok []
      else
        match urlparse w href with
        | None => Raise
        | Some parsed =>
            let part := url_param parsed "part" in
            if negb (truthy part) then Ok []
            else if filtered_out specific_parts part then Ok []
            else
              match urljoin w BASE_URL href with
              | None => Raise
              | Some url =>
                  Ok [ {| p_url := url;
                          p_title := link_text;
                          p_part := part;
                          p_code := code;
                          p_division := division;
                          p_has_chapters :=
                            contains "displayexpandedbranch" href;
                          p_range := range_of anchor;
                          p_chapters := [] |} ]
              end
        end
  end.

Definition get_division_structure (code division : string)
           (specific_parts : option (list string)) (st : sys)
  : outcome (list part_info) * sys :=
  let url :=
    fstr [BASE_URL;
          "/faces/codes_displayexpandedbranch.xhtml?tocCode="; code;
          "&division="; division; ".&title=&part=&chapter=&article="] in
  let st := sent url st in
  match http_get w url with
  | None => (Raise, st)
  | Some body =>
      let soup := html_parser w body in
      match find is_branch soup with
      | None => (Ok [], st)
      | Some content_div =>
          (collect (part_of_anchor code division specific_parts)
                   (find_all is_link content_div), st)
      end
  end.

(** One turn of the loop of [get_chapters_for_part].  [urlparse]
    (line 141) and [urljoin] (lines 157 and 172) are called outside
    any [try]; [urljoin] is reached only in the two branches that
    append. *)
Definition chapter_of_anchor (code division : string) (anchor : node)
  : outcome (list chapter_info) :=
  let href := get_default "href" "" anchor in
  match find (indented "margin-left:30px") anchor with
  | None => Ok []
  | Some chapter_div =>
      let link_text := get_text_strip chapter_div in
      if contains "(Reserved)" link_text then Ok []
      else if negb (contains "CHAPTER" (upper link_text)) then Ok []
      else
        match urlparse w href with
        | None => Raise
        | Some parsed =>
            let chapter_num := url_param parsed "chapter" in
            if negb (truthy chapter_num) then Ok []
            else
              let chapter_info (has_articles : bool) :=
                match urljoin w BASE_URL href with
                | None => Raise
                | Some url =>
                    Ok [ {| c_url := url;
                            c_title := link_text;
                            c_code := code;
                            c_division := division;
                            c_part := url_param parsed "part";
                            c_chapter := chapter_num;
                            c_has_articles := has_articles;
                            c_range := range_of anchor;
                            c_articles := [] |} ]
                end in
              if contains "codes_displayexpandedbranch.xhtml" href
              then chapter_info true
              else if contains "codes_displayText.xhtml" href
              then chapter_info false
              else Ok []
        end
  end.

Definition get_chapters_for_part (part_url code division part : string)
           (st : sys) : outcome (list chapter_info) * sys :=
  let st := sent part_url st in
  match http_get w part_url with
  | None => (Raise, st)
  | Some body =>
      let soup := html_parser w body in
      match find is_branch soup with
      | None => (Ok [], st)
      | Some content_div =>
          (collect (chapter_of_anchor code division)
                   (find_all is_link content_div), st)
      end
  end.

(** One turn of the loop of [get_articles_for_chapter].  [urlparse]
    (line 213) and [urljoin] (line 221) are called outside any
    [try]. *)
Definition article_of_anchor (code division : string) (anchor : node)
  : outcome (list article_info) :=
  let href := get_default "href" "" anchor in
  match find (indented "margin-left:40px") anchor with
  | None => Ok []
  | Some article_div =>
      let link_text := get_text_strip article_div in
      if contains "codes_displayText.xhtml" href
         && contains "ARTICLE" (upper link_text)
      then
        match urlparse w href with
        | None => Raise
        | Some parsed =>
            match urljoin w BASE_URL href with
            | None => Raise
            | Some url =>
                Ok [ {| a_url := url;
                        a_title := link_text;
                        a_code := code;
                        a_division := division;
                        a_part := url_param parsed "part";
                        a_chapter := url_param parsed "chapter";
                        a_article := url_param parsed "article";
                        a_range := range_of anchor |} ]
            end
        end
      else Ok []
  end.

Definition get_articles_for_chapter
           (chapter_url code division part chapter : string) (st : sys)
  : outcome (list article_info) * sys :=
  let st := sent chapter_url st in
  match http_get w chapter_url with
  | None => (Raise, st)
  | Some body =>
      let soup := html_parser w body in
      match find is_branch soup with
      | None => (Ok [], st)
      | Some content_div =>
          (collect (article_of_anchor code division)
                   (find_all is_link content_div), st)
      end
  end.

Definition is_header (n : node) : bool := named_any ["h3"; "h4"; "h5"] n.

(** Lines 251-267 for one header. *)
Definition header_lines (header : located) : list string :=
  let header_text := get_text_strip (here header) in
  if truthy header_text then
    [header_text]
    ++ match next_element (following header) with
       | Some next_elem =>
           if named "i" next_elem
              || (named "text" next_elem && named "i" (parent header))
           then
             let citation_text := get_text_strip next_elem in
             if truthy citation_text then [fstr ["  "; citation_text]]
             else []
           else []
       | None => []
       end
    ++ [""]
  else [].

(** The two tests of lines 301 and 303 on a paragraph. *)
Definition is_citation (p : node) : bool :=
  contains "font-size:0.9em" (get_default "style" "" p)
  || match find (named "i") p with Some _ => true | None => false end.

Definition is_section_text (p : node) : bool :=
  contains "display:inline" (get_default "style" "" p)
  || contains "margin:0" (get_default "style" "" p).

(** One turn of the loop of lines 295-305 on the pair
    [(section_texts, citation_text)]. *)
Definition classify_paragraph (acc : list string * option string)
           (p : node) : list string * option string :=
  let p_text := get_text_strip p in
  if truthy p_text then
    if is_citation p then (fst acc, Some p_text)
    else if is_section_text p then (fst acc ++ [p_text], snd acc)
    else acc
  else acc.

(** The section number read from the anchor and the test of
    line 286. *)
Definition section_number_of (section_link : node) : string :=
  rstrip_char "." (get_text_strip section_link).

(** Lines 273-316 for one [div]: what it appends to [output]. *)
Definition section_lines (div : node) : list string :=
  match find is_header div with
  | Some _ => []
  | None =>
      match find (named "h6") div with
      | None => []
      | Some h6 =>
          match find (named "a") h6 with
          | None => []
          | Some section_link =>
              let section_num := section_number_of section_link in
              if match_section_number section_num then
                let '(section_texts, citation_text) :=
                  fold_left classify_paragraph
                            (find_all (named "p") div) ([], None) in
                [fstr [nl; section_num; "."]]
                ++ match section_texts with
                   | [] => []
                   | _ :: _ =>
                       [fstr [" ";
                              strip_section_number
                                section_num (join " " section_texts)]]
                   end
                ++ match citation_text with
                   | Some c => [fstr [nl; c]]
                   | None => []
                   end
              else []
          end
      end
  end.

Definition main_container (soup : node) : option node :=
  match find (fun n => named "div" n && attr_is "id" "manylawsections" n)
             soup with
  | Some d => Some d
  | None =>
      match find (fun n => named "div" n
                           && attr_is "id" "display_code_many_law_sections"
                                      n) soup with
      | Some d => Some d
      | None =>
          find (fun n => named "div" n
                         && has_class "displaycodeleftmargin" n) soup
      end
  end.

Definition parse_legal_code_html (soup : node) : string :=
  match main_container soup with
  | None => ""
  | Some main_div =>
      let output :=
        flat_map header_lines
                 (filter (fun l => is_header (here l))
                         (located_descendants main_div)) in
      let output :=
        output
        ++ flat_map section_lines
                    (find_all (fun n => named "div" n
                                        && attr_is "align" "left" n)
                              main_div) in
      join nl output
  end.

Definition scrape_content (url : string) (st : sys)
  : outcome string * sys :=
  let st := sent url st in
  match http_get w url with
  | None => (Raise, st)
  | Some body => (Ok (parse_legal_code_html (html_parser w body)), st)
  end.

Definition title_class (c : ascii) : bool :=
  existsb (Ascii.eqb c)
    ["<"; ">"; ":"; ascii_of_nat 34; "/"; ascii_of_nat 92; "|"; "?";
     "*"]%char.

(** [create_filename(info)], with the empty string for a key that
    [info] lacks. *)
Definition create_filename
           (code division part chapter article title : string) : string :=
  let division := replace_char "." "_" division in
  let part :=
    if truthy part then replace_char "." "_" part else "unknown" in
  let chapter := replace_char "." "_" chapter in
  let article := replace_char "." "_" article in
  let title_clean := sub_class title_class "_" title in
  let title_clean := sub_spaces title_clean in
  let title_clean := take 50 title_clean in
  if truthy article then
    fstr [code; "_div"; division; "_part"; part; "_ch"; chapter; "_art";
          article; "_"; title_clean; ".txt"]
  else if truthy chapter then
    fstr [code; "_div"; division; "_part"; part; "_ch"; chapter; "_";
          title_clean; ".txt"]
  else
    fstr [code; "_div"; division; "_part"; part; "_"; title_clean; ".txt"].

(** A [try] block of [scrape_code_section] with its
    [except Exception]: the leaf at [url] is fetched and, when it has
    content, written to [filename] under [heading].  The result says
    whether [successful_downloads] was incremented. *)
Definition try_leaf (output_dir url filename heading : string) (st : sys)
  : bool * sys :=
  match scrape_content url st with
  | (Raise, st) => (false, st)
  | (Ok content, st) =>
      if truthy content then
        let filepath := path_join output_dir filename in
        if writable w filepath
        then (true, written filepath (Chars (fstr [heading; content])) st)
        else (false, st)
      else (false, st)
  end.

Definition counted (ok : bool) (c : counts) : counts :=
  {| successful_downloads :=
       if ok then S (successful_downloads c) else successful_downloads c;
     total_items := S (total_items c) |}.

Definition rule : string := fstr [repeat_char "=" 80; nl; nl].

Section Run.
Variable cfg : config.

Definition output_dir : string :=
  path_join OUTPUT_BASE_DIR
            (fstr [code cfg; "_division_"; division cfg]).

Definition article_heading (article : article_info) : string :=
  fstr [upper (code_name cfg); " - "; code cfg; nl;
        "Division "; a_division article; ", Part "; a_part article; ", ";
        "Chapter "; a_chapter article; ", Article "; a_article article;
        nl;
        "Title: "; a_title article; nl;
        "URL: "; a_url article; nl; rule].

Definition chapter_heading (chapter : chapter_info) : string :=
  fstr [upper (code_name cfg); " - "; code cfg; nl;
        "Division "; c_division chapter; ", Part "; c_part chapter;
        ", Chapter "; c_chapter chapter; nl;
        "Title: "; c_title chapter; nl;
        "URL: "; c_url chapter; nl; rule].

Definition part_heading (part : part_info) : string :=
  fstr [upper (code_name cfg); " - "; code cfg; nl;
        "Division "; p_division part; ", Part "; p_part part; nl;
        "Title: "; p_title part; nl;
        "URL: "; p_url part; nl; rule].

(** The loop of lines 412-441. *)
Fixpoint scrape_articles (articles : list article_info) (c : counts)
         (st : sys) : counts * sys :=
  match articles with
  | [] => (c, st)
  | article :: rest =>
      let '(ok, st) :=
        try_leaf output_dir (a_url article)
          (create_filename (a_code article) (a_division article)
             (a_part article) (a_chapter article) (a_article article)
             (a_title article))
          (article_heading article) st in
      scrape_articles rest (counted ok c) st
  end.

(** One turn of the loop of lines 400-473: the chapter as it is
    afterwards, and the counters. *)
Definition scrape_chapter (chapter : chapter_info) (c : counts)
           (st : sys) : outcome (chapter_info * counts) * sys :=
  if c_has_articles chapter then
    match get_articles_for_chapter (c_url chapter) (code cfg)
            (division cfg) (c_part chapter) (c_chapter chapter) st with
    | (Raise, st) => (Raise, st)
    | (Ok [], st) => (Ok (chapter, c), st)
    | (Ok articles, st) =>
        let chapter :=
          {| c_url := c_url chapter; c_title := c_title chapter;
             c_code := c_code chapter; c_division := c_division chapter;
             c_part := c_part chapter; c_chapter := c_chapter chapter;
             c_has_articles := c_has_articles chapter;
             c_range := c_range chapter;
             c_articles := articles |} in
        let '(c, st) := scrape_articles articles c st in
        (Ok (chapter, c), st)
    end
  else
    let '(ok, st) :=
      try_leaf output_dir (c_url chapter)
        (create_filename (c_code chapter) (c_division chapter)
           (c_part chapter) (c_chapter chapter) "" (c_title chapter))
        (chapter_heading chapter) st in
    (Ok (chapter, counted ok c), st).

Fixpoint scrape_chapters (chapters : list chapter_info) (c : counts)
         (st : sys) : outcome (list chapter_info * counts) * sys :=
  match chapters with
  | [] => (Ok ([], c), st)
  | chapter :: rest =>
      match scrape_chapter chapter c st with
      | (Raise, st) => (Raise, st)
      | (Ok (chapter, c), st) =>
          match scrape_chapters rest c st with
          | (Raise, st) => (Raise, st)
          | (Ok (rest, c), st) => (Ok (chapter :: rest, c), st)
          end
      end
  end.

(** One turn of the loop of lines 387-505. *)
Definition scrape_part (part : part_info) (c : counts) (st : sys)
  : outcome (part_info * counts) * sys :=
  if p_has_chapters part then
    match get_chapters_for_part (p_url part) (code cfg) (division cfg)
            (p_part part) st with
    | (Raise, st) => (Raise, st)
    | (Ok [], st) => (Ok (part, c), st)
    | (Ok chapters, st) =>
        match scrape_chapters chapters c st with
        | (Raise, st) => (Raise, st)
        | (Ok (chapters, c), st) =>
            (Ok ({| p_url := p_url part; p_title := p_title part;
                    p_part := p_part part; p_code := p_code part;
                    p_division := p_division part;
                    p_has_chapters := p_has_chapters part;
                    p_range := p_range part;
                    p_chapters := chapters |}, c), st)
        end
    end
  else
    let '(ok, st) :=
      try_leaf output_dir (p_url part)
        (create_filename (p_code part) (p_division part) (p_part part)
           "" "" (p_title part))
        (part_heading part) st in
    (Ok (part, counted ok c), st).

Fixpoint scrape_parts (parts : list part_info) (c : counts) (st : sys)
  : outcome (list part_info * counts) * sys :=
  match parts with
  | [] => (Ok ([], c), st)
  | part :: rest =>
      match scrape_part part c st with
      | (Raise, st) => (Raise, st)
      | (Ok (part, c), st) =>
          match scrape_parts rest c st with
          | (Raise, st) => (Raise, st)
          | (Ok (rest, c), st) => (Ok (part :: rest, c), st)
          end
      end
  end.

Definition structure_file : string :=
  path_join output_dir
            (fstr [code cfg; "_division_"; division cfg;
                   "_structure.json"]).

Definition scrape_code_section (st : sys) : outcome (nat * nat) * sys :=
  match get_division_structure (code cfg) (division cfg) (parts cfg)
          st with
  | (Raise, st) => (Raise, st)
  | (Ok [], st) => (Ok (0, 0), st)
  | (Ok parts, st) =>
      match scrape_parts parts
              {| successful_downloads := 0; total_items := 0 |} st with
      | (Raise, st) => (Raise, st)
      | (Ok (parts, c), st) =>
          if writable w structure_file
          then (Ok (successful_downloads c, total_items c),
                written structure_file (Json parts) st)
          else (Raise, st)
      end
  end.

End Run.

(** The loop of [main] over the configured code sections, with its
    two totals. *)
Fixpoint scrape_all (configs : list config) (totals : nat * nat)
         (st : sys) : outcome (nat * nat) * sys :=
  match configs with
  | [] => (Ok totals, st)
  | cfg :: rest =>
      match scrape_code_section cfg st with
      | (Raise, st) => (Raise, st)
      | (Ok (successful, items), st) =>
          scrape_all rest (fst totals + successful, snd totals + items) st
      end
  end.

Definition main (st : sys) : outcome (nat * nat) * sys :=
  scrape_all CODE_SECTIONS_TO_SCRAPE (0, 0) st.

End Scraper.
End WaterCode.

(* ===================================================================== *)
(** * Notions used to state the properties *)
(* ===================================================================== *)

Module Props.
Import PyStr Bs4 Env.

(** A document with one node taken out: the path from the top to the
    hole, with the siblings before and after it at each level. *)
Inductive context : Type :=
| Hole
| Below (name : string) (cls : option (list string))
        (attrs : list (string * string))
        (before : list node) (inner : context) (after : list node).

Fixpoint plug (k : context) (n : node) : node :=
  match k with
  | Hole => n
  | Below nm c a before inner after =>
      Tag nm c a (before ++ plug inner n :: after)
  end.

(** [p] holds nowhere in [n], [n] included. *)
Fixpoint nowhere (p : node -> bool) (n : node) : bool :=
  negb (p n)
  && match n with
     | Text _ => true
     | Tag _ _ _ cs => forallb (nowhere p) cs
     end.

(** Of the nodes of [plug k n], the top included, [n] is the first in
    document order that passes [p]: no node on the way to it passes,
    and none before it. *)
Fixpoint first_at (p : node -> bool) (k : context) (n : node) : Prop :=
  match k with
  | Hole => p n = true
  | Below nm c a before inner after =>
      p (Tag nm c a (before ++ plug inner n :: after)) = false
      /\ forallb (nowhere p) before = true
      /\ first_at p inner n
  end.

(** The same among the descendants of the top: where [find] finds
    [n]. *)
Definition found_at (p : node -> bool) (k : context) (n : node) : Prop :=
  match k with
  | Hole => False
  | Below nm c a before inner after =>
      forallb (nowhere p) before = true /\ first_at p inner n
  end.

(** A content block that the normalizer processes: a [div] of class
    [co_contentBlock] that is neither a document head nor a print
    heading. *)
Definition processed_block (n : node) : bool :=
  named "div" n && has_class "co_contentBlock" n
  && negb (has_class "co_documentHead" n)
  && negb (has_class "co_printHeading" n).

(** [converted t t']: what a node inside a processed block becomes.
    Each [sub] element has given way to one string, an underscore
    followed by the text of the element; each [sup] element to a caret
    followed by its text (in which the [sub] elements had given way
    already); every other node is as it was. *)
Inductive converted : node -> node -> Prop :=
| cv_text : forall s, converted (Text s) (Text s)
| cv_sub : forall c a cs,
    converted (Tag "sub" c a cs)
              (Text (fstr ["_"; get_text (Tag "sub" c a cs)]))
| cv_sup : forall c a cs,
    converted (Tag "sup" c a cs)
              (Text (fstr ["^";
                           get_text (CCR.replace_runs_below
                                       "sub" "_" (Tag "sup" c a cs))]))
| cv_tag : forall nm c a cs cs',
    nm <> "sub" -> nm <> "sup" ->
    Forall2 converted cs cs' ->
    converted (Tag nm c a cs) (Tag nm c a cs').

(** [blocks_converted t t']: what a descendant of the content container
    becomes.  Outside the processed blocks every node is as it was; the
    descendants of a processed block are converted. *)
Inductive blocks_converted : node -> node -> Prop :=
| bc_text : forall s, blocks_converted (Text s) (Text s)
| bc_block : forall nm c a cs cs',
    processed_block (Tag nm c a cs) = true ->
    Forall2 converted cs cs' ->
    blocks_converted (Tag nm c a cs) (Tag nm c a cs')
| bc_other : forall nm c a cs cs',
    processed_block (Tag nm c a cs) = false ->
    Forall2 blocks_converted cs cs' ->
    blocks_converted (Tag nm c a cs) (Tag nm c a cs').

(** The content container itself keeps its name and attributes. *)
Inductive container_converted : node -> node -> Prop :=
| cc_text : forall s, container_converted (Text s) (Text s)
| cc_tag : forall nm c a cs cs',
    Forall2 blocks_converted cs cs' ->
    container_converted (Tag nm c a cs) (Tag nm c a cs').

(** No element named [tag] in [n], [n] included. *)
Fixpoint free_of (tag : string) (n : node) : bool :=
  match n with
  | Text _ => true
  | Tag nm _ _ cs =>
      negb (String.eqb nm tag) && forallb (free_of tag) cs
  end.

(** The qualification rule of the formula extractor, on the classes of
    the parent and on the [alt] text of the image; the text is compared
    in lower case. *)
Definition qualifies (parent_class : list string) (alt : string) : Prop :=
  (exists cls, In cls parent_class /\ contains "figure" cls = true)
  \/ contains "formula" (lower alt) = true
  \/ contains "equation" (lower alt) = true
  \/ (exists word, In word ["sum"; "equals"; "water loss"]
                   /\ contains word (lower alt) = true).

(** The images of [n] have no children, as [html.parser] builds
    them. *)
Fixpoint void_images (n : node) : bool :=
  match n with
  | Text _ => true
  | Tag nm _ _ cs =>
      (negb (String.eqb nm "img")
       || match cs with [] => true | _ :: _ => false end)
      && forallb void_images cs
  end.

(** The images of a document in document order, each with the classes
    of its immediate containing element. *)
Definition image_sites (soup : node) : list (list string * node) :=
  map (fun l => (get_class (parent l), here l))
      (filter (fun l => named "img" (here l)) (located_descendants soup)).

(** The sites of [x] and below, when the parent of [x] has the classes
    [pc]. *)
Definition sites_from (pc : list string) (x : node)
  : list (list string * node) :=
  (if named "img" x then [(pc, x)] else []) ++ image_sites x.

(** The image at a site has a non-empty source and passes the
    qualification rule. *)
Definition selected (site : list string * node) : bool :=
  truthy (get_default "src" "" (snd site))
  && CCR.looks_mathematical (fst site)
                            (lower (get_default "alt" "" (snd site))).

(** The same rule on the [alt] text as it is written. *)
Definition qualifies_verbatim (parent_class : list string) (alt : string)
  : Prop :=
  (exists cls, In cls parent_class /\ contains "figure" cls = true)
  \/ contains "formula" alt = true
  \/ contains "equation" alt = true
  \/ (exists word, In word ["sum"; "equals"; "water loss"]
                   /\ contains word alt = true).

(** The strict pattern of a section number, digits('.'digits)*: one or
    more groups of one or more digits, joined by dots. *)
Fixpoint all_digits (s : string) : bool :=
  match s with
  | EmptyString => true
  | String c r => isdigit c && all_digits r
  end.

Definition digit_group (g : string) : Prop :=
  all_digits g = true /\ g <> EmptyString.

Definition strict_section_number (s : string) : Prop :=
  exists g groups,
    digit_group g /\ Forall digit_group groups
    /\ s = String.concat "." (g :: groups).

(** The last element of a list. *)
Fixpoint last_of {A : Type} (l : list A) : option A :=
  match l with
  | [] => None
  | [x] => Some x
  | _ :: r => last_of r
  end.

(** The paragraphs of a section that have text, by kind: a citation
    has [font-size:0.9em] in its style or holds an [i] element; a
    paragraph of section text is no citation and has [display:inline]
    or [margin:0] in its style. *)
Definition citations_of (paragraphs : list node) : list string :=
  map get_text_strip
      (filter (fun p => truthy (get_text_strip p) && WaterCode.is_citation p)
              paragraphs).

Definition section_texts_of (paragraphs : list node) : list string :=
  map get_text_strip
      (filter (fun p => truthy (get_text_strip p)
                        && negb (WaterCode.is_citation p)
                        && WaterCode.is_section_text p)
              paragraphs).

(** The text of an anchor without one trailing dot. *)
Fixpoint without_last_dot (s : string) : string :=
  match s with
  | EmptyString => EmptyString
  | String c EmptyString =>
      if Ascii.eqb c "." then EmptyString else s
  | String c r => String c (without_last_dot r)
  end.

(** Every character of [s] passes [p]. *)
Fixpoint all_chars (p : ascii -> bool) (s : string) : bool :=
  match s with
  | EmptyString => true
  | String c r => p c && all_chars p r
  end.

Definition no_slash (c : ascii) : bool := negb (Ascii.eqb c "/").

(** A character that is neither whitespace nor one of the characters the
    regulations scraper removes from a file name. *)
Definition plain_char (c : ascii) : bool :=
  negb (CCR.filename_class c) && negb (isspace c).

(** The same for the statute scraper. *)
Definition plain_title_char (c : ascii) : bool :=
  negb (WaterCode.title_class c) && negb (isspace c).

(** The title as it goes into a file name of the statute scraper: each
    of the nine characters of the class of line 342 replaced by an
    underscore, each run of whitespace replaced by one underscore, and
    the whole cut to fifty characters. *)
Definition cleaned_title (title : string) : string :=
  take 50 (sub_spaces (sub_class WaterCode.title_class "_" title)).

(** No image below [n] would be downloaded: each [img] lacks a source,
    or has one that [urljoin] accepts and fails the test of lines
    147-149.  [parent_class] are the classes of the parent of [n]. *)
Fixpoint quiet (w : World) (parent_class : list string) (n : node) : bool :=
  match n with
  | Text _ => true
  | Tag nm _ _ cs =>
      (if String.eqb nm "img"
       then negb (truthy (get_default "src" "" n))
            || (match CCR.image_url w (get_default "src" "" n) with
                | Some _ => true
                | None => false
                end
                && negb (CCR.looks_mathematical
                           parent_class (lower (get_default "alt" "" n))))
       else true)
      && forallb (quiet w (get_class n)) cs
  end.

End Props.

(* ===================================================================== *)
(** * Sample surroundings and documents *)
(* ===================================================================== *)

Module Samples.
Import PyStr Bs4 Env.

Fixpoint after (needle hay : string) : option string :=
  if String.prefix needle hay
  then Some (String.substring (String.length needle)
                              (String.length hay - String.length needle) hay)
  else match hay with
       | EmptyString => None
       | String _ r => after needle r
       end.

Fixpoint until_amp (s : string) : string :=
  match s with
  | EmptyString => EmptyString
  | String c r => if Ascii.eqb c "&" then EmptyString
                  else String c (until_amp r)
  end.

(** A small world.  The body served at an address is the address
    itself, except at the addresses of [failing], where the request
    raises; [pages] says how a body parses; the paths of [readonly]
    cannot be written; [urljoin] and [urlparse] raise on the addresses
    that are [malformed]. *)
Definition world_with (malformed : string -> bool)
           (pages : list (string * node)) (failing readonly : list string)
  : World :=
  {| http_get := fun url =>
       if existsb (String.eqb url) failing then None else Some url;
     html_parser := fun body =>
       match List.find (fun page => String.eqb (fst page) body) pages with
       | Some page => snd page
       | None => document []
       end;
     urljoin := fun base ref =>
       if malformed ref then None
       else if startswith "http" ref then Some ref
       else Some (fstr [base; ref]);
     urlparse := fun url =>
       if malformed url then None
       else Some {| url_path := url;
                    url_param := fun key =>
                      match after (fstr [key; "="]) url with
                      | Some v => until_amp v
                      | None => EmptyString
                      end |};
     writable := fun path => negb (existsb (String.eqb path) readonly) |}.

(** The world in which an address that starts with two slashes and an
    opening bracket is malformed, and the world in which no address
    is. *)
Definition malformed (url : string) : bool := startswith "//[" url.

Definition world : list (string * node) -> list string -> list string -> World :=
  world_with malformed.

Definition lenient_world
  : list (string * node) -> list string -> list string -> World :=
  world_with (fun _ => false).

Definition scraper : CCR.CaliforniaRegulationsScraper :=
  CCR.init "ca_regs_chapter_3_5".

Definition img (src alt : string) : node :=
  Tag "img" None [("src", src); ("alt", alt)] [].

Definition figure (children : list node) : node :=
  Tag "div" (Some ["co_figureBlock"]) [] children.

Definition block (classes : list string) (children : list node) : node :=
  Tag "div" (Some ("co_contentBlock" :: classes)) [] children.

Definition co_document (children : list node) : node :=
  Tag "div" None [("id", "co_document")] children.

(** A section whose only block reads H, subscript 2, O. *)
Definition water_page : node :=
  document
    [co_document [block [] [Text "H"; Tag "sub" None [] [Text "2"];
                            Text "O"]]].

Definition water_page_after : node :=
  document [co_document [block [] [Text "H"; Text "_2"; Text "O"]]].

(** A section page with a title, one citation line and no block. *)
Definition titled_page : node :=
  document
    [Tag "div" None [("id", "co_docHeaderTitle")]
         [Tag "h1" None [] [Text "965. Definitions."];
          Tag "ul" None [("id", "co_docHeaderCitation")]
              [Tag "li" None [] [Text "23 CCR 965"]]];
     co_document []].

(** A listing of the regulations site: one item for each pair of an
    address and a title. *)
Definition white_box (items : list (string * string)) : node :=
  document
    [Tag "ul" (Some ["co_genericWhiteBox"]) []
         (map (fun item =>
                 Tag "li" None []
                     [Tag "a" None [("href", fst item)] [Text (snd item)]])
              items)].

(** A chapter with one article of two sections: the first section has a
    title, a citation and its content container; the second has no
    content container and one image in a figure. *)
Definition regulations_site : list (string * node) :=
  [("chapter", white_box [("/art1", "Article 1. Definitions")]);
   ("https://shared-govt.westlaw.com/art1",
    white_box [("/s1", "965. Definitions"); ("/s2", "966. Formula")]);
   ("https://shared-govt.westlaw.com/s1", titled_page);
   ("https://shared-govt.westlaw.com/s2",
    document [figure [img "/i/x.png" "Water loss equation"]])].

(** An entry of a table of contents of the statute site. *)
Definition toc_entry (href indent text range : string) : node :=
  Tag "a" None [("href", href)]
      [Tag "div" None [("style", fstr ["margin-left:"; indent; ";"])]
           [Text text];
       Tag "div" None [("style", "float:right;")] [Text range]].

Definition toc (entries : list node) : node :=
  document [Tag "div" None [("id", "expandedbranchcodesid")] entries].

Definition branch (query : string) : string :=
  fstr ["/faces/codes_displayexpandedbranch.xhtml?tocCode=WAT&division=6.&";
        query].

Definition leaf (query : string) : string :=
  fstr ["/faces/codes_displayText.xhtml?lawCode=WAT&division=6.&"; query].

Definition site_url (path : string) : string :=
  fstr [WaterCode.BASE_URL; path].

(** A leaf of the statute site: one section, with its number in an
    anchor, one paragraph of text and one citation in italics. *)
Definition law_section (number text citation : string) : node :=
  Tag "div" None [("align", "left")]
      [Tag "h6" None [] [Tag "a" None [("href", "#")] [Text number]];
       Tag "p" None [("style", "margin:0;display:inline;")] [Text text];
       Tag "p" None [("style", "font-size:0.9em;")]
           [Tag "i" None [] [Text citation]]].

Definition law_page (sections : list node) : node :=
  document [Tag "div" None [("id", "manylawsections")] sections].

(** Division 6 with two parts.  Part 1 lists two chapters: chapter 1
    lists two articles, the second of them reserved; chapter 2 and
    part 2 are leaves. *)
Definition statute_site : list (string * node) :=
  [(site_url (branch "title=&part=&chapter=&article="),
    toc [toc_entry (branch "part=1.&chapter=&article=") "20px"
                   "PART 1. GENERAL PROVISIONS" "10000-10013";
         toc_entry (leaf "part=2.&chapter=&article=") "20px"
                   "PART 2. THE CALIFORNIA WATER PLAN" "10004-10013"]);
   (site_url (branch "part=1.&chapter=&article="),
    toc [toc_entry (branch "part=1.&chapter=1.&article=") "30px"
                   "CHAPTER 1. Definitions" "10000-10003";
         toc_entry (leaf "part=1.&chapter=2.&article=") "30px"
                   "CHAPTER 2. Powers" "10004-10005"]);
   (site_url (branch "part=1.&chapter=1.&article="),
    toc [toc_entry (leaf "part=1.&chapter=1.&article=1.") "40px"
                   "ARTICLE 1. Scope" "10000-10001";
         toc_entry (leaf "part=1.&chapter=1.&article=2.") "40px"
                   "ARTICLE 2. (Reserved)" ""]);
   (site_url (leaf "part=1.&chapter=1.&article=1."),
    law_page [law_section "10000." "10000. This part is the Water Plan Act."
                          "(Added by Stats. 1957, Ch. 1932.)"]);
   (site_url (leaf "part=1.&chapter=2.&article="),
    law_page [law_section "10004." "10004. The department shall plan."
                          "(Amended by Stats. 1991, Ch. 620.)"]);
   (site_url (leaf "part=2.&chapter=&article="),
    law_page [law_section "1011.5." "1011.5. The board shall act."
                          "(Added by Stats. 1980, Ch. 933.)"])].

Definition water_division : WaterCode.config :=
  {| WaterCode.code := "WAT"; WaterCode.code_name := "Water Code";
     WaterCode.division := "6"; WaterCode.division_name := None;
     WaterCode.parts := None |}.

(** What the statute site lists below part 1 and below its chapter 1. *)
Definition discovered_chapters : list WaterCode.chapter_info :=
  Eval vm_compute in
    match fst (WaterCode.get_chapters_for_part
                 (world statute_site [] [])
                 (site_url (branch "part=1.&chapter=&article="))
                 "WAT" "6" "1." Env.start) with
    | Env.Ok chapters => chapters
    | Env.Raise => []
    end.

Definition discovered_articles : list WaterCode.article_info :=
  Eval vm_compute in
    match fst (WaterCode.get_articles_for_chapter
                 (world statute_site [] [])
                 (site_url (branch "part=1.&chapter=1.&article="))
                 "WAT" "6" "1." "1." Env.start) with
    | Env.Ok articles => articles
    | Env.Raise => []
    end.

End Samples.

(* ===================================================================== *)
(** * Notions used in the proofs about a run *)
(* ===================================================================== *)

Module Notions.
Import PyStr Bs4 Env.

Module Regulations.
Import CCR.

(** The file name of section [j] of article [i]. *)
Definition section_file_name (i j : nat) (safe : string) : string :=
  fstr ["article_"; of_nat i; "_section_"; of_nat j; "_"; safe; ".txt"].

(** The inner loop of [process_images_in], by its name. *)
Definition process_images_list (w : World)
           (self : CaliforniaRegulationsScraper) (section_title : string)
           (parent_class : list string)
  : list node -> sys -> outcome (list node * list image_record) * sys :=
  fix go (l : list node) (st : sys)
    : outcome (list node * list image_record) * sys :=
    match l with
    | [] => (Ok ([], []), st)
    | x :: r =>
        match process_images_in w self section_title parent_class x st with
        | (Raise, st) => (Raise, st)
        | (Ok (x', r1), st) =>
            match go r st with
            | (Raise, st) => (Raise, st)
            | (Ok (r', r2), st) => (Ok (x' :: r', r1 ++ r2), st)
            end
        end
    end.

(** The records of what the test of one node found. *)
Definition records_found (found : option (image_record * node))
  : list image_record :=
  match found with
  | Some (record, _) => [record]
  | None => []
  end.

(** The sites of the nodes [l], whose parent has the classes [pc]. *)
Definition sites (pc : list string) (l : list node)
  : list (list string * node) :=
  flat_map (Props.sites_from pc) l.

(** The images among the nodes [l] and below them. *)
Definition images_in (l : list node) : list node :=
  filter (named "img") (flat_map (fun x => x :: descendants x) l).

Section Run.
Variable w : World.
Variable self : CaliforniaRegulationsScraper.

(** The test of the loop on one node: [process_image] for an image,
    nothing for another element. *)
Definition at_node (section_title : string) (parent_class : list string)
           (nm : string) (n : node) (st : sys)
  : outcome (option (image_record * node)) * sys :=
  if String.eqb nm "img"
  then process_image w self section_title parent_class n st
  else (Ok None, st).

(** [visits title pc l st l' records st']: the image extractor walks
    the nodes [l], whose parent has the classes [pc], from the trace
    [st], and no exception ends the walk: it leaves the nodes [l'],
    appends [records] and ends with the trace [st']. *)
Inductive visits (section_title : string)
  : list string -> list node -> sys ->
    list node -> list image_record -> sys -> Prop :=
| visits_nil : forall pc st, visits section_title pc [] st [] [] st
| visits_text : forall pc s r st r' records st',
    visits section_title pc r st r' records st' ->
    visits section_title pc (Text s :: r) st (Text s :: r') records st'
| visits_kept : forall pc nm c a cs r st st1 cs' below st2 r' records st3,
    at_node section_title pc nm (Tag nm c a cs) st = (Ok None, st1) ->
    visits section_title (get_class (Tag nm c a cs)) cs st1 cs' below st2 ->
    visits section_title pc r st2 r' records st3 ->
    visits section_title pc (Tag nm c a cs :: r) st
           (Tag nm c a cs' :: r') (below ++ records) st3
| visits_replaced :
    forall pc nm c a cs r st record text st1 cs' below st2 r' records st3,
    at_node section_title pc nm (Tag nm c a cs) st
    = (Ok (Some (record, text)), st1) ->
    visits section_title (get_class (Tag nm c a cs)) cs st1 cs' below st2 ->
    visits section_title pc r st2 r' records st3 ->
    visits section_title pc (Tag nm c a cs :: r) st
           (text :: r') ((record :: below) ++ records) st3.

(** The address requested for the image of a site once it is selected:
    none when [urljoin] or [urlparse] rejects the source. *)
Definition requested (site : list string * node) : list string :=
  match image_url w (get_default "src" "" (snd site)) with
  | Some img_url =>
      match urlparse w img_url with
      | Some _ => [img_url]
      | None => []
      end
  | None => []
  end.

(** The record of the image of a site once it is selected: none when
    its download fails. *)
Definition record_of (section_title : string) (site : list string * node)
  : option image_record :=
  match image_url w (get_default "src" "" (snd site)) with
  | Some img_url =>
      match fst (download_image w self img_url section_title start) with
      | Some local_filename =>
          Some {| original_url := img_url;
                  local_file := local_filename;
                  alt_text := get_default "alt" "" (snd site);
                  description :=
                    fstr ["Mathematical formula from "; section_title] |}
      | None => None
      end
  | None => None
  end.

Definition recorded (section_title : string) (site : list string * node)
  : list image_record :=
  match record_of section_title site with
  | Some record => [record]
  | None => []
  end.

(** The image of a site stays in the document: it is not selected, or
    its download fails. *)
Definition stays (section_title : string) (site : list string * node)
  : bool :=
  negb (Props.selected site)
  || match recorded section_title site with
     | [] => true
     | _ :: _ => false
     end.

(** The string that stands for a record in the document, with the
    description [d]. *)
Definition placeholder_text (record : image_record) (d : string) : string :=
  fstr [nl; "[IMAGE: "; local_file record; " - "; d; "]"; nl].

(** The trace [st] with more requests and more files. *)
Definition extend (st : sys) (more_requests : list string)
           (more_files : list (string * content json)) : sys :=
  {| requests := requests st ++ more_requests;
     files := files st ++ more_files |}.

(** The file of a record: the body served at the address of the image,
    under the local name in [images_dir]. *)
Definition file_of (record : image_record) : string * content json :=
  (path_join (images_dir self) (local_file record),
   Bytes (match http_get w (original_url record) with
          | Some body => body
          | None => ""
          end)).

(** The file of a record is among the files written. *)
Definition on_disk (st : sys) (record : image_record) : Prop :=
  exists bytes,
    In (path_join (images_dir self) (local_file record), Bytes bytes)
       (files st).

(** The content and the images of a section, and the sections of an
    article, as the run finds them. *)
Definition content_of (s : section_info) : string :=
  match fst (extract_section_content w self (section_url s)
                                     (section_title s) start) with
  | Ok (content, _) => content
  | Raise => ""
  end.

Definition images_of (s : section_info) : list image_record :=
  match fst (extract_section_content w self (section_url s)
                                     (section_title s) start) with
  | Ok (_, images) => images
  | Raise => []
  end.

Definition has_content (s : section_info) : bool := truthy (content_of s).

Definition sections_of (a : article_info) : list section_info :=
  match fst (extract_sections_from_article w (article_url a) start) with
  | Ok sections => sections
  | Raise => []
  end.

Definition entry (i j : nat) (s : section_info) : logged_section :=
  {| ls_title := section_title s;
     ls_url := section_url s;
     ls_filename :=
       fstr ["article_"; of_nat i; "_section_"; of_nat j; "_";
             create_safe_filename (section_title s); ".txt"];
     ls_images := map local_file (images_of s) |}.

(** The entries of the sections of article [i], numbered from [j]: one
    for each section that has content. *)
Fixpoint entries (i j : nat) (sections : list section_info)
  : list logged_section :=
  match sections with
  | [] => []
  | s :: rest =>
      (if has_content s then [entry i j s] else [])
      ++ entries i (S j) rest
  end.

(** The entries of the articles, numbered from [i]: one for each article,
    with the entries of its sections. *)
Fixpoint article_entries (i : nat) (articles : list article_info)
  : list logged_article :=
  match articles with
  | [] => []
  | a :: rest =>
      {| la_title := article_title a;
         la_url := article_url a;
         la_sections := entries i 1 (sections_of a) |}
      :: article_entries (S i) rest
  end.

Definition written_images (sections : list section_info)
  : list image_record :=
  flat_map images_of (filter has_content sections).

(** The path of the file of a record. *)
Definition path_of (record : image_record) : string :=
  path_join (images_dir self) (local_file record).

End Run.

End Regulations.

Module Statutes.
Import WaterCode.

(** The leaves of the structure: an article, a chapter without articles,
    a part without chapters. *)
Definition leaves_of_chapter (c : chapter_info) : nat :=
  if c_has_articles c then List.length (c_articles c) else 1.

Definition leaves_of_part (p : part_info) : nat :=
  if p_has_chapters p
  then list_sum (map leaves_of_chapter (p_chapters p))
  else 1.

Section Listings.
Variable w : World.
Variable cfg : config.

(** The chapters listed at the address of a part and the articles
    listed at the address of a chapter, as discovery builds them. *)
Definition listed_chapters (p : part_info) : list chapter_info :=
  match fst (get_chapters_for_part w (p_url p) (code cfg) (division cfg)
                                   (p_part p) start) with
  | Ok chapters => chapters
  | Raise => []
  end.

Definition listed_articles (c : chapter_info) : list article_info :=
  match fst (get_articles_for_chapter w (c_url c) (code cfg) (division cfg)
                                      (c_part c) (c_chapter c) start) with
  | Ok articles => articles
  | Raise => []
  end.

(** A chapter with its articles and a part with its chapters: an
    expandable chapter gets the articles listed at its address, an
    expandable part the chapters listed at its address, each with its
    articles; a leaf is as discovery built it. *)
Definition with_articles (c : chapter_info) : chapter_info :=
  if c_has_articles c then
    {| c_url := c_url c; c_title := c_title c; c_code := c_code c;
       c_division := c_division c; c_part := c_part c;
       c_chapter := c_chapter c; c_has_articles := c_has_articles c;
       c_range := c_range c; c_articles := listed_articles c |}
  else c.

Definition with_chapters (p : part_info) : part_info :=
  if p_has_chapters p then
    {| p_url := p_url p; p_title := p_title p; p_part := p_part p;
       p_code := p_code p; p_division := p_division p;
       p_has_chapters := p_has_chapters p; p_range := p_range p;
       p_chapters := map with_articles (listed_chapters p) |}
  else p.

End Listings.

(** From [(c, st)] to [(c', st')] the run visited [n] leaves: the count of
    items grew by [n], the count of downloads by at most [n], and by as
    much as the list of files. *)
Definition advanced (c : counts) (st : sys) (c' : counts) (st' : sys)
           (n : nat) : Prop :=
  total_items c' = total_items c + n
  /\ successful_downloads c <= successful_downloads c'
  /\ successful_downloads c' <= successful_downloads c + n
  /\ List.length (files st') + successful_downloads c
     = List.length (files st) + successful_downloads c'.

End Statutes.

End Notions.
(* ===================================================================== *)
(** * Facts about the document model *)
(* ===================================================================== *)

Module Bs4Facts.
Import PyStr Bs4 Props.

(** Induction on a document, with the hypothesis available for every
    child. *)
Lemma node_induction (P : node -> Prop) :
  (forall s, P (Text s)) ->
  (forall nm c a cs, Forall P cs -> P (Tag nm c a cs)) ->
  forall n, P n.
Proof.
  intros HText HTag.
  fix IH 1.
  intros [s | nm c a cs].
  - apply HText.
  - apply HTag.
    induction cs as [| x r IHr].
    + constructor.
    + constructor; [apply IH | exact IHr].
Qed.

Lemma map_id_on {A : Type} (f : A -> A) (l : list A) :
  Forall (fun x => f x = x) l -> map f l = l.
Proof.
  induction 1 as [| x r Hx _ IH]; simpl; [reflexivity |].
  now rewrite Hx, IH.
Qed.

Lemma descendants_tag nm c a cs :
  descendants (Tag nm c a cs) = flat_map (fun x => x :: descendants x) cs.
Proof.
  unfold descendants. cbn [located_descendants].
  generalize (Tag nm c a cs). intros pn.
  induction cs as [| x r IH]; cbn; [reflexivity |].
  rewrite map_app. f_equal. f_equal. exact IH.
Qed.

(** The sites of an element are those of its children, each with the
    classes of the element. *)
Lemma image_sites_tag nm c a cs :
  image_sites (Tag nm c a cs)
  = flat_map (sites_from (get_class (Tag nm c a cs))) cs.
Proof.
  unfold image_sites at 1. cbn [located_descendants].
  generalize (Tag nm c a cs). intros pn.
  induction cs as [| x r IH]; [reflexivity |].
  cbn [flat_map filter here]. unfold sites_from at 1.
  rewrite <- IH. unfold image_sites.
  destruct (named "img" x); cbn [map app parent here];
    now rewrite filter_app, map_app.
Qed.

Lemma nowhere_descendants p n :
  nowhere p n = true ->
  forallb (fun x => negb (p x)) (descendants n) = true.
Proof.
  induction n as [s | nm c a cs IH] using node_induction; intros H.
  - reflexivity.
  - rewrite descendants_tag. cbn in H.
    apply andb_prop in H. destruct H as [_ H].
    induction IH as [| x r Hx _ IHr]; cbn; [reflexivity |].
    cbn in H. apply andb_prop in H. destruct H as [Hnx Hr].
    rewrite forallb_app, (Hx Hnx), (IHr Hr), andb_true_r.
    cbn in Hnx. destruct x; cbn in Hnx |- *;
      apply andb_prop in Hnx; now destruct Hnx as [-> _].
Qed.

Lemma descendants_nowhere p n :
  forallb (fun x => negb (p x)) (descendants n) = true ->
  forallb (nowhere p) (children_of n) = true.
Proof.
  induction n as [s | nm c a cs IH] using node_induction; intros H.
  - reflexivity.
  - rewrite descendants_tag in H. cbn [children_of].
    induction IH as [| x r Hx _ IHr]; cbn; [reflexivity |].
    cbn in H. rewrite forallb_app in H.
    apply andb_prop in H. destruct H as [Hpx H].
    apply andb_prop in H. destruct H as [Hdx Hr].
    rewrite (IHr Hr), andb_true_r.
    specialize (Hx Hdx).
    destruct x as [s | nm' c' a' cs']; cbn in *.
    + now rewrite Hpx.
    + now rewrite Hpx, Hx.
Qed.

Lemma find_none_nowhere p n :
  find p n = None <-> forallb (nowhere p) (children_of n) = true.
Proof.
  unfold find, find_all. split.
  - intros H. apply descendants_nowhere.
    induction (descendants n) as [| x r IH]; cbn in *; [reflexivity |].
    destruct (p x); cbn in *; [discriminate | now apply IH].
  - intros H.
    assert (Hd : forallb (fun x => negb (p x)) (descendants n) = true).
    { destruct n as [s | nm c a cs]; [reflexivity |].
      rewrite descendants_tag. cbn in H.
      induction cs as [| x r IH]; cbn in *; [reflexivity |].
      apply andb_prop in H. destruct H as [Hx Hr].
      rewrite forallb_app, (nowhere_descendants p x Hx), (IH Hr).
      destruct x; cbn in Hx; apply andb_prop in Hx;
        destruct Hx as [-> _]; reflexivity. }
    induction (descendants n) as [| x r IH]; cbn in *; [reflexivity |].
    apply andb_prop in Hd. destruct Hd as [Hx Hr].
    apply negb_true_iff in Hx. rewrite Hx. now apply IH.
Qed.

(** No match at [x] nor below it. *)
Lemma no_match_nowhere p x :
  filter p (x :: descendants x) = [] -> nowhere p x = true.
Proof.
  cbn [filter]. destruct (p x) eqn:Hp; [discriminate |]. intros H.
  assert (Hc : forallb (nowhere p) (children_of x) = true).
  { apply find_none_nowhere. unfold find, find_all. now rewrite H. }
  destruct x as [s | nm c a cs]; cbn [nowhere]; rewrite Hp; [reflexivity |].
  exact Hc.
Qed.

Lemma edit_first_tag p f nm c a cs :
  edit_first p f (Tag nm c a cs)
  = if p (Tag nm c a cs) then Some (f (Tag nm c a cs))
    else option_map (Tag nm c a) (edit_first_in p f cs).
Proof.
  cbn [edit_first]. destruct (p (Tag nm c a cs)); [reflexivity |].
  f_equal. induction cs as [| x r IH]; [reflexivity |].
  cbn [edit_first_in]. rewrite <- IH. reflexivity.
Qed.

Lemma nowhere_edit_first p f n :
  nowhere p n = true -> edit_first p f n = None.
Proof.
  induction n as [s | nm c a cs IH] using node_induction; intros H.
  - cbn in H |- *. rewrite andb_true_r in H. apply negb_true_iff in H.
    now rewrite H.
  - rewrite edit_first_tag. cbn [nowhere] in H.
    apply andb_prop in H. destruct H as [Hp Hcs].
    apply negb_true_iff in Hp. rewrite Hp.
    assert (E : edit_first_in p f cs = None).
    { clear Hp. induction IH as [| x r Hx _ IHr]; [reflexivity |].
      cbn in Hcs. apply andb_prop in Hcs. destruct Hcs as [Hnx Hnr].
      cbn [edit_first_in]. now rewrite (Hx Hnx), (IHr Hnr). }
    now rewrite E.
Qed.

(** The first match among [n] and its descendants stands in a context
    that leads to it, and an edit of the first match fills that
    context with the edited node. *)
Lemma first_match p n :
  forall d,
    hd_error (filter p (n :: descendants n)) = Some d ->
    exists k,
      n = plug k d /\ first_at p k d
      /\ forall f, edit_first p f n = Some (plug k (f d)).
Proof.
  induction n as [s | nm c a cs IH] using node_induction; intros d.
  - cbn [descendants located_descendants map filter].
    destruct (p (Text s)) eqn:Hp; [| discriminate].
    intros [= <-]. exists Hole. repeat split; [exact Hp |].
    intros f. cbn. now rewrite Hp.
  - cbn [filter]. destruct (p (Tag nm c a cs)) eqn:Hp.
    + intros [= <-]. exists Hole. repeat split; [exact Hp |].
      intros f. rewrite edit_first_tag. now rewrite Hp.
    + rewrite descendants_tag. intros Hd.
      assert (Hl : exists before x after k,
                 cs = before ++ x :: after
                 /\ forallb (nowhere p) before = true
                 /\ x = plug k d /\ first_at p k d
                 /\ forall f, edit_first_in p f cs
                              = Some (before ++ plug k (f d) :: after)).
      { clear Hp. induction IH as [| x r Hx _ IHr]; [discriminate |].
        cbn [flat_map] in Hd. rewrite filter_app in Hd.
        destruct (filter p (x :: descendants x)) as [| y ys] eqn:Ex.
        - apply no_match_nowhere in Ex.
          destruct (IHr Hd) as [before [x0 [after [k [-> [Hb [Hx0 [Hk Hf]]]]]]]].
          exists (x :: before), x0, after, k. repeat split; auto.
          + cbn. now rewrite Ex, Hb.
          + intros f. cbn [edit_first_in].
            rewrite (nowhere_edit_first p f x Ex), Hf. reflexivity.
        - cbn in Hd. injection Hd as ->.
          destruct (Hx d eq_refl) as [k [Hx0 [Hk Hf]]].
          exists [], x, r, k. repeat split; auto.
          intros f. cbn [edit_first_in]. now rewrite Hf. }
      destruct Hl as [before [x [after [k [-> [Hb [-> [Hk Hf]]]]]]]].
      exists (Below nm c a before k after).
      repeat split; auto.
      intros f. rewrite edit_first_tag, Hp, Hf. reflexivity.
Qed.

(** Where [find] finds a node, and what an edit of that node does to
    the document. *)
Lemma find_in_context p soup d :
  find p soup = Some d ->
  exists k,
    soup = plug k d /\ found_at p k d
    /\ forall f, edit_found p f soup = plug k (f d).
Proof.
  unfold find, find_all.
  destruct soup as [s | nm c a cs]; [discriminate |].
  rewrite descendants_tag. intros Hd.
  assert (Hl : exists before x after k,
             cs = before ++ x :: after
             /\ forallb (nowhere p) before = true
             /\ x = plug k d /\ first_at p k d
             /\ forall f, edit_first_in p f cs
                          = Some (before ++ plug k (f d) :: after)).
  { induction cs as [| x r IHr]; [discriminate |].
    cbn [flat_map] in Hd. rewrite filter_app in Hd.
    destruct (filter p (x :: descendants x)) as [| y ys] eqn:Ex.
    - apply no_match_nowhere in Ex.
      destruct (IHr Hd) as [before [x0 [after [k [-> [Hb [Hx0 [Hk Hf]]]]]]]].
      exists (x :: before), x0, after, k. repeat split; auto.
      + cbn. now rewrite Ex, Hb.
      + intros f. cbn [edit_first_in].
        rewrite (nowhere_edit_first p f x Ex), Hf. reflexivity.
    - cbn in Hd. injection Hd as ->.
      pose proof (first_match p x d) as Hx. rewrite Ex in Hx.
      destruct (Hx eq_refl) as [k [Hx0 [Hk Hf]]].
      exists [], x, r, k. repeat split; auto.
      intros f. cbn [edit_first_in]. now rewrite Hf. }
  destruct Hl as [before [x [after [k [-> [Hb [-> [Hk Hf]]]]]]]].
  exists (Below nm c a before k after).
  repeat split; auto.
  intros f. cbn [edit_found]. now rewrite Hf.
Qed.

End Bs4Facts.

(* ===================================================================== *)
(** * Facts about loops that an exception can leave *)
(* ===================================================================== *)

Module LoopFacts.
Import Env.

(** What a loop that ended appended comes from its turns. *)
Lemma collect_in {A B : Type} (f : A -> outcome (list B)) (l : list A) :
  forall all x,
    collect f l = Ok all -> In x all ->
    exists a found, In a l /\ f a = Ok found /\ In x found.
Proof.
  induction l as [| a r IH]; intros all x; cbn.
  - intros [= <-] [].
  - destruct (f a) as [found |] eqn:Ea; [| discriminate].
    destruct (collect f r) as [rest |]; [| discriminate].
    intros [= <-] Hin. apply in_app_or in Hin. destruct Hin as [Hin | Hin].
    + exists a, found. auto.
    + destruct (IH rest x eq_refl Hin) as [a' [found' [Ha [Hf Hx]]]].
      exists a', found'. auto.
Qed.

(** A loop none of whose turns raises ends. *)
Lemma collect_ends {A B : Type} (f : A -> outcome (list B)) (l : list A) :
  (forall a, f a <> Raise) -> exists all, collect f l = Ok all.
Proof.
  intros Hf. induction l as [| a r [rest IH]]; cbn; [eauto |].
  destruct (f a) as [found |] eqn:Ea; [| now apply Hf in Ea].
  rewrite IH. eauto.
Qed.

End LoopFacts.
(* ===================================================================== *)
(** * The string primitives on sample values *)
(* ===================================================================== *)

Module PyStrExamples.
Import PyStr.

Example strip_sample : strip (fstr [nl; "  (a) Abstract. "; nl]) = "(a) Abstract.".
Proof. reflexivity. Qed.

Example rstrip_char_sample : rstrip_char "." "1011.5.." = "1011.5".
Proof. reflexivity. Qed.

Example lower_sample : lower "Water Loss EQUATION" = "water loss equation".
Proof. reflexivity. Qed.

Example contains_sample :
  contains "figure" "co_figureBlock" = true
  /\ contains "sum" "consumption" = true
  /\ contains "formula" "Formula" = false.
Proof. repeat split. Qed.

Example match_section_number_sample :
  map match_section_number ["1011.5"; "116270"; "1011."; ".5"; "1..2"; "12a"]
  = [true; true; false; false; false; false].
Proof. reflexivity. Qed.

Example strip_section_number_sample :
  strip_section_number "1011.5" "1011.5. The board shall act."
  = "The board shall act."
  /\ strip_section_number "1011.5" "The board shall act."
     = "The board shall act.".
Proof. split; reflexivity. Qed.

Example sub_spaces_sample :
  sub_spaces (fstr ["966.  Water"; nl; "loss"]) = "966._Water_loss".
Proof. reflexivity. Qed.

Example last_segment_sample :
  map last_segment ["/images/a/x.png"; "x.png"; "/images/"] = ["x.png"; "x.png"; ""].
Proof. reflexivity. Qed.

End PyStrExamples.

(* ===================================================================== *)
(** * The regulations scraper: rewriting of subscripts and superscripts *)
(* ===================================================================== *)

Module Runs.
Import PyStr Bs4 Env CCR Props Bs4Facts.

Lemma replace_runs_free tag marker n :
  free_of tag (replace_runs tag marker n) = true.
Proof.
  induction n as [s | nm c a cs IH] using node_induction; simpl.
  - reflexivity.
  - destruct (String.eqb nm tag) eqn:E; simpl.
    + reflexivity.
    + rewrite E. simpl.
      rewrite forallb_forall. intros x Hx.
      apply in_map_iff in Hx. destruct Hx as [y [<- Hy]].
      rewrite Forall_forall in IH. now apply IH.
Qed.

Lemma replace_runs_fixed tag marker n :
  free_of tag n = true -> replace_runs tag marker n = n.
Proof.
  induction n as [s | nm c a cs IH] using node_induction; simpl.
  - reflexivity.
  - intros H. apply andb_prop in H. destruct H as [Hn Hcs].
    apply negb_true_iff in Hn. rewrite Hn. f_equal.
    apply map_id_on.
    rewrite Forall_forall in IH |- *. intros x Hx.
    apply IH; [exact Hx |].
    rewrite forallb_forall in Hcs. now apply Hcs.
Qed.

(** Rewriting the runs named [tag'] brings no [tag] element in. *)
Lemma replace_runs_keeps_free tag tag' marker n :
  free_of tag n = true -> free_of tag (replace_runs tag' marker n) = true.
Proof.
  induction n as [s | nm c a cs IH] using node_induction; simpl.
  - reflexivity.
  - intros H. apply andb_prop in H. destruct H as [Hn Hcs].
    destruct (String.eqb nm tag'); simpl; [reflexivity |].
    rewrite Hn. simpl.
    rewrite forallb_forall. intros x Hx.
    apply in_map_iff in Hx. destruct Hx as [y [<- Hy]].
    rewrite Forall_forall in IH. apply IH; [exact Hy |].
    rewrite forallb_forall in Hcs. now apply Hcs.
Qed.

Lemma replace_runs_below_fixed tag marker e :
  forallb (free_of tag) (children_of e) = true ->
  replace_runs_below tag marker e = e.
Proof.
  destruct e as [s | nm c a cs]; simpl; [reflexivity |].
  intros H. f_equal. apply map_id_on.
  rewrite Forall_forall. intros x Hx.
  apply replace_runs_fixed.
  rewrite forallb_forall in H. now apply H.
Qed.

Lemma children_free_after tag marker e :
  forallb (free_of tag) (children_of (replace_runs_below tag marker e))
  = true.
Proof.
  destruct e as [s | nm c a cs]; simpl; [reflexivity |].
  rewrite forallb_forall. intros x Hx.
  apply in_map_iff in Hx. destruct Hx as [y [<- Hy]].
  apply replace_runs_free.
Qed.

Lemma children_stay_free tag tag' marker e :
  forallb (free_of tag) (children_of e) = true ->
  forallb (free_of tag) (children_of (replace_runs_below tag' marker e))
  = true.
Proof.
  destruct e as [s | nm c a cs]; simpl; [reflexivity |].
  intros H.
  rewrite forallb_forall. intros x Hx.
  apply in_map_iff in Hx. destruct Hx as [y [<- Hy]].
  apply replace_runs_keeps_free.
  rewrite forallb_forall in H. now apply H.
Qed.

(** C7.  Rewriting the subscripts and superscripts of an element that
    has already been rewritten changes nothing: after the first
    application no [sub] and no [sup] element is left below the
    element, so the second one finds nothing to replace. *)
Theorem convert_subscripts_to_text_idempotent (element : node) :
  convert_subscripts_to_text (convert_subscripts_to_text element)
  = convert_subscripts_to_text element.
Proof.
  unfold convert_subscripts_to_text.
  set (once := replace_runs_below "sup" "^"
                 (replace_runs_below "sub" "_" element)).
  assert (Hsub : forallb (free_of "sub") (children_of once) = true).
  { apply children_stay_free. apply children_free_after. }
  assert (Hsup : forallb (free_of "sup") (children_of once) = true).
  { apply children_free_after. }
  rewrite (replace_runs_below_fixed "sub" "_" once Hsub).
  apply replace_runs_below_fixed. exact Hsup.
Qed.

End Runs.

(* ===================================================================== *)
(** * The regulations scraper: what normalization does to the document *)
(* ===================================================================== *)

Module Frame.
Import PyStr Bs4 Env CCR Props Bs4Facts.

Lemma Forall2_map_r {A B : Type} (R : A -> B -> Prop) (f : A -> B)
      (l : list A) :
  Forall (fun x => R x (f x)) l -> Forall2 R l (map f l).
Proof. induction 1; simpl; constructor; assumption. Qed.

(** The blocks that the loop of lines 204-224 converts are the processed
    blocks. *)
Lemma processed_block_spec n :
  processed_block n = is_content_block n && negb (is_skipped n).
Proof.
  unfold processed_block, is_content_block, is_skipped, has_class.
  cbn [existsb]. now rewrite orb_false_r, negb_orb, andb_assoc.
Qed.

(** The two loops of [convert_subscripts_to_text] on a descendant. *)
Lemma converted_runs x :
  converted x (replace_runs "sup" "^" (replace_runs "sub" "_" x)).
Proof.
  induction x as [s | nm c a cs IH] using node_induction.
  - constructor.
  - cbn [replace_runs].
    destruct (String.eqb nm "sub") eqn:Esub.
    + apply String.eqb_eq in Esub. subst nm. apply cv_sub.
    + cbn [replace_runs].
      destruct (String.eqb nm "sup") eqn:Esup.
      * apply String.eqb_eq in Esup. subst nm. apply cv_sup.
      * apply String.eqb_neq in Esub, Esup.
        constructor; [exact Esub | exact Esup |].
        rewrite map_map. now apply Forall2_map_r.
Qed.

Lemma converted_below nm c a cs :
  exists cs',
    convert_subscripts_to_text (Tag nm c a cs) = Tag nm c a cs'
    /\ Forall2 converted cs cs'.
Proof.
  exists (map (fun x => replace_runs "sup" "^" (replace_runs "sub" "_" x)) cs).
  split.
  - cbn. now rewrite map_map.
  - apply Forall2_map_r. rewrite Forall_forall. intros x _.
    apply converted_runs.
Qed.

Lemma blocks_converted_convert n : blocks_converted n (convert_blocks n).
Proof.
  induction n as [s | nm c a cs IH] using node_induction.
  - constructor.
  - cbn [convert_blocks]. rewrite <- processed_block_spec.
    destruct (processed_block (Tag nm c a cs)) eqn:E.
    + destruct (converted_below nm c a cs) as [cs' [-> H]].
      now apply bc_block.
    + apply bc_other; [exact E |]. now apply Forall2_map_r.
Qed.

Lemma container_converted_below doc :
  container_converted doc (convert_blocks_below doc).
Proof.
  destruct doc as [s | nm c a cs]; cbn; constructor.
  apply Forall2_map_r. rewrite Forall_forall. intros x _.
  apply blocks_converted_convert.
Qed.

(** Where there is no run there is nothing to convert. *)
Lemma Forall2_same {A : Type} (R : A -> A -> Prop) (l l' : list A) :
  Forall (fun x => forall x', R x x' -> x' = x) l ->
  Forall2 R l l' -> l' = l.
Proof.
  intros HF H. induction H as [| x x' r r' Hx _ IH]; [reflexivity |].
  inversion HF as [| ? ? Hx0 Hr0]; subst.
  f_equal; [now apply Hx0 | now apply IH].
Qed.

Lemma Forall_free (P : node -> Prop) cs :
  Forall (fun x => free_of "sub" x = true -> free_of "sup" x = true -> P x)
         cs ->
  forallb (free_of "sub") cs = true -> forallb (free_of "sup") cs = true ->
  Forall P cs.
Proof.
  induction 1 as [| x r Hx _ IH]; cbn; intros Hsub Hsup; constructor.
  - apply andb_prop in Hsub, Hsup. now apply Hx.
  - apply andb_prop in Hsub, Hsup. now apply IH.
Qed.

Lemma converted_free n :
  free_of "sub" n = true -> free_of "sup" n = true ->
  forall n', converted n n' -> n' = n.
Proof.
  induction n as [s | nm c a cs IH] using node_induction;
    intros Hsub Hsup n' H.
  - inversion H. reflexivity.
  - cbn in Hsub, Hsup.
    apply andb_prop in Hsub. destruct Hsub as [Nsub Csub].
    apply andb_prop in Hsup. destruct Hsup as [Nsup Csup].
    inversion H as [| | | ? ? ? ? cs' _ _ HF]; subst; try discriminate.
    f_equal. apply (Forall2_same converted); [| exact HF].
    now apply Forall_free.
Qed.

Lemma blocks_converted_free n :
  free_of "sub" n = true -> free_of "sup" n = true ->
  forall n', blocks_converted n n' -> n' = n.
Proof.
  induction n as [s | nm c a cs IH] using node_induction;
    intros Hsub Hsup n' H.
  - inversion H. reflexivity.
  - cbn in Hsub, Hsup.
    apply andb_prop in Hsub. destruct Hsub as [Nsub Csub].
    apply andb_prop in Hsup. destruct Hsup as [Nsup Csup].
    inversion H as [| ? ? ? ? cs' _ HF | ? ? ? ? cs' _ HF]; subst; f_equal.
    + apply (Forall2_same converted); [| exact HF].
      apply Forall_free; [| exact Csub | exact Csup].
      rewrite Forall_forall. intros x _ Hs Hp. now apply converted_free.
    + apply (Forall2_same blocks_converted); [| exact HF].
      now apply Forall_free.
Qed.

Lemma container_converted_free doc :
  free_of "sub" doc = true -> free_of "sup" doc = true ->
  forall doc', container_converted doc doc' -> doc' = doc.
Proof.
  intros Hsub Hsup doc' H.
  destruct H as [s | nm c a cs cs' HF]; [reflexivity |].
  cbn in Hsub, Hsup.
  apply andb_prop in Hsub. destruct Hsub as [_ Csub].
  apply andb_prop in Hsup. destruct Hsup as [_ Csup].
  f_equal. apply (Forall2_same blocks_converted); [| exact HF].
  apply Forall_free; [| exact Csub | exact Csup].
  rewrite Forall_forall. intros x _ Hs Hp. now apply blocks_converted_free.
Qed.

(** What is free of a tag has its parts free of it. *)
Lemma free_of_plug tag k n :
  free_of tag (plug k n) = true -> free_of tag n = true.
Proof.
  induction k as [| nm c a before inner IH after]; [auto |].
  cbn [plug free_of]. intros H.
  apply andb_prop in H. destruct H as [_ H].
  rewrite forallb_app in H. apply andb_prop in H. destruct H as [_ H].
  cbn in H. apply andb_prop in H. destruct H as [H _]. now apply IH.
Qed.

End Frame.
Module FrameClaim.
Import PyStr Bs4 Env CCR Props Bs4Facts Frame.

(** C2 as the specification states it fails: normalization does change
    the parsed document.  The subscript of the sample page has given
    way to a string once the content has been extracted. *)
Lemma normalize_rewrites_runs :
  snd (normalize Samples.water_page) = Samples.water_page_after
  /\ fst (normalize Samples.water_page) = fstr ["H_2O"; nl]
  /\ Samples.water_page_after <> Samples.water_page.
Proof.
  split; [reflexivity |]. split; [reflexivity |]. discriminate.
Qed.

(** C2, amended.  Beyond the image substitution that precedes it,
    normalization changes the document in one place and in one way.
    Without a content container the call returns the empty content and
    the document is as it was.  With one, the document is the same
    context around the first content container before and after the
    call; in the container, every node outside the processed blocks (the
    [div] elements of class [co_contentBlock] that are neither document
    heads nor print headings) is as it was, and below a processed block
    each [sub] element has given way to a string, an underscore followed
    by its text, each [sup] element to a caret followed by its text, and
    every other node is as it was.  A document without such elements is
    left as it was.  The call always returns (its model is a total
    function). *)
Theorem normalize_frame (soup : node) :
  (find is_doc_content soup = None -> normalize soup = ("", soup))
  /\ (forall doc_content,
        find is_doc_content soup = Some doc_content ->
        exists k doc_content',
          soup = plug k doc_content
          /\ found_at is_doc_content k doc_content
          /\ container_converted doc_content doc_content'
          /\ snd (normalize soup) = plug k doc_content')
  /\ (free_of "sub" soup = true -> free_of "sup" soup = true ->
      snd (normalize soup) = soup).
Proof.
  assert (Hin : forall doc_content,
             find is_doc_content soup = Some doc_content ->
             exists k doc_content',
               soup = plug k doc_content
               /\ found_at is_doc_content k doc_content
               /\ container_converted doc_content doc_content'
               /\ snd (normalize soup) = plug k doc_content').
  { intros doc Hfind.
    destruct (find_in_context is_doc_content soup doc Hfind)
      as [k [Hsoup [Hk Hedit]]].
    exists k, (convert_blocks_below doc). repeat split; auto.
    - apply container_converted_below.
    - unfold normalize. rewrite Hfind. cbn [snd]. apply Hedit. }
  split; [| split; [exact Hin |]].
  - intros H. unfold normalize. now rewrite H.
  - intros Hsub Hsup.
    destruct (find is_doc_content soup) as [doc |] eqn:Hfind.
    + destruct (Hin doc eq_refl) as [k [doc' [Hsoup [_ [Hconv Hafter]]]]].
      rewrite Hafter.
      rewrite (container_converted_free doc) with (doc' := doc');
        [now symmetry | | | exact Hconv].
      * apply (free_of_plug "sub" k). now rewrite <- Hsoup.
      * apply (free_of_plug "sup" k). now rewrite <- Hsoup.
    + unfold normalize. now rewrite Hfind.
Qed.

End FrameClaim.
(* ===================================================================== *)
(** * The regulations scraper: the walk of the formula-image extractor *)
(* ===================================================================== *)

Module Walk.
Import PyStr Bs4 Env CCR Props Bs4Facts Notions.Regulations.

Lemma looks_mathematical_qualifies parent_class alt :
  looks_mathematical parent_class (lower alt) = true
  <-> qualifies parent_class alt.
Proof.
  unfold looks_mathematical, qualifies.
  rewrite !orb_true_iff, !existsb_exists. tauto.
Qed.

Lemma extend_nil (st : sys) : extend st [] [] = st.
Proof. destruct st. unfold extend. cbn. now rewrite !app_nil_r. Qed.

Lemma extend_extend (st : sys) r1 f1 r2 f2 :
  extend (extend st r1 f1) r2 f2 = extend st (r1 ++ r2) (f1 ++ f2).
Proof. unfold extend. cbn. now rewrite !app_assoc. Qed.

Section Extraction.
Variable w : World.
Variable self : CaliforniaRegulationsScraper.
Variable title : string.

Local Abbreviation visits := (Notions.Regulations.visits w self title).
Local Abbreviation walk := (process_images_list w self title).
Local Abbreviation at_node := (Notions.Regulations.at_node w self title).
Local Abbreviation requested := (Notions.Regulations.requested w).
Local Abbreviation record_of := (Notions.Regulations.record_of w self title).
Local Abbreviation recorded := (Notions.Regulations.recorded w self title).
Local Abbreviation stays := (Notions.Regulations.stays w self title).
Local Abbreviation file_of := (Notions.Regulations.file_of w self).
Local Abbreviation on_disk := (Notions.Regulations.on_disk self).

(** ** The walk, unfolded *)

Lemma process_images_in_tag pc nm c a cs st :
  process_images_in w self title pc (Tag nm c a cs) st
  = match at_node pc nm (Tag nm c a cs) st with
    | (Raise, st1) => (Raise, st1)
    | (Ok found, st1) =>
        match walk (get_class (Tag nm c a cs)) cs st1 with
        | (Raise, st2) => (Raise, st2)
        | (Ok (cs', below), st2) =>
            match found with
            | Some (record, text) => (Ok (text, record :: below), st2)
            | None => (Ok (Tag nm c a cs', below), st2)
            end
        end
    end.
Proof. reflexivity. Qed.

Lemma process_mathematical_images_tag nm c a cs st :
  process_mathematical_images w self (Tag nm c a cs) title st
  = match walk (get_class (Tag nm c a cs)) cs st with
    | (Raise, st') => (Raise, st')
    | (Ok (cs', images), st') => (Ok (Tag nm c a cs', images), st')
    end.
Proof. reflexivity. Qed.

Lemma walk_cons pc x r st :
  walk pc (x :: r) st
  = match process_images_in w self title pc x st with
    | (Raise, st1) => (Raise, st1)
    | (Ok (x', r1), st1) =>
        match walk pc r st1 with
        | (Raise, st2) => (Raise, st2)
        | (Ok (r', r2), st2) => (Ok (x' :: r', r1 ++ r2), st2)
        end
    end.
Proof. reflexivity. Qed.

(** ** One download and one image *)

(** What a download returns does not depend on the trace, and what it
    adds to the trace is one request, unless [urlparse] rejects the
    address, and the file it wrote, if any. *)
Lemma download_image_writes img_url st :
  download_image w self img_url title st
  = (fst (download_image w self img_url title start),
     extend st
       (match urlparse w img_url with Some _ => [img_url] | None => [] end)
       (match fst (download_image w self img_url title start) with
        | Some local_filename =>
            [(path_join (images_dir self) local_filename,
              Bytes (match http_get w img_url with
                     | Some body => body
                     | None => ""
                     end))]
        | None => []
        end)).
Proof.
  unfold download_image.
  destruct (urlparse w img_url) as [parsed |];
    [| cbn [fst]; now rewrite extend_nil].
  destruct (http_get w img_url) as [body |];
    [| cbn [fst]; unfold extend, sent; cbn; now rewrite app_nil_r].
  match goal with |- context [if ?b then _ else _] => destruct b end;
    cbn [fst]; unfold extend, sent, written; cbn;
    rewrite ?app_nil_r; reflexivity.
Qed.

(** [process_image] by cases, with what it adds to the trace. *)
Lemma process_image_writes pc img st :
  process_image w self title pc img st
  = if truthy (get_default "src" "" img) then
      match image_url w (get_default "src" "" img) with
      | None => (Raise, st)
      | Some _ =>
          if looks_mathematical pc (lower (get_default "alt" "" img)) then
            (Ok (match record_of (pc, img) with
                 | Some record =>
                     Some (record, placeholder (local_file record) img)
                 | None => None
                 end),
             extend st (requested (pc, img))
                    (map file_of (recorded (pc, img))))
          else (Ok None, st)
      end
    else (Ok None, st).
Proof.
  unfold process_image, Notions.Regulations.recorded,
    Notions.Regulations.record_of, Notions.Regulations.requested.
  cbn [fst snd]. unfold get_default.
  destruct (get "src" img) as [src |]; [| reflexivity].
  destruct (truthy src); [| reflexivity].
  destruct (image_url w src) as [img_url |]; [| reflexivity].
  destruct (looks_mathematical pc _); [| reflexivity].
  rewrite (download_image_writes img_url st).
  destruct (fst (download_image w self img_url title start))
    as [local_filename |]; reflexivity.
Qed.

(** What the test of one element adds to the trace and finds, when no
    exception ends it. *)
Lemma at_node_writes pc nm c a cs st found st1 :
  at_node pc nm (Tag nm c a cs) st = (Ok found, st1) ->
  records_found found
  = (if String.eqb nm "img" && selected (pc, Tag nm c a cs)
     then recorded (pc, Tag nm c a cs) else [])
  /\ st1 = extend st
             (if String.eqb nm "img" && selected (pc, Tag nm c a cs)
              then requested (pc, Tag nm c a cs) else [])
             (map file_of (records_found found))
  /\ match found with
     | Some (record, text) =>
         String.eqb nm "img" = true
         /\ text = placeholder (local_file record) (Tag nm c a cs)
     | None => True
     end.
Proof.
  unfold Notions.Regulations.at_node.
  destruct (String.eqb nm "img") eqn:Enm; cbn [andb].
  2: { intros [= <- <-]. cbn [records_found map].
       now rewrite extend_nil. }
  rewrite process_image_writes. unfold selected. cbn [fst snd].
  destruct (truthy (get_default "src" "" (Tag nm c a cs))); cbn [andb].
  2: { intros [= <- <-]. cbn [records_found map].
       now rewrite extend_nil. }
  destruct (image_url w _) as [img_url |]; [| discriminate].
  destruct (looks_mathematical pc _).
  2: { intros [= <- <-]. cbn [records_found map].
       now rewrite extend_nil. }
  unfold Notions.Regulations.recorded.
  destruct (record_of (pc, Tag nm c a cs)) as [record |];
    intros [= <- <-]; cbn [records_found map]; auto.
Qed.

(** The same test from another trace finds the same. *)
Lemma at_node_again pc nm c a cs st found st1 st0 :
  at_node pc nm (Tag nm c a cs) st = (Ok found, st1) ->
  exists st2, at_node pc nm (Tag nm c a cs) st0 = (Ok found, st2).
Proof.
  unfold Notions.Regulations.at_node.
  destruct (String.eqb nm "img"); [| intros [= <- <-]; eauto].
  rewrite !process_image_writes.
  destruct (truthy _); [| intros [= <- <-]; eauto].
  destruct (image_url w _) as [img_url |]; [| discriminate].
  destruct (looks_mathematical pc _); intros [= <- <-]; eauto.
Qed.

(** ** The walk as a relation *)

Lemma run_visits_list l :
  Forall (fun n =>
            forall pc st n' records st',
              process_images_in w self title pc n st
              = (Ok (n', records), st') ->
              forall r r' more st'',
                visits pc r st' r' more st'' ->
                visits pc (n :: r) st (n' :: r') (records ++ more) st'') l ->
  forall pc st l' records st',
    walk pc l st = (Ok (l', records), st') ->
    visits pc l st l' records st'.
Proof.
  induction 1 as [| x r Hx _ IH]; intros pc st l' records st'.
  - cbn. intros [= <- <- <-]. constructor.
  - rewrite walk_cons.
    destruct (process_images_in w self title pc x st)
      as [[[x' r1] |] st1] eqn:Ex; [| discriminate].
    destruct (walk pc r st1) as [[[r' r2] |] st2] eqn:Er; [| discriminate].
    intros [= <- <- <-].
    apply (Hx _ _ _ _ _ Ex). now apply IH.
Qed.

Lemma run_visits_node n :
  forall pc st n' records st',
    process_images_in w self title pc n st = (Ok (n', records), st') ->
    forall r r' more st'',
      visits pc r st' r' more st'' ->
      visits pc (n :: r) st (n' :: r') (records ++ more) st''.
Proof.
  induction n as [s | nm c a cs IH] using node_induction;
    intros pc st n' records st' Hrun r r' more st'' Hrest.
  - cbn in Hrun. injection Hrun as <- <- <-. now constructor.
  - rewrite process_images_in_tag in Hrun.
    destruct (at_node pc nm (Tag nm c a cs) st) as [[found |] st1] eqn:Ea;
      [| discriminate].
    destruct (walk (get_class (Tag nm c a cs)) cs st1)
      as [[[cs' below] |] st2] eqn:Ew; [| discriminate].
    apply (run_visits_list cs IH) in Ew.
    destruct found as [[record text] |]; injection Hrun as <- <- <-.
    + eapply visits_replaced; eassumption.
    + eapply visits_kept; eassumption.
Qed.

(** A walk that returns is a walk of the relation, and conversely. *)
Lemma run_visits pc l st l' records st' :
  walk pc l st = (Ok (l', records), st') ->
  visits pc l st l' records st'.
Proof.
  apply run_visits_list. rewrite Forall_forall. intros n _.
  apply run_visits_node.
Qed.

Lemma visits_run pc l st l' records st' :
  visits pc l st l' records st' ->
  walk pc l st = (Ok (l', records), st').
Proof.
  induction 1 as [pc st
                 | pc s r st r' records st' _ IH
                 | pc nm c a cs r st st1 cs' below st2 r' records st3
                      Ha _ IH1 _ IH2
                 | pc nm c a cs r st record text st1 cs' below st2 r'
                      records st3 Ha _ IH1 _ IH2].
  - reflexivity.
  - rewrite walk_cons. cbn [process_images_in]. now rewrite IH.
  - rewrite walk_cons, process_images_in_tag, Ha, IH1, IH2. reflexivity.
  - rewrite walk_cons, process_images_in_tag, Ha, IH1, IH2. reflexivity.
Qed.

(** The extractor on a document is the walk over its children. *)
Lemma extractor_visits nm c a cs st soup' images st' :
  process_mathematical_images w self (Tag nm c a cs) title st
  = (Ok (soup', images), st') ->
  exists cs',
    soup' = Tag nm c a cs'
    /\ visits (get_class (Tag nm c a cs)) cs st cs' images st'.
Proof.
  rewrite process_mathematical_images_tag.
  destruct (walk (get_class (Tag nm c a cs)) cs st)
    as [[[cs' records] |] st1] eqn:Ew; [| discriminate].
  intros [= <- <- <-]. exists cs'. split; [reflexivity |].
  now apply run_visits.
Qed.

Lemma visits_extractor nm c a cs st cs' images st' :
  visits (get_class (Tag nm c a cs)) cs st cs' images st' ->
  process_mathematical_images w self (Tag nm c a cs) title st
  = (Ok (Tag nm c a cs', images), st').
Proof.
  intros H. rewrite process_mathematical_images_tag.
  now rewrite (visits_run _ _ _ _ _ _ H).
Qed.

(** ** What a walk does *)

Lemma sites_cons pc x r : sites pc (x :: r) = sites_from pc x ++ sites pc r.
Proof. reflexivity. Qed.

Lemma sites_from_tag pc nm c a cs :
  sites_from pc (Tag nm c a cs)
  = (if String.eqb nm "img" then [(pc, Tag nm c a cs)] else [])
    ++ sites (get_class (Tag nm c a cs)) cs.
Proof. unfold sites_from. now rewrite image_sites_tag. Qed.

(** The records of a walk are those of the selected images, each taken
    with the classes of its parent, in document order; the requests
    sent are theirs, and the files written are those of the records. *)
Lemma visits_sites pc l st l' records st' :
  visits pc l st l' records st' ->
  records
  = flat_map (fun site => if selected site then recorded site else [])
             (sites pc l)
  /\ st' = extend st
             (flat_map (fun site =>
                          if selected site then requested site else [])
                       (sites pc l))
             (map file_of records).
Proof.
  induction 1 as [pc st
                 | pc s r st r' records st' _ IH
                 | pc nm c a cs r st st1 cs' below st2 r' records st3
                      Ha _ IH1 _ IH2
                 | pc nm c a cs r st record text st1 cs' below st2 r'
                      records st3 Ha _ IH1 _ IH2].
  - split; [reflexivity |]. cbn. now rewrite extend_nil.
  - exact IH.
  - apply at_node_writes in Ha. destruct Ha as [Hrec [Hst _]].
    destruct IH1 as [Hb Hst2]. destruct IH2 as [Hr Hst3].
    rewrite sites_cons, sites_from_tag.
    rewrite !flat_map_app.
    cbn [records_found map] in Hrec, Hst.
    assert (Hhead :
              flat_map (fun site => if selected site then recorded site
                                    else [])
                       (if String.eqb nm "img"
                        then [(pc, Tag nm c a cs)] else []) = []).
    { destruct (String.eqb nm "img"); [| reflexivity].
      cbn [andb] in Hrec. cbn [flat_map]. rewrite <- Hrec. reflexivity. }
    split.
    + rewrite Hhead, <- Hb, <- Hr. reflexivity.
    + rewrite Hst3, Hst2, Hst, !extend_extend. f_equal.
      * rewrite <- app_assoc. f_equal.
        destruct (String.eqb nm "img"); cbn [andb flat_map];
          [now rewrite app_nil_r | reflexivity].
      * now rewrite app_nil_l, map_app.
  - apply at_node_writes in Ha. destruct Ha as [Hrec [Hst [Hnm _]]].
    destruct IH1 as [Hb Hst2]. destruct IH2 as [Hr Hst3].
    rewrite sites_cons, sites_from_tag.
    rewrite !flat_map_app, Hnm.
    rewrite Hnm in Hrec, Hst. cbn [andb records_found map] in Hrec, Hst.
    cbn [flat_map]. rewrite !app_nil_r.
    split.
    + rewrite <- Hrec, <- Hb, <- Hr. reflexivity.
    + rewrite Hst3, Hst2, Hst, !extend_extend. f_equal.
      * now rewrite <- app_assoc.
      * rewrite map_app. cbn [map app]. reflexivity.
Qed.

Lemma void_image c a cs :
  void_images (Tag "img" c a cs) = true -> cs = [].
Proof. cbn. destruct cs; [reflexivity | discriminate]. Qed.

Lemma visits_nothing pc st l' records st' :
  visits pc [] st l' records st' -> l' = [] /\ records = [] /\ st' = st.
Proof. intros H. inversion H. auto. Qed.

(** When the images have no children, the images left after a walk are
    those that stay, as they were. *)
Lemma visits_images pc l st l' records st' :
  visits pc l st l' records st' ->
  forallb void_images l = true ->
  images_in l'
  = flat_map (fun site => if stays site then [snd site] else [])
             (sites pc l).
Proof.
  induction 1 as [pc st
                 | pc s r st r' records st' _ IH
                 | pc nm c a cs r st st1 cs' below st2 r' records st3
                      Ha Hcs IH1 _ IH2
                 | pc nm c a cs r st record text st1 cs' below st2 r'
                      records st3 Ha Hcs IH1 _ IH2];
    intros Hvoid.
  - reflexivity.
  - cbn in Hvoid. apply IH in Hvoid. exact Hvoid.
  - cbn [forallb] in Hvoid. apply andb_prop in Hvoid.
    destruct Hvoid as [Hx Hr]. specialize (IH2 Hr).
    apply at_node_writes in Ha. destruct Ha as [Hrec _].
    cbn [records_found] in Hrec.
    rewrite sites_cons, sites_from_tag, !flat_map_app.
    unfold images_in in *. cbn [flat_map].
    rewrite filter_app.
    cbn [filter named]. rewrite <- IH2. f_equal.
    destruct (String.eqb nm "img") eqn:Enm.
    + apply String.eqb_eq in Enm. subst nm.
      apply void_image in Hx. subst cs.
      apply visits_nothing in Hcs. destruct Hcs as [-> _].
      cbn [andb] in Hrec. unfold Notions.Regulations.stays.
      cbn [flat_map app descendants located_descendants map filter snd].
      destruct (selected (pc, Tag "img" c a [])); cbn [negb orb];
        [| reflexivity].
      now rewrite <- Hrec.
    + cbn [flat_map app]. rewrite descendants_tag.
      apply IH1. cbn in Hx. apply andb_prop in Hx. tauto.
  - cbn [forallb] in Hvoid. apply andb_prop in Hvoid.
    destruct Hvoid as [Hx Hr]. specialize (IH2 Hr).
    apply at_node_writes in Ha. destruct Ha as [Hrec [_ [Hnm Htext]]].
    apply String.eqb_eq in Hnm. subst nm text.
    apply void_image in Hx. subst cs.
    cbn [andb records_found String.eqb Ascii.eqb Bool.eqb] in Hrec.
    rewrite sites_cons, sites_from_tag, !flat_map_app.
    unfold images_in in *. cbn [flat_map].
    cbn [String.eqb Ascii.eqb Bool.eqb flat_map app].
    unfold Notions.Regulations.stays.
    destruct (selected (pc, Tag "img" c a [])); [| discriminate].
    rewrite <- Hrec. cbn [negb orb app]. exact IH2.
Qed.

(** When the images have no children, every record of a walk has its
    placeholder among the strings of the nodes the walk leaves. *)
Lemma visits_placeholders pc l st l' records st' :
  visits pc l st l' records st' ->
  forallb void_images l = true ->
  Forall (fun record =>
            exists d,
              In (placeholder_text record d) (flat_map strings l'))
         records.
Proof.
  induction 1 as [pc st
                 | pc s r st r' records st' _ IH
                 | pc nm c a cs r st st1 cs' below st2 r' records st3
                      Ha Hcs IH1 _ IH2
                 | pc nm c a cs r st record text st1 cs' below st2 r'
                      records st3 Ha Hcs IH1 _ IH2];
    intros Hvoid.
  - constructor.
  - cbn in Hvoid. specialize (IH Hvoid).
    eapply Forall_impl; [| exact IH].
    intros record [d Hd]. exists d. cbn. now right.
  - cbn [forallb] in Hvoid. apply andb_prop in Hvoid.
    destruct Hvoid as [Hx Hr]. specialize (IH2 Hr).
    cbn [void_images] in Hx. apply andb_prop in Hx.
    destruct Hx as [_ Hx]. specialize (IH1 Hx).
    apply Forall_app. split.
    + eapply Forall_impl; [| exact IH1].
      intros record [d Hd]. exists d. cbn [flat_map strings].
      apply in_or_app. now left.
    + eapply Forall_impl; [| exact IH2].
      intros record [d Hd]. exists d. cbn [flat_map].
      apply in_or_app. now right.
  - cbn [forallb] in Hvoid. apply andb_prop in Hvoid.
    destruct Hvoid as [Hx Hr]. specialize (IH2 Hr).
    apply at_node_writes in Ha. destruct Ha as [_ [_ [Hnm Htext]]].
    apply String.eqb_eq in Hnm. subst nm text.
    apply void_image in Hx. subst cs.
    apply visits_nothing in Hcs. destruct Hcs as [_ [-> _]].
    cbn [app]. constructor.
    + exists (get_default "alt" "Mathematical formula" (Tag "img" c a [])).
      cbn [flat_map strings placeholder app]. now left.
    + eapply Forall_impl; [| exact IH2].
      intros r0 [d Hd]. exists d. cbn [flat_map].
      apply in_or_app. now right.
Qed.

(** A walk brings no content container in: it puts strings where images
    were and keeps every other element as it was. *)
Lemma visits_keep_nowhere pc l st l' records st' :
  visits pc l st l' records st' ->
  forallb (nowhere is_doc_content) l = true ->
  forallb (nowhere is_doc_content) l' = true.
Proof.
  induction 1 as [pc st
                 | pc s r st r' records st' _ IH
                 | pc nm c a cs r st st1 cs' below st2 r' records st3
                      Ha _ IH1 _ IH2
                 | pc nm c a cs r st record text st1 cs' below st2 r'
                      records st3 Ha _ IH1 _ IH2];
    intros Hno.
  - reflexivity.
  - cbn in Hno |- *. now apply IH.
  - cbn [forallb nowhere] in Hno |- *.
    apply andb_prop in Hno. destruct Hno as [Hx Hr].
    apply andb_prop in Hx. destruct Hx as [Hp Hcs].
    change (is_doc_content (Tag nm c a cs'))
      with (is_doc_content (Tag nm c a cs)).
    now rewrite Hp, (IH1 Hcs), (IH2 Hr).
  - cbn [forallb] in Hno |- *.
    apply andb_prop in Hno. destruct Hno as [_ Hr].
    apply at_node_writes in Ha. destruct Ha as [_ [_ [_ ->]]].
    cbn [placeholder nowhere]. now rewrite (IH2 Hr).
Qed.

(** A walk from another trace leaves the same nodes and appends the
    same records. *)
Lemma visits_again pc l st l' records st' :
  visits pc l st l' records st' ->
  forall st0, exists st0', visits pc l st0 l' records st0'.
Proof.
  induction 1 as [pc st
                 | pc s r st r' records st' _ IH
                 | pc nm c a cs r st st1 cs' below st2 r' records st3
                      Ha _ IH1 _ IH2
                 | pc nm c a cs r st record text st1 cs' below st2 r'
                      records st3 Ha _ IH1 _ IH2];
    intros st0.
  - exists st0. constructor.
  - destruct (IH st0) as [st0' H0]. exists st0'. now constructor.
  - destruct (at_node_again _ _ _ _ _ _ _ _ st0 Ha) as [s1 Ha0].
    destruct (IH1 s1) as [s2 H1]. destruct (IH2 s2) as [s3 H2].
    exists s3. eapply visits_kept; eassumption.
  - destruct (at_node_again _ _ _ _ _ _ _ _ st0 Ha) as [s1 Ha0].
    destruct (IH1 s1) as [s2 H1]. destruct (IH2 s2) as [s3 H2].
    exists s3. eapply visits_replaced; eassumption.
Qed.

End Extraction.

End Walk.

(* ===================================================================== *)
(** * The regulations scraper: the formula-image extractor *)
(* ===================================================================== *)

Module Images.
Import PyStr Bs4 Env CCR Props Bs4Facts Notions.Regulations.

Lemma selected_qualifies site :
  selected site = true
  <-> (exists src, get "src" (snd site) = Some src /\ truthy src = true)
      /\ qualifies (fst site) (get_default "alt" "" (snd site)).
Proof.
  unfold selected. rewrite andb_true_iff, Walk.looks_mathematical_qualifies.
  unfold get_default at 1.
  destruct (get "src" (snd site)) as [src |]; split.
  - intros [Hs Hq]. split; [exists src; auto | exact Hq].
  - intros [[src' [[= <-] Hs]] Hq]. auto.
  - intros [Hs _]. discriminate.
  - intros [[src' [Hs _]] _]. discriminate.
Qed.

(** C3 as the specification states it fails: the [alt] text is put in
    lower case before it is searched.  An image whose [alt] text is
    written in capitals and whose parent, a paragraph, is no figure
    meets none of the three conditions as they are written, and the
    extractor downloads it, records it and replaces it all the same. *)
Lemma capitals_are_selected :
  ~ qualifies_verbatim [] "FORMULA A1"
  /\ image_sites
       (document [Tag "p" None [] [Samples.img "/i/a1.png" "FORMULA A1"]])
     = [([], Samples.img "/i/a1.png" "FORMULA A1")]
  /\ process_mathematical_images
       (Samples.world [] [] []) Samples.scraper
       (document [Tag "p" None [] [Samples.img "/i/a1.png" "FORMULA A1"]])
       "T" start
     = (Ok (document
              [Tag "p" None []
                   [Text (fstr [nl; "[IMAGE: T_a1.png - FORMULA A1]"; nl])]],
            [ {| original_url := "https://govt.westlaw.com/i/a1.png";
                 local_file := "T_a1.png";
                 alt_text := "FORMULA A1";
                 description := "Mathematical formula from T" |} ]),
        {| requests := ["https://govt.westlaw.com/i/a1.png"];
           files := [("ca_regs_chapter_3_5/images/T_a1.png",
                      Bytes "https://govt.westlaw.com/i/a1.png")] |}).
Proof.
  split; [| split; reflexivity].
  intros [[cls [[] _]] | [H | [H | [word [Hin H]]]]];
    try discriminate.
  cbn in Hin.
  destruct Hin as [<- | [<- | [<- | []]]]; discriminate.
Qed.

(** C3, amended.  The images of a document are taken in document order,
    each with the classes of its immediate containing element.  An
    image is selected if and only if it has a non-empty [src] and a
    class of that element contains [figure], or its [alt] text, put in
    lower case, contains [formula], [equation], [sum], [equals] or
    [water loss].  When the extractor returns, the records it returns
    are those of the selected images whose download succeeded, and the
    requests it sent are those for the selected images (none for an
    address that [urlparse] rejects); an image that is not selected
    gives no record and no request.  When the images have no children
    (as the parser builds them), the images left in the document are,
    unchanged, those that were not selected or whose download failed. *)
Theorem formula_image_selection
        (w : World) (self : CaliforniaRegulationsScraper)
        (soup : node) (section_title : string) (st : sys)
        (soup' : node) (images : list image_record) (st' : sys)
        (run : process_mathematical_images w self soup section_title st
               = (Ok (soup', images), st')) :
  (forall site,
     selected site = true
     <-> (exists src, get "src" (snd site) = Some src /\ truthy src = true)
         /\ qualifies (fst site) (get_default "alt" "" (snd site)))
  /\ images
     = flat_map (fun site =>
                   if selected site
                   then recorded w self section_title site else [])
                (image_sites soup)
  /\ requests st'
     = requests st
       ++ flat_map (fun site =>
                      if selected site then requested w site else [])
                   (image_sites soup)
  /\ (void_images soup = true ->
      find_all (named "img") soup'
      = flat_map (fun site =>
                    if stays w self section_title site
                    then [snd site] else [])
                 (image_sites soup)).
Proof.
  split; [exact selected_qualifies |].
  destruct soup as [s | nm c a cs].
  - cbn in run. injection run as <- <- <-. cbn.
    rewrite app_nil_r. auto.
  - apply Walk.extractor_visits in run. destruct run as [cs' [-> Hwalk]].
    rewrite image_sites_tag.
    destruct (Walk.visits_sites _ _ _ _ _ _ _ _ _ Hwalk) as [Hrec Hst].
    split; [exact Hrec |]. split.
    + rewrite Hst. reflexivity.
    + intros Hvoid. cbn [void_images] in Hvoid.
      apply andb_prop in Hvoid. destruct Hvoid as [_ Hvoid].
      unfold find_all. rewrite descendants_tag.
      exact (Walk.visits_images _ _ _ _ _ _ _ _ _ Hwalk Hvoid).
Qed.

Lemma formula_image_selection_witness :
  image_sites
    (document [Samples.figure [Samples.img "/i/x.png" "Plot"];
               Tag "p" None [] [Samples.img "/logo.png" "Logo"]])
  = [(["co_figureBlock"], Samples.img "/i/x.png" "Plot");
     ([], Samples.img "/logo.png" "Logo")]
  /\ map selected
         (image_sites
            (document [Samples.figure [Samples.img "/i/x.png" "Plot"];
                       Tag "p" None [] [Samples.img "/logo.png" "Logo"]]))
     = [true; false]
  /\ requests
       (snd (process_mathematical_images
               (Samples.world [] [] []) Samples.scraper
               (document [Samples.figure [Samples.img "/i/x.png" "Plot"];
                          Tag "p" None [] [Samples.img "/logo.png" "Logo"]])
               "T" start))
     = ["https://govt.westlaw.com/i/x.png"]
  /\ find_all (named "img")
              (document
                 [Samples.figure
                    [Text (fstr [nl; "[IMAGE: T_x.png - Plot]"; nl])];
                  Tag "p" None [] [Samples.img "/logo.png" "Logo"]])
     = [Samples.img "/logo.png" "Logo"].
Proof.
  split; [reflexivity |]. split; [reflexivity |].
  pose proof (formula_image_selection
                (Samples.world [] [] []) Samples.scraper
                (document [Samples.figure [Samples.img "/i/x.png" "Plot"];
                           Tag "p" None [] [Samples.img "/logo.png" "Logo"]])
                "T" start
                (document
                   [Samples.figure
                      [Text (fstr [nl; "[IMAGE: T_x.png - Plot]"; nl])];
                    Tag "p" None [] [Samples.img "/logo.png" "Logo"]])
                [ {| original_url := "https://govt.westlaw.com/i/x.png";
                     local_file := "T_x.png";
                     alt_text := "Plot";
                     description := "Mathematical formula from T" |} ]
                {| requests := ["https://govt.westlaw.com/i/x.png"];
                   files := [("ca_regs_chapter_3_5/images/T_x.png",
                              Bytes "https://govt.westlaw.com/i/x.png")] |}
                eq_refl) as [_ [_ [Hreq Himg]]].
  split; [reflexivity |].
  rewrite (Himg eq_refl). reflexivity.
Defined.

(** C8 as the specification states it fails on two counts.  The string
    that takes the place of the image starts and ends with a line feed,
    so it is not the bracketed text alone; and an image whose [alt]
    attribute is there but empty gets an empty description, not the
    words [Mathematical formula]. *)
Lemma placeholder_is_wrapped :
  fst (process_images_in (Samples.world [] [] []) Samples.scraper "T"
         ["co_figureBlock"]
         (Samples.img "/i/x.png" "Water loss equation") start)
  = Ok (Text (fstr [nl; "[IMAGE: T_x.png - Water loss equation]"; nl]),
        [ {| original_url := "https://govt.westlaw.com/i/x.png";
             local_file := "T_x.png";
             alt_text := "Water loss equation";
             description := "Mathematical formula from T" |} ])
  /\ fstr [nl; "[IMAGE: T_x.png - Water loss equation]"; nl]
     <> "[IMAGE: T_x.png - Water loss equation]"
  /\ fst (process_images_in (Samples.world [] [] []) Samples.scraper
            "T" ["co_figureBlock"] (Samples.img "/i/x.png" "") start)
     = Ok (Text (fstr [nl; "[IMAGE: T_x.png - ]"; nl]),
           [ {| original_url := "https://govt.westlaw.com/i/x.png";
                local_file := "T_x.png";
                alt_text := "";
                description := "Mathematical formula from T" |} ]).
Proof.
  split; [reflexivity |]. split; [discriminate | reflexivity].
Qed.

(** C8, amended.  When an image qualifies and its download succeeds
    with the local name [f], the image gives way, where it stood, to
    one string: a line feed, then [[IMAGE: f - d]], then a line feed,
    where [d] is the value of the [alt] attribute when the image has
    one (be it empty) and [Mathematical formula] when it has none; one
    record is appended for the image. *)
Theorem image_placeholder
        (w : World) (self : CaliforniaRegulationsScraper)
        (section_title : string) (parent_class : list string)
        (c : option (list string)) (a : list (string * string))
        (src img_url f : string) (st st' : sys)
        (has_src : lookup "src" a = Some src)
        (src_not_empty : truthy src = true)
        (joined : image_url w src = Some img_url)
        (selected : qualifies parent_class
                              (get_default "alt" "" (Tag "img" c a [])))
        (downloaded : download_image w self img_url section_title st
                      = (Some f, st')) :
  process_images_in w self section_title parent_class (Tag "img" c a []) st
  = (Ok (Text (fstr [nl; "[IMAGE: "; f; " - ";
                     match lookup "alt" a with
                     | Some d => d
                     | None => "Mathematical formula"
                     end; "]"; nl]),
         [ {| original_url := img_url;
              local_file := f;
              alt_text := match lookup "alt" a with
                          | Some d => d
                          | None => ""
                          end;
              description := fstr ["Mathematical formula from ";
                                   section_title] |} ]),
     st').
Proof.
  apply Walk.looks_mathematical_qualifies in selected.
  cbn [process_images_in]. cbn [String.eqb Ascii.eqb Bool.eqb].
  unfold process_image. cbn [get].
  rewrite has_src, src_not_empty, joined, selected, downloaded.
  reflexivity.
Qed.

Lemma image_placeholder_witness :
  lookup "src" [("src", "/i/x.png")] = Some "/i/x.png"
  /\ truthy "/i/x.png" = true
  /\ image_url (Samples.world [] [] []) "/i/x.png"
     = Some "https://govt.westlaw.com/i/x.png"
  /\ qualifies ["co_figureBlock"]
               (get_default "alt" "" (Tag "img" None
                                          [("src", "/i/x.png")] []))
  /\ process_images_in (Samples.world [] [] []) Samples.scraper "T"
       ["co_figureBlock"] (Tag "img" None [("src", "/i/x.png")] []) start
     = (Ok (Text (fstr [nl; "[IMAGE: T_x.png - Mathematical formula]"; nl]),
            [ {| original_url := "https://govt.westlaw.com/i/x.png";
                 local_file := "T_x.png";
                 alt_text := "";
                 description := "Mathematical formula from T" |} ]),
        {| requests := ["https://govt.westlaw.com/i/x.png"];
           files := [("ca_regs_chapter_3_5/images/T_x.png",
                      Bytes "https://govt.westlaw.com/i/x.png")] |}).
Proof.
  assert (Hq : qualifies ["co_figureBlock"]
                 (get_default "alt" ""
                    (Tag "img" None [("src", "/i/x.png")] []))).
  { left. exists "co_figureBlock". split; [now left | reflexivity]. }
  split; [reflexivity |]. split; [reflexivity |]. split; [reflexivity |].
  split; [exact Hq |].
  exact (image_placeholder (Samples.world [] [] []) Samples.scraper "T"
           ["co_figureBlock"] None [("src", "/i/x.png")] "/i/x.png"
           "https://govt.westlaw.com/i/x.png"
           "T_x.png" start _ eq_refl eq_refl eq_refl Hq eq_refl).
Defined.

End Images.
(* ===================================================================== *)
(** * The regulations scraper: the heading block *)
(* ===================================================================== *)

Module Heading.
Import PyStr Bs4 Env CCR Props Bs4Facts.

Lemma fold_left_appends {A B : Type} (f : list B -> A -> list B)
      (g : A -> list B) :
  (forall acc x, f acc x = acc ++ g x) ->
  forall l init, fold_left f l init = init ++ flat_map g l.
Proof.
  intros Hf. induction l as [| x r IH]; intros init; cbn.
  - now rewrite app_nil_r.
  - rewrite IH, Hf, <- app_assoc. reflexivity.
Qed.

Lemma process_section_block_appends block lines :
  process_section_block block lines
  = lines ++ process_section_block block [].
Proof.
  unfold process_section_block.
  set (g := fun para : node =>
              if truthy (get_text_strip para)
              then (if starts_with_letter_item (get_text_strip para)
                    then [""] else []) ++ [get_text_strip para]
              else []).
  rewrite !(fold_left_appends _ g).
  - cbn. now rewrite app_assoc.
  - intros acc x. unfold g. cbn zeta.
    destruct (truthy (get_text_strip x)); [| now rewrite app_nil_r].
    destruct (starts_with_letter_item (get_text_strip x)).
    + now rewrite <- app_assoc.
    + reflexivity.
  - intros acc x. unfold g. cbn zeta.
    destruct (truthy (get_text_strip x)); [| now rewrite app_nil_r].
    destruct (starts_with_letter_item (get_text_strip x)).
    + now rewrite <- app_assoc.
    + reflexivity.
Qed.

(** A block appends to the lines and reads none of them. *)
Lemma process_block_appends lines block :
  process_block lines block = lines ++ process_block [] block.
Proof.
  unfold process_block.
  destruct (is_skipped block); [now rewrite app_nil_r |].
  cbn zeta.
  destruct (has_class "co_section" _).
  { apply process_section_block_appends. }
  destruct (has_class "co_subsection" _).
  { unfold process_subsection_block. cbn zeta.
    destruct (truthy _); [reflexivity | now rewrite app_nil_r]. }
  destruct (has_class "co_paragraph" _).
  { unfold process_paragraph_block. cbn zeta.
    destruct (truthy _); [reflexivity | now rewrite app_nil_r]. }
  destruct (_ && _); [reflexivity | now rewrite app_nil_r].
Qed.

Lemma blocks_append blocks lines :
  fold_left process_block blocks lines
  = lines ++ flat_map (process_block []) blocks.
Proof.
  apply fold_left_appends. intros acc x. apply process_block_appends.
Qed.

Lemma repeat_char_length c n : String.length (repeat_char c n) = n.
Proof. induction n; cbn; [reflexivity | now rewrite IHn]. Qed.

(** C5 as the specification states it fails: a blank line stands between
    the underline and the citation.  For the sample page the content is
    the title, the underline, an empty line, the citation and an empty
    line, not the four lines of the claim. *)
Lemma heading_has_blank_after_underline :
  fst (normalize Samples.titled_page)
  = join nl ["965. Definitions."; "================="; "";
             "23 CCR 965"; ""]
  /\ join nl ["965. Definitions."; "================="; "";
              "23 CCR 965"; ""]
     <> join nl ["965. Definitions."; "================="; "23 CCR 965"; ""].
Proof. split; [reflexivity | discriminate]. Qed.

(** C5, amended.  For a document that has its content container, a title
    element and a citation list in its title section, the content starts
    with the title text, an underline of [=] as long as the title, an
    empty line, then every non-empty citation item on a line of its own,
    then an empty line; the lines of the blocks follow. *)
Theorem heading_block
        (soup doc_content title_section title_h1 citation_ul : node)
        (has_container : find is_doc_content soup = Some doc_content)
        (has_title_section : find is_title_section soup = Some title_section)
        (has_title : find (named "h1") title_section = Some title_h1)
        (has_citation :
           find is_citation_list title_section = Some citation_ul) :
  fst (normalize soup)
  = join nl
      ([get_text_strip title_h1;
        repeat_char "=" (String.length (get_text_strip title_h1));
        ""]
       ++ filter truthy
                 (map get_text_strip (find_all (named "li") citation_ul))
       ++ [""]
       ++ flat_map (process_block []) (find_all is_content_block doc_content))
  /\ String.length
       (repeat_char "=" (String.length (get_text_strip title_h1)))
     = String.length (get_text_strip title_h1).
Proof.
  split; [| apply repeat_char_length].
  unfold normalize. rewrite has_container. cbn [fst].
  rewrite blocks_append.
  unfold heading_lines.
  rewrite has_title_section, has_title, has_citation.
  cbn zeta. rewrite <- !app_assoc. reflexivity.
Qed.

Lemma heading_block_witness :
  fst (normalize Samples.titled_page)
  = join nl ["965. Definitions."; "================="; "";
             "23 CCR 965"; ""].
Proof.
  exact (proj1 (heading_block Samples.titled_page
                  (Samples.co_document [])
                  (Tag "div" None [("id", "co_docHeaderTitle")]
                       [Tag "h1" None [] [Text "965. Definitions."];
                        Tag "ul" None [("id", "co_docHeaderCitation")]
                            [Tag "li" None [] [Text "23 CCR 965"]]])
                  (Tag "h1" None [] [Text "965. Definitions."])
                  (Tag "ul" None [("id", "co_docHeaderCitation")]
                       [Tag "li" None [] [Text "23 CCR 965"]])
                  eq_refl eq_refl eq_refl eq_refl)).
Defined.

End Heading.

(* ===================================================================== *)
(** * The regulations scraper: sections without a content container *)
(* ===================================================================== *)

Module EmptySections.
Import PyStr Bs4 Env CCR Props Bs4Facts Notions.Regulations.

Section Extraction.
Variable w : World.
Variable self : CaliforniaRegulationsScraper.
Variable section_title : string.

(** The extractor brings no content container in. *)
Lemma images_keep_absent soup st soup' images st' :
  find is_doc_content soup = None ->
  process_mathematical_images w self soup section_title st
  = (Ok (soup', images), st') ->
  find is_doc_content soup' = None.
Proof.
  intros H Hrun. apply find_none_nowhere in H. apply find_none_nowhere.
  destruct soup as [s | nm c a cs].
  - cbn in Hrun. injection Hrun as <- _ _. reflexivity.
  - apply Walk.extractor_visits in Hrun. destruct Hrun as [cs' [-> Hwalk]].
    cbn [children_of] in *.
    exact (Walk.visits_keep_nowhere _ _ _ _ _ _ _ _ _ Hwalk H).
Qed.

(** What the extractor writes: the files of the records it returns. *)
Lemma extractor_files soup st soup' images st' :
  process_mathematical_images w self soup section_title st
  = (Ok (soup', images), st') ->
  files st' = files st ++ map (file_of w self) images.
Proof.
  intros Hrun. destruct soup as [s | nm c a cs].
  - cbn in Hrun. injection Hrun as _ <- <-. cbn. now rewrite app_nil_r.
  - apply Walk.extractor_visits in Hrun. destruct Hrun as [cs' [_ Hwalk]].
    destruct (Walk.visits_sites _ _ _ _ _ _ _ _ _ Hwalk) as [_ ->].
    reflexivity.
Qed.

Lemma extractor_on_disk soup st soup' images st' :
  process_mathematical_images w self soup section_title st
  = (Ok (soup', images), st') ->
  Forall (on_disk self st') images.
Proof.
  intros Hrun. apply extractor_files in Hrun.
  rewrite Forall_forall. intros record Hin.
  unfold on_disk. rewrite Hrun.
  exists (match http_get w (original_url record) with
          | Some body => body
          | None => ""
          end).
  apply in_or_app. right.
  apply in_map_iff. exists record. split; [reflexivity | exact Hin].
Qed.

(** Where the extractor put the placeholders. *)
Lemma extractor_placeholders soup st soup' images st' :
  void_images soup = true ->
  process_mathematical_images w self soup section_title st
  = (Ok (soup', images), st') ->
  Forall (fun record =>
            exists d, In (placeholder_text record d) (strings soup'))
         images.
Proof.
  intros Hvoid Hrun. destruct soup as [s | nm c a cs].
  - cbn in Hrun. injection Hrun as _ <- _. constructor.
  - apply Walk.extractor_visits in Hrun. destruct Hrun as [cs' [-> Hwalk]].
    cbn [void_images] in Hvoid. apply andb_prop in Hvoid.
    destruct Hvoid as [_ Hvoid].
    exact (Walk.visits_placeholders _ _ _ _ _ _ _ _ _ Hwalk Hvoid).
Qed.

(** The records the extractor returns: those of the selected images
    whose download succeeded. *)
Lemma extractor_records soup st soup' images st' :
  process_mathematical_images w self soup section_title st
  = (Ok (soup', images), st') ->
  images
  = flat_map (fun site =>
                if selected site
                then recorded w self section_title site else [])
             (image_sites soup).
Proof.
  intros Hrun. destruct soup as [s | nm c a cs].
  - cbn in Hrun. injection Hrun as _ <- _. reflexivity.
  - apply Walk.extractor_visits in Hrun. destruct Hrun as [cs' [_ Hwalk]].
    rewrite image_sites_tag.
    exact (proj1 (Walk.visits_sites _ _ _ _ _ _ _ _ _ Hwalk)).
Qed.

(** The images the extractor left in the document. *)
Lemma extractor_images soup st soup' images st' :
  void_images soup = true ->
  process_mathematical_images w self soup section_title st
  = (Ok (soup', images), st') ->
  find_all (named "img") soup'
  = flat_map (fun site =>
                if stays w self section_title site then [snd site] else [])
             (image_sites soup).
Proof.
  intros Hvoid Hrun. destruct soup as [s | nm c a cs].
  - cbn in Hrun. injection Hrun as <- _ _. reflexivity.
  - apply Walk.extractor_visits in Hrun. destruct Hrun as [cs' [-> Hwalk]].
    cbn [void_images] in Hvoid. apply andb_prop in Hvoid.
    destruct Hvoid as [_ Hvoid].
    rewrite image_sites_tag. unfold find_all. rewrite descendants_tag.
    exact (Walk.visits_images _ _ _ _ _ _ _ _ _ Hwalk Hvoid).
Qed.

End Extraction.



End EmptySections.
(* ===================================================================== *)
(** * The regulations scraper: what a run records *)
(* ===================================================================== *)

Module CCRRun.
Import PyStr Bs4 Env CCR Props Bs4Facts Notions.Regulations EmptySections.

Section Run.
Variable w : World.
Variable self : CaliforniaRegulationsScraper.

Local Abbreviation content_of := (Notions.Regulations.content_of w self).
Local Abbreviation images_of := (Notions.Regulations.images_of w self).
Local Abbreviation has_content := (Notions.Regulations.has_content w self).
Local Abbreviation sections_of := (Notions.Regulations.sections_of w).
Local Abbreviation entry := (Notions.Regulations.entry w self).
Local Abbreviation entries := (Notions.Regulations.entries w self).
Local Abbreviation article_entries :=
  (Notions.Regulations.article_entries w self).
Local Abbreviation written_images :=
  (Notions.Regulations.written_images w self).

(** What a call returns does not depend on the trace so far: the world
    answers a request by its address alone. *)
Lemma extractor_again soup title st soup' images st' st0 :
  process_mathematical_images w self soup title st
  = (Ok (soup', images), st') ->
  exists st0',
    process_mathematical_images w self soup title st0
    = (Ok (soup', images), st0').
Proof.
  intros Hrun. destruct soup as [s | nm c a cs].
  - cbn in Hrun |- *. injection Hrun as <- <- _. eauto.
  - apply Walk.extractor_visits in Hrun. destruct Hrun as [cs' [-> Hwalk]].
    destruct (Walk.visits_again _ _ _ _ _ _ _ _ _ Hwalk st0) as [st0' H0].
    exists st0'. now apply Walk.visits_extractor.
Qed.

Lemma extract_section_content_again url title st result st' :
  extract_section_content w self url title st = (Ok result, st') ->
  fst (extract_section_content w self url title start) = Ok result.
Proof.
  unfold extract_section_content, get_page_content.
  destruct (http_get w url) as [body |]; cbn [option_map];
    [| intros [= <- _]; reflexivity].
  destruct (process_mathematical_images w self (html_parser w body) title
              (sent url st)) as [[[soup' images] |] st1] eqn:E;
    [| discriminate].
  destruct (extractor_again _ _ _ _ _ _ (sent url start) E) as [st0' ->].
  intros [= <- _]. reflexivity.
Qed.

Lemma extract_sections_result url (st st0 : sys) :
  fst (extract_sections_from_article w url st)
  = fst (extract_sections_from_article w url st0).
Proof.
  unfold extract_sections_from_article, get_page_content.
  destruct (http_get w url); cbn [option_map]; [| reflexivity].
  destruct (listed_links w _); reflexivity.
Qed.

Lemma written_images_cons s rest :
  written_images (s :: rest)
  = (if has_content s then images_of s else []) ++ written_images rest.
Proof.
  unfold Notions.Regulations.written_images. cbn [filter].
  destruct (has_content s); reflexivity.
Qed.

Lemma filter_length_cons s rest :
  List.length (filter has_content (s :: rest))
  = (if has_content s then 1 else 0)
    + List.length (filter has_content rest).
Proof. cbn [filter]. destruct (has_content s); reflexivity. Qed.

Lemma scrape_sections_records i article sections :
  forall j logged t st logged' t' st',
    scrape_sections w self i article j sections logged t st
    = (Ok (logged', t'), st') ->
    logged' = logged ++ entries i j sections
    /\ all_images t' = all_images t ++ written_images sections
    /\ sections_written t'
       = sections_written t + List.length (filter has_content sections).
Proof.
  induction sections as [| s rest IH];
    intros j logged t st logged' t' st' Hrun.
  - cbn in Hrun. injection Hrun as <- <- <-.
    cbn. rewrite !app_nil_r. auto.
  - cbn [scrape_sections] in Hrun.
    destruct (extract_section_content w self (section_url s)
                (section_title s) st) as [[[content images] |] st1] eqn:E;
      [| discriminate].
    apply extract_section_content_again in E.
    assert (Hc : has_content s = truthy content).
    { unfold Notions.Regulations.has_content,
        Notions.Regulations.content_of. now rewrite E. }
    assert (Hi : images_of s = images).
    { unfold Notions.Regulations.images_of. now rewrite E. }
    rewrite written_images_cons, filter_length_cons.
    cbn [entries]. rewrite Hc.
    destruct (truthy content).
    + match type of Hrun with
      | (if ?b then _ else _) = _ => destruct b; [| discriminate]
      end.
      apply IH in Hrun. destruct Hrun as [Hl [Himg Hn]].
      cbn [all_images sections_written] in Himg, Hn.
      unfold Notions.Regulations.entry. rewrite Hi.
      repeat split.
      * rewrite Hl, <- app_assoc. reflexivity.
      * rewrite Himg, <- app_assoc. reflexivity.
      * rewrite Hn. lia.
    + apply IH in Hrun. exact Hrun.
Qed.

Lemma scrape_articles_records articles :
  forall i logged t st logged' t' st',
    scrape_articles w self i articles logged t st
    = (Ok (logged', t'), st') ->
    logged' = logged ++ article_entries i articles
    /\ all_images t'
       = all_images t
         ++ flat_map (fun a => written_images (sections_of a)) articles
    /\ sections_written t'
       = sections_written t
         + list_sum (map (fun a =>
                            List.length (filter has_content (sections_of a)))
                         articles).
Proof.
  induction articles as [| a rest IH];
    intros i logged t st logged' t' st' Hrun.
  - cbn in Hrun. injection Hrun as <- <- <-.
    cbn. rewrite !app_nil_r. auto.
  - cbn [scrape_articles] in Hrun.
    pose proof (extract_sections_result (article_url a) st start) as Hres.
    destruct (extract_sections_from_article w (article_url a) st)
      as [[sections |] st1]; [| discriminate].
    cbn [fst] in Hres.
    destruct (scrape_sections w self i a 1 sections [] t st1)
      as [[[article_sections t1] |] st2] eqn:Hsec; [| discriminate].
    apply scrape_sections_records in Hsec.
    destruct Hsec as [Hl1 [Hi1 Hn1]].
    apply IH in Hrun. destruct Hrun as [Hl [Hi Hn]].
    assert (Hs : sections_of a = sections).
    { unfold Notions.Regulations.sections_of. now rewrite <- Hres. }
    cbn [article_entries flat_map map].
    change (list_sum (?x :: ?l)) with (x + list_sum l).
    rewrite !Hs.
    cbn [app] in Hl1. subst article_sections.
    repeat split.
    + rewrite Hl, <- app_assoc. reflexivity.
    + rewrite Hi, Hi1, <- app_assoc. reflexivity.
    + rewrite Hn, Hn1. lia.
Qed.

Lemma entries_length i sections :
  forall j, List.length (entries i j sections)
            = List.length (filter has_content sections).
Proof.
  induction sections as [| s rest IH]; intros j; [reflexivity |].
  cbn [entries filter]. destruct (has_content s); cbn; now rewrite IH.
Qed.

Lemma entries_images i sections :
  forall j, concat (map ls_images (entries i j sections))
            = map local_file (written_images sections).
Proof.
  unfold Notions.Regulations.written_images.
  induction sections as [| s rest IH]; intros j; [reflexivity |].
  cbn [entries filter]. destruct (has_content s).
  - cbn [flat_map].
    change (concat (map ls_images ([entry i j s] ++ entries i (S j) rest)))
      with (map local_file (images_of s)
            ++ concat (map ls_images (entries i (S j) rest))).
    rewrite map_app, IH. reflexivity.
  - cbn [app]. apply IH.
Qed.

Lemma article_entries_sections articles :
  forall i,
    List.length (concat (map la_sections (article_entries i articles)))
    = list_sum (map (fun a =>
                       List.length (filter has_content (sections_of a)))
                    articles)
    /\ concat (map ls_images
                   (concat (map la_sections (article_entries i articles))))
       = map local_file
             (flat_map (fun a => written_images (sections_of a)) articles).
Proof.
  induction articles as [| a rest IH]; intros i; [split; reflexivity |].
  destruct (IH (S i)) as [IHn IHi].
  cbn [article_entries map concat la_sections flat_map list_sum]. split.
  - rewrite length_app, entries_length, IHn. reflexivity.
  - rewrite map_app, concat_app, entries_images, IHi, map_app. reflexivity.
Qed.

Lemma article_entries_titles articles :
  forall i,
    map la_title (article_entries i articles) = map article_title articles
    /\ map la_url (article_entries i articles) = map article_url articles.
Proof.
  induction articles as [| a rest IH]; intros i; [split; reflexivity |].
  destruct (IH (S i)) as [Ht Hu]. cbn. now rewrite Ht, Hu.
Qed.

(** What the log of a run that ends holds. *)
Lemma scrape_chapter_records chapter_url st log images st' :
  scrape_chapter_3_5 w self chapter_url st = (Ok (log, images), st') ->
  exists discovered,
    fst (extract_articles_from_chapter w chapter_url st) = Ok discovered
    /\ articles log = article_entries 1 discovered
    /\ total_sections log
       = List.length (concat (map la_sections (articles log)))
    /\ images_downloaded log = List.length images
    /\ map local_file images
       = concat (map ls_images (concat (map la_sections (articles log))))
    /\ In (path_join (output_dir self) "scraping_log.json",
           Json (LogJson log)) (files st').
Proof.
  unfold scrape_chapter_3_5.
  destruct (extract_articles_from_chapter w chapter_url st)
    as [[discovered |] st1]; [| discriminate].
  cbn [fst]. intros Hrun. exists discovered. split; [reflexivity |].
  revert Hrun.
  destruct (scrape_articles w self 1 discovered []
              {| all_images := []; sections_written := 0 |} st1)
    as [[[logged t] |] st2] eqn:Hrun; [| discriminate].
  apply scrape_articles_records in Hrun.
  destruct Hrun as [Hl [Hi Hn]].
  rewrite app_nil_l in Hl.
  cbn [all_images] in Hi. rewrite app_nil_l in Hi.
  cbn [sections_written Nat.add] in Hn.
  destruct (article_entries_sections discovered 1) as [Hlen Himg].
  destruct (writable w (path_join (output_dir self) "scraping_log.json"));
    [| discriminate].
  assert (Hcommon :
            forall st3,
              In (path_join (output_dir self) "scraping_log.json",
                  Json (LogJson
                          {| chapter_title :=
                               "Chapter 3.5. Urban Water Use Efficiency and Conservation";
                             chapter_url := chapter_url;
                             articles := logged;
                             total_sections := sections_written t;
                             images_downloaded :=
                               List.length (all_images t) |}))
                 (files st3) ->
              logged = article_entries 1 discovered
              /\ sections_written t
                 = List.length (concat (map la_sections logged))
              /\ List.length (all_images t) = List.length (all_images t)
              /\ map local_file (all_images t)
                 = concat (map ls_images (concat (map la_sections logged)))
              /\ In (path_join (output_dir self) "scraping_log.json",
                     Json (LogJson
                             {| chapter_title :=
                                  "Chapter 3.5. Urban Water Use Efficiency and Conservation";
                                chapter_url := chapter_url;
                                articles := logged;
                                total_sections := sections_written t;
                                images_downloaded :=
                                  List.length (all_images t) |}))
                    (files st3)).
  { intros st3 Hin. subst logged. repeat split.
    - now rewrite Hlen, Hn.
    - now rewrite Himg, Hi.
    - exact Hin. }
  destruct (all_images t) as [| im ims] eqn:Eimgs.
  - intros [= <- <- <-]. cbn [articles total_sections images_downloaded].
    apply Hcommon. cbn. apply in_or_app. right. now left.
  - destruct (writable w (path_join (output_dir self) "images_metadata.json"));
      [| discriminate].
    intros [= <- <- <-]. cbn [articles total_sections images_downloaded].
    apply Hcommon. cbn. apply in_or_app. left. apply in_or_app. right.
    now left.
Qed.

End Run.

End CCRRun.

(* ===================================================================== *)
(** * The statute scraper: what a run records *)
(* ===================================================================== *)

Module WaterRun.
Import PyStr Bs4 Env WaterCode Notions.Statutes.

Lemma advanced_refl c st : advanced c st c st 0.
Proof. unfold advanced. lia. Qed.

Lemma advanced_trans c st c1 st1 c2 st2 n m :
  advanced c st c1 st1 n -> advanced c1 st1 c2 st2 m ->
  advanced c st c2 st2 (n + m).
Proof. unfold advanced. lia. Qed.

Lemma advanced_from c st st0 c' st' n :
  files st0 = files st -> advanced c st0 c' st' n -> advanced c st c' st' n.
Proof. unfold advanced. intros ->. auto. Qed.

Section Run.
Variable w : World.
Variable cfg : config.

Lemma try_leaf_advances dir url filename heading c st :
  advanced c st
           (counted (fst (try_leaf w dir url filename heading st)) c)
           (snd (try_leaf w dir url filename heading st)) 1.
Proof.
  unfold try_leaf, scrape_content.
  destruct (http_get w url) as [body |].
  - destruct (truthy _).
    + destruct (writable w _); unfold advanced; cbn;
        rewrite ?length_app; cbn; lia.
    + unfold advanced; cbn; lia.
  - unfold advanced; cbn; lia.
Qed.

Lemma scrape_articles_advances articles :
  forall c st,
    advanced c st (fst (scrape_articles w cfg articles c st))
             (snd (scrape_articles w cfg articles c st))
             (List.length articles).
Proof.
  induction articles as [| a rest IH]; intros c st.
  - apply advanced_refl.
  - cbn [scrape_articles List.length].
    pose proof (try_leaf_advances (output_dir cfg) (a_url a)
                  (create_filename (a_code a) (a_division a) (a_part a)
                     (a_chapter a) (a_article a) (a_title a))
                  (article_heading cfg a) c st) as H1.
    destruct (try_leaf w (output_dir cfg) (a_url a) _ _ st) as [ok st1].
    cbn [fst snd] in H1.
    change (S (List.length rest)) with (1 + List.length rest).
    eapply advanced_trans; [exact H1 | apply IH].
Qed.

Lemma articles_listing url code division part chapter (st : sys) :
  files (snd (get_articles_for_chapter w url code division part chapter st))
  = files st
  /\ fst (get_articles_for_chapter w url code division part chapter st)
     = fst (get_articles_for_chapter w url code division part chapter start).
Proof.
  unfold get_articles_for_chapter.
  destruct (http_get w url); [| split; reflexivity].
  destruct (find is_branch _); split; reflexivity.
Qed.

Lemma chapters_listing url code division part (st : sys) :
  files (snd (get_chapters_for_part w url code division part st)) = files st
  /\ fst (get_chapters_for_part w url code division part st)
     = fst (get_chapters_for_part w url code division part start)
  /\ forall chapters,
       fst (get_chapters_for_part w url code division part st) = Ok chapters ->
       Forall (fun c => c_articles c = []) chapters.
Proof.
  unfold get_chapters_for_part.
  destruct (http_get w url) as [body |];
    [| repeat split; discriminate].
  destruct (find is_branch _) as [content_div |]; cbn [fst snd].
  - split; [reflexivity |]. split; [reflexivity |]. intros chapters Hall.
    rewrite Forall_forall. intros c Hc.
    destruct (LoopFacts.collect_in _ _ _ _ Hall Hc)
      as [anchor [found [_ [Hf Hin]]]].
    unfold chapter_of_anchor in Hf.
    destruct (find (indented "margin-left:30px") anchor);
      [| injection Hf as <-; contradiction].
    destruct (contains "(Reserved)" _);
      [injection Hf as <-; contradiction |].
    destruct (negb (contains "CHAPTER" _));
      [injection Hf as <-; contradiction |].
    destruct (urlparse w _) as [parsed |]; [| discriminate].
    destruct (negb (truthy _)); [injection Hf as <-; contradiction |].
    destruct (urljoin w _ _) as [joined |].
    + destruct (contains "codes_displayexpandedbranch.xhtml" _).
      * injection Hf as <-. destruct Hin as [<- | []]. reflexivity.
      * destruct (contains "codes_displayText.xhtml" _);
          injection Hf as <-; [| contradiction].
        destruct Hin as [<- | []]. reflexivity.
    + destruct (contains "codes_displayexpandedbranch.xhtml" _);
        [discriminate |].
      destruct (contains "codes_displayText.xhtml" _); [discriminate |].
      injection Hf as <-. contradiction.
  - split; [reflexivity |]. split; [reflexivity |].
    intros chapters [= <-]. constructor.
Qed.

Lemma division_listing code division specific_parts (st : sys) :
  files (snd (get_division_structure w code division specific_parts st))
  = files st
  /\ forall parts,
       fst (get_division_structure w code division specific_parts st)
       = Ok parts ->
       Forall (fun p => p_chapters p = []) parts.
Proof.
  unfold get_division_structure.
  destruct (http_get w _) as [body |]; [| split; [reflexivity | discriminate]].
  destruct (find is_branch _) as [content_div |]; cbn [fst snd].
  - split; [reflexivity |]. intros parts Hall.
    rewrite Forall_forall. intros p Hp.
    destruct (LoopFacts.collect_in _ _ _ _ Hall Hp)
      as [anchor [found [_ [Hf Hin]]]].
    unfold part_of_anchor in Hf.
    destruct (find (indented "margin-left:20px") anchor);
      [| injection Hf as <-; contradiction].
    destruct (negb (contains "PART" _));
      [injection Hf as <-; contradiction |].
    destruct (contains "(Reserved)" _);
      [injection Hf as <-; contradiction |].
    destruct (urlparse w _) as [parsed |]; [| discriminate].
    destruct (negb (truthy _)); [injection Hf as <-; contradiction |].
    destruct (filtered_out _ _); [injection Hf as <-; contradiction |].
    destruct (urljoin w _ _) as [joined |]; [| discriminate].
    injection Hf as <-. destruct Hin as [<- | []]. reflexivity.
  - split; [reflexivity |]. intros parts [= <-]. constructor.
Qed.

Local Abbreviation with_articles := (Notions.Statutes.with_articles w cfg).
Local Abbreviation with_chapters := (Notions.Statutes.with_chapters w cfg).

(** A chapter after its turn is the chapter with its articles. *)
Lemma one_chapter_records chapter c st chapter' c' st' :
  c_articles chapter = [] ->
  scrape_chapter w cfg chapter c st = (Ok (chapter', c'), st') ->
  advanced c st c' st' (leaves_of_chapter chapter')
  /\ chapter' = with_articles chapter.
Proof.
  intros Hfresh. unfold scrape_chapter, Notions.Statutes.with_articles,
    Notions.Statutes.listed_articles.
  destruct (c_has_articles chapter) eqn:Hexp.
  - destruct (articles_listing (c_url chapter) (code cfg)
                (division cfg) (c_part chapter) (c_chapter chapter) st)
      as [Hfiles Hsame].
    rewrite <- Hsame.
    destruct (get_articles_for_chapter w (c_url chapter) (code cfg)
                (division cfg) (c_part chapter) (c_chapter chapter) st)
      as [[articles |] st1]; [| discriminate].
    cbn [fst snd] in *.
    destruct articles as [| a rest].
    + intros [= <- <- <-]. split.
      * unfold leaves_of_chapter. rewrite Hexp, Hfresh.
        unfold advanced. rewrite Hfiles. cbn. lia.
      * destruct chapter. cbn in *. now subst.
    + pose proof (scrape_articles_advances (a :: rest) c st1) as Hadv.
      destruct (scrape_articles w cfg (a :: rest) c st1) as [c2 st2].
      intros [= <- <- <-]. split.
      * unfold leaves_of_chapter. cbn [c_has_articles c_articles].
        rewrite ?Hexp. cbn [fst snd] in Hadv.
        unfold advanced in *. rewrite Hfiles in Hadv. exact Hadv.
      * reflexivity.
  - pose proof (try_leaf_advances (output_dir cfg) (c_url chapter)
                  (create_filename (c_code chapter) (c_division chapter)
                     (c_part chapter) (c_chapter chapter) ""
                     (c_title chapter))
                  (chapter_heading cfg chapter) c st) as H1.
    destruct (try_leaf w (output_dir cfg) (c_url chapter) _ _ st)
      as [ok st1].
    intros [= <- <- <-]. split; [| reflexivity].
    unfold leaves_of_chapter. rewrite Hexp. exact H1.
Qed.

Lemma scrape_chapters_records chapters :
  forall c st chapters' c' st',
    Forall (fun c => c_articles c = []) chapters ->
    scrape_chapters w cfg chapters c st = (Ok (chapters', c'), st') ->
    advanced c st c' st' (list_sum (map leaves_of_chapter chapters'))
    /\ chapters' = map with_articles chapters.
Proof.
  induction chapters as [| ch rest IH];
    intros c st chapters' c' st' Hfresh.
  - intros [= <- <- <-]. split; [apply advanced_refl | reflexivity].
  - inversion Hfresh as [| ? ? Hch Hrest]; subst.
    cbn [scrape_chapters].
    destruct (scrape_chapter w cfg ch c st) as [[[ch1 c1] |] st1] eqn:E1;
      [| discriminate].
    apply (one_chapter_records _ _ _ _ _ _ Hch) in E1.
    destruct E1 as [Ha1 Hb1].
    destruct (scrape_chapters w cfg rest c1 st1) as [[[rest1 c2] |] st2]
      eqn:E2; [| discriminate].
    apply (IH _ _ _ _ _ Hrest) in E2. destruct E2 as [Ha2 Hb2].
    intros [= <- <- <-]. split.
    + cbn [map]. change (list_sum (?x :: ?l)) with (x + list_sum l).
      eapply advanced_trans; eassumption.
    + cbn [map]. now rewrite Hb1, Hb2.
Qed.

(** A part after its turn is the part with its chapters. *)
Lemma scrape_part_records part c st part' c' st' :
  p_chapters part = [] ->
  scrape_part w cfg part c st = (Ok (part', c'), st') ->
  advanced c st c' st' (leaves_of_part part')
  /\ part' = with_chapters part.
Proof.
  intros Hfresh. unfold scrape_part, Notions.Statutes.with_chapters,
    Notions.Statutes.listed_chapters.
  destruct (p_has_chapters part) eqn:Hexp.
  - destruct (chapters_listing (p_url part) (code cfg) (division cfg)
                (p_part part) st) as [Hfiles [Hsame Hfr]].
    rewrite <- Hsame.
    destruct (get_chapters_for_part w (p_url part) (code cfg) (division cfg)
                (p_part part) st) as [[chapters |] st1]; [| discriminate].
    cbn [fst snd] in *. specialize (Hfr chapters eq_refl).
    destruct chapters as [| ch rest].
    + intros [= <- <- <-]. split.
      * unfold leaves_of_part. rewrite Hexp, Hfresh.
        unfold advanced. rewrite Hfiles. cbn. lia.
      * destruct part. cbn in *. now subst.
    + destruct (scrape_chapters w cfg (ch :: rest) c st1)
        as [[[chapters1 c1] |] st2] eqn:E; [| discriminate].
      apply (scrape_chapters_records _ _ _ _ _ _ Hfr) in E.
      destruct E as [Ha Hb].
      intros [= <- <- <-]. split.
      * unfold leaves_of_part. cbn [p_has_chapters p_chapters].
        rewrite ?Hexp. unfold advanced in *. rewrite Hfiles in Ha. exact Ha.
      * now rewrite Hb.
  - pose proof (try_leaf_advances (output_dir cfg) (p_url part)
                  (create_filename (p_code part) (p_division part)
                     (p_part part) "" "" (p_title part))
                  (part_heading cfg part) c st) as H1.
    destruct (try_leaf w (output_dir cfg) (p_url part) _ _ st) as [ok st1].
    intros [= <- <- <-]. split; [| reflexivity].
    unfold leaves_of_part. rewrite Hexp. exact H1.
Qed.

Lemma scrape_parts_records parts :
  forall c st parts' c' st',
    Forall (fun p => p_chapters p = []) parts ->
    scrape_parts w cfg parts c st = (Ok (parts', c'), st') ->
    advanced c st c' st' (list_sum (map leaves_of_part parts'))
    /\ parts' = map with_chapters parts.
Proof.
  induction parts as [| p rest IH]; intros c st parts' c' st' Hfresh.
  - intros [= <- <- <-]. split; [apply advanced_refl | reflexivity].
  - inversion Hfresh as [| ? ? Hp Hrest]; subst.
    cbn [scrape_parts].
    destruct (scrape_part w cfg p c st) as [[[p1 c1] |] st1] eqn:E1;
      [| discriminate].
    apply (scrape_part_records _ _ _ _ _ _ Hp) in E1.
    destruct E1 as [Ha1 Hb1].
    destruct (scrape_parts w cfg rest c1 st1) as [[[rest1 c2] |] st2]
      eqn:E2; [| discriminate].
    apply (IH _ _ _ _ _ Hrest) in E2. destruct E2 as [Ha2 Hb2].
    intros [= <- <- <-]. split.
    + cbn [map]. change (list_sum (?x :: ?l)) with (x + list_sum l).
      eapply advanced_trans; eassumption.
    + cbn [map]. now rewrite Hb1, Hb2.
Qed.

(** What a run of [scrape_code_section] that ends has recorded.  With
    no part discovered it returns two zeros and writes nothing.
    Otherwise the structure file, written last, holds the discovered
    parts, in their order, each with its chapters and their articles;
    the second count is the number of leaves of that structure, the
    first count is the number of text files written, and it is at most
    the second. *)
Lemma scrape_code_section_records st successful items st' :
  scrape_code_section w cfg st = (Ok (successful, items), st') ->
  exists discovered,
    fst (get_division_structure w (code cfg) (division cfg) (parts cfg) st)
    = Ok discovered
    /\ ((discovered = [] /\ successful = 0 /\ items = 0
         /\ files st' = files st)
        \/ (discovered <> []
            /\ files st'
               = firstn (List.length (files st) + successful) (files st')
                 ++ [(structure_file cfg,
                      Json (map with_chapters discovered))]
            /\ items
               = list_sum (map leaves_of_part
                               (map with_chapters discovered))
            /\ successful <= items)).
Proof.
  unfold scrape_code_section.
  destruct (division_listing (code cfg) (division cfg) (parts cfg) st)
    as [Hfiles Hfr].
  destruct (get_division_structure w (code cfg) (division cfg) (parts cfg) st)
    as [[discovered |] st1]; [| discriminate].
  cbn [fst snd] in *. specialize (Hfr discovered eq_refl).
  destruct discovered as [| p rest].
  - intros [= <- <- <-]. exists []. split; [reflexivity |]. left. auto.
  - destruct (scrape_parts w cfg (p :: rest)
                {| successful_downloads := 0; total_items := 0 |} st1)
      as [[[structure c] |] st2] eqn:E; [| discriminate].
    apply (scrape_parts_records _ _ _ _ _ _ Hfr) in E.
    destruct E as [Ha Hb].
    destruct (writable w (structure_file cfg)); [| discriminate].
    intros [= <- <- <-]. exists (p :: rest). split; [reflexivity |]. right.
    unfold advanced in Ha. cbn [successful_downloads total_items] in Ha.
    destruct Ha as [Ht [_ [Hle Hlen]]].
    rewrite Hfiles in Hlen. rewrite <- Hb.
    repeat split.
    + discriminate.
    + cbn [files written].
      replace (List.length (files st) + successful_downloads c)
        with (List.length (files st2) + 0) by lia.
      rewrite firstn_app_2. cbn [firstn]. now rewrite app_nil_r.
    + lia.
    + lia.
Qed.

End Run.

End WaterRun.

(* ===================================================================== *)
(** * What the manifests hold at the end of a run *)
(* ===================================================================== *)

Module Manifest.
Import PyStr Bs4 Env.




End Manifest.

(* ===================================================================== *)
(** * The statute scraper: discovery *)
(* ===================================================================== *)

Module Discovery.
Import PyStr Bs4 Env WaterCode.

(** At the level of the parts a reserved entry is rejected. *)
Lemma parts_are_not_reserved w code division specific_parts st parts :
  fst (get_division_structure w code division specific_parts st) = Ok parts ->
  Forall (fun p => contains "(Reserved)" (p_title p) = false) parts.
Proof.
  unfold get_division_structure.
  destruct (http_get w _) as [body |]; [| discriminate].
  destruct (find is_branch _) as [content_div |]; cbn [fst];
    [| intros [= <-]; constructor].
  intros Hall. rewrite Forall_forall. intros p Hp.
  destruct (LoopFacts.collect_in _ _ _ _ Hall Hp)
    as [anchor [found [_ [Hf Hin]]]].
  unfold part_of_anchor in Hf.
  destruct (find (indented "margin-left:20px") anchor);
    [| injection Hf as <-; contradiction].
  destruct (negb (contains "PART" _));
    [injection Hf as <-; contradiction |].
  destruct (contains "(Reserved)" _) eqn:E;
    [injection Hf as <-; contradiction |].
  destruct (urlparse w _) as [parsed |]; [| discriminate].
  destruct (negb (truthy _)); [injection Hf as <-; contradiction |].
  destruct (filtered_out _ _); [injection Hf as <-; contradiction |].
  destruct (urljoin w _ _) as [joined |]; [| discriminate].
  injection Hf as <-. destruct Hin as [<- | []]. exact E.
Qed.

(** At the level of the chapters a reserved entry is rejected. *)
Lemma chapters_are_not_reserved w url code division part st chapters :
  fst (get_chapters_for_part w url code division part st) = Ok chapters ->
  Forall (fun c => contains "(Reserved)" (c_title c) = false) chapters.
Proof.
  unfold get_chapters_for_part.
  destruct (http_get w _) as [body |]; [| discriminate].
  destruct (find is_branch _) as [content_div |]; cbn [fst];
    [| intros [= <-]; constructor].
  intros Hall. rewrite Forall_forall. intros c Hc.
  destruct (LoopFacts.collect_in _ _ _ _ Hall Hc)
    as [anchor [found [_ [Hf Hin]]]].
  unfold chapter_of_anchor in Hf.
  destruct (find (indented "margin-left:30px") anchor);
    [| injection Hf as <-; contradiction].
  destruct (contains "(Reserved)" _) eqn:E;
    [injection Hf as <-; contradiction |].
  destruct (negb (contains "CHAPTER" _));
    [injection Hf as <-; contradiction |].
  destruct (urlparse w _) as [parsed |]; [| discriminate].
  destruct (negb (truthy _)); [injection Hf as <-; contradiction |].
  destruct (urljoin w _ _) as [joined |].
  - destruct (contains "codes_displayexpandedbranch.xhtml" _).
    + injection Hf as <-. destruct Hin as [<- | []]. exact E.
    + destruct (contains "codes_displayText.xhtml" _);
        injection Hf as <-; [| contradiction].
      destruct Hin as [<- | []]. exact E.
  - destruct (contains "codes_displayexpandedbranch.xhtml" _);
      [discriminate |].
    destruct (contains "codes_displayText.xhtml" _); [discriminate |].
    injection Hf as <-. contradiction.
Qed.

(** C6 fails at the level of the articles: [get_articles_for_chapter]
    has no test for reserved entries.  The listing of chapter 1 of the
    sample site has a reserved article, and it is among the articles
    discovered. *)
Theorem reserved_article_is_discovered :
  map a_title
      (match fst (get_articles_for_chapter
                    (Samples.world Samples.statute_site [] [])
                    (Samples.site_url
                       (Samples.branch "part=1.&chapter=1.&article="))
                    "WAT" "6" "1." "1." start) with
       | Ok articles => articles
       | Raise => []
       end)
  = ["ARTICLE 1. Scope"; "ARTICLE 2. (Reserved)"]
  /\ contains "(Reserved)" "ARTICLE 2. (Reserved)" = true.
Proof. split; vm_compute; reflexivity. Qed.

(** A fetch that fails while a leaf is processed is caught. *)
Lemma leaf_failure_is_caught w dir url filename heading st :
  http_get w url = None ->
  try_leaf w dir url filename heading st = (false, sent url st).
Proof. intros H. unfold try_leaf, scrape_content. now rewrite H. Qed.

(** A fetch that fails while a part is expanded is not: the loop over
    the parts ends there, whatever parts follow. *)
Lemma part_expansion_failure_raises w cfg part rest c st :
  p_has_chapters part = true ->
  http_get w (p_url part) = None ->
  scrape_parts w cfg (part :: rest) c st = (Raise, sent (p_url part) st).
Proof.
  intros Hexp Hfail. cbn [scrape_parts]. unfold scrape_part.
  rewrite Hexp. unfold get_chapters_for_part. now rewrite Hfail.
Qed.

(** The same while a chapter is expanded. *)
Lemma chapter_expansion_failure_raises w cfg chapter rest c st :
  c_has_articles chapter = true ->
  http_get w (c_url chapter) = None ->
  scrape_chapters w cfg (chapter :: rest) c st
  = (Raise, sent (c_url chapter) st).
Proof.
  intros Hexp Hfail. cbn [scrape_chapters]. unfold scrape_chapter.
  rewrite Hexp. unfold get_articles_for_chapter. now rewrite Hfail.
Qed.

(** In the regulations scraper the same failure is caught: the article
    has no section. *)
Lemma regulations_expansion_failure_is_caught w url (st : CCR.sys) :
  http_get w url = None ->
  CCR.extract_sections_from_article w url st = (Ok [], sent url st).
Proof.
  intros H. unfold CCR.extract_sections_from_article, CCR.get_page_content.
  now rewrite H.
Qed.

(** C1 fails in the statute scraper.  When the listing of part 1 of the
    sample site cannot be fetched, the exception leaves
    [scrape_code_section]: part 2, a leaf, is never requested and no file
    is written, the structure file included.  With the listing served,
    the same run writes the leaf of part 2. *)
Theorem failed_expansion_aborts_the_run :
  scrape_code_section
    (Samples.world Samples.statute_site
                   [Samples.site_url
                      (Samples.branch "part=1.&chapter=&article=")] [])
    Samples.water_division start
  = (Raise,
     {| requests :=
          [Samples.site_url (Samples.branch "title=&part=&chapter=&article=");
           Samples.site_url (Samples.branch "part=1.&chapter=&article=")];
        files := [] |})
  /\ fst (scrape_code_section (Samples.world Samples.statute_site [] [])
                              Samples.water_division start)
     = Ok (3, 4)
  /\ In "california_legal_codes/WAT_division_6/WAT_div6_part2__PART_2._THE_CALIFORNIA_WATER_PLAN.txt"
        (map fst
             (files (snd (scrape_code_section
                            (Samples.world Samples.statute_site [] [])
                            Samples.water_division start)))).
Proof.
  split; [vm_compute; reflexivity |].
  split; [vm_compute; reflexivity |].
  vm_compute. tauto.
Qed.

End Discovery.

(* ===================================================================== *)
(** * The statute scraper: the flat schema *)
(* ===================================================================== *)

Module FlatSchema.
Import PyStr Bs4 Env WaterCode Props.

Lemma concat_first sep c g l :
  String.concat sep (String c g :: l) = String c (String.concat sep (g :: l)).
Proof. destruct l; reflexivity. Qed.

Lemma concat_empty_first g l :
  String.concat "." (EmptyString :: g :: l)
  = String "." (String.concat "." (g :: l)).
Proof. reflexivity. Qed.

Lemma digit_is_no_dot c : isdigit c = true -> Ascii.eqb c "." = false.
Proof.
  destruct c as [[] [] [] [] [] [] [] []]; cbn; intros H;
    first [reflexivity | discriminate H].
Qed.

(** What [digit_groups] accepts once [seen] digits of a group were read:
    the rest of the group, then the groups that follow. *)
Lemma digit_groups_sound s :
  forall seen,
    digit_groups seen s = true ->
    exists g groups,
      all_digits g = true
      /\ (seen = false -> g <> EmptyString)
      /\ Forall digit_group groups
      /\ s = String.concat "." (g :: groups).
Proof.
  induction s as [| c r IH]; intros seen H; cbn in H.
  - exists EmptyString, []. repeat split.
    + intros ->. discriminate.
    + constructor.
  - destruct (isdigit c) eqn:D.
    + destruct (IH true H) as [g [groups [Hg [_ [Hgs Hr]]]]].
      exists (String c g), groups. repeat split.
      * cbn. now rewrite D, Hg.
      * discriminate.
      * exact Hgs.
      * rewrite concat_first. now rewrite Hr.
    + destruct (Ascii.eqb c ".") eqn:E; [| discriminate].
      apply Ascii.eqb_eq in E. subst c.
      apply andb_prop in H. destruct H as [Hseen H].
      destruct (IH false H) as [g [groups [Hg [Hne [Hgs Hr]]]]].
      exists EmptyString, (g :: groups). repeat split.
      * intros ->. discriminate.
      * constructor; [split; [exact Hg | now apply Hne] | exact Hgs].
      * rewrite concat_empty_first. now rewrite Hr.
Qed.

Lemma digit_groups_digits g :
  forall seen,
    all_digits g = true -> (seen = false -> g <> EmptyString) ->
    digit_groups seen g = true.
Proof.
  induction g as [| c g IH]; intros seen Hd Hne; cbn.
  - destruct seen; [reflexivity | now contradiction Hne].
  - cbn in Hd. apply andb_prop in Hd. destruct Hd as [Hc Hg].
    rewrite Hc. apply IH; [exact Hg | discriminate].
Qed.

Lemma digit_groups_complete groups :
  Forall digit_group groups ->
  forall g seen,
    all_digits g = true -> (seen = false -> g <> EmptyString) ->
    digit_groups seen (String.concat "." (g :: groups)) = true.
Proof.
  induction 1 as [| g2 gs [Hd2 Hn2] _ IH].
  - intros g seen Hd Hne. cbn [String.concat]. now apply digit_groups_digits.
  - induction g as [| c g IHg]; intros seen Hd Hne.
    + rewrite concat_empty_first. cbn.
      destruct seen; [| now contradiction Hne].
      cbn. apply IH; [exact Hd2 | intros _; exact Hn2].
    + rewrite concat_first. cbn.
      cbn in Hd. apply andb_prop in Hd. destruct Hd as [Hc Hg].
      rewrite Hc. apply IHg; [exact Hg | discriminate].
Qed.

(** The test of line 286 on a text that does not end in a line feed is
    the strict pattern. *)
Lemma match_section_number_strict s :
  chomp s = None ->
  (match_section_number s = true <-> strict_section_number s).
Proof.
  intros Hc. unfold match_section_number. rewrite Hc, orb_false_r. split.
  - intros H. apply digit_groups_sound in H.
    destruct H as [g [groups [Hg [Hne [Hgs Hs]]]]].
    exists g, groups. repeat split; auto.
  - intros [g [groups [[Hg Hne] [Hgs ->]]]].
    apply digit_groups_complete; auto.
Qed.

(** A section number, read as a pattern, matches itself. *)
Lemma number_matches_itself num :
  forall seen tail,
    digit_groups seen num = true ->
    match_pattern num (num ++ tail) = Some tail.
Proof.
  induction num as [| c r IH]; intros seen tail H; cbn in *.
  - reflexivity.
  - unfold pattern_char. destruct (isdigit c) eqn:D.
    + rewrite (digit_is_no_dot c D), Ascii.eqb_refl. now apply (IH true).
    + destruct (Ascii.eqb c ".") eqn:E; [| discriminate].
      apply Ascii.eqb_eq in E. subst c. cbn.
      apply andb_prop in H. destruct H as [_ H]. now apply (IH false).
Qed.

Lemma strict_is_accepted num :
  strict_section_number num -> digit_groups false num = true.
Proof.
  intros [g [groups [[Hg Hne] [Hgs ->]]]].
  apply digit_groups_complete; auto.
Qed.

Lemma last_of_cons {A : Type} (x : A) (l : list A) :
  last_of (x :: l)
  = match last_of l with Some y => Some y | None => Some x end.
Proof.
  revert x. induction l as [| y r IH]; intros x; [reflexivity |].
  change (last_of (x :: y :: r)) with (last_of (y :: r)).
  rewrite (IH y). now destruct (last_of r).
Qed.

Lemma last_of_app_one {A : Type} (x : A) (l : list A) :
  last_of ([x] ++ l)
  = match last_of l with Some y => Some y | None => Some x end.
Proof. apply last_of_cons. Qed.

(** The loop of lines 295-305: the texts of the paragraphs of section
    text are appended in order, and the last citation is kept. *)
Lemma classify_fold paragraphs :
  forall acc,
    fold_left classify_paragraph paragraphs acc
    = (fst acc ++ section_texts_of paragraphs,
       match last_of (citations_of paragraphs) with
       | Some c => Some c
       | None => snd acc
       end).
Proof.
  unfold section_texts_of, citations_of.
  induction paragraphs as [| p rest IH]; intros [texts citation].
  - cbn. now rewrite app_nil_r.
  - cbn [fold_left]. rewrite IH. unfold classify_paragraph.
    cbn [fst snd filter].
    destruct (truthy (get_text_strip p)); cbn [andb]; [| reflexivity].
    destruct (is_citation p); cbn [andb negb fst snd map].
    + rewrite last_of_cons.
      now destruct (last_of _).
    + destruct (is_section_text p); cbn [fst snd map];
        [now rewrite <- app_assoc | reflexivity].
Qed.

(** C4 as the specification states it fails.  (1) Every trailing dot of
    the anchor text is stripped, not one: the text [1011.5..] is
    accepted, although without its last dot it does not match.  (2) A
    paragraph counts as section text only when its style has
    [display:inline] or [margin:0]: the text of the first paragraph of
    the sample, which has no style, is not emitted (the second one
    holds an [i] element and is emitted as the citation).  (3) The [$]
    of the pattern also holds before a final line feed, so a number
    followed by a line feed is accepted (a slip of the pattern, not
    part of the design). *)
Lemma flat_schema_divergences :
  (section_number_of (Tag "a" None [] [Text "1011.5.."]) = "1011.5"
   /\ match_section_number "1011.5" = true
   /\ without_last_dot "1011.5.." = "1011.5."
   /\ match_section_number "1011.5." = false)
  /\ section_lines
       (Tag "div" None [("align", "left")]
            [Tag "h6" None [] [Tag "a" None [] [Text "1011.5."]];
             Tag "p" None [] [Text "1011.5. The board shall act."];
             Tag "p" None [] [Tag "i" None []
                                  [Text "(Added by Stats. 1980.)"]]])
     = [fstr [nl; "1011.5."]; fstr [nl; "(Added by Stats. 1980.)"]]
  /\ match_section_number
       (section_number_of (Tag "a" None [] [Text (fstr ["12"; nl; "."])]))
     = true.
Proof. repeat split. Qed.

(** C4, amended.  The text of an anchor, stripped of the whitespace
    around it and of all its trailing dots, is accepted as a section
    number if and only if it matches digits('.'digits)* (for a text that
    does not end in a line feed once stripped).  A [div] without header
    whose [h6] holds such an anchor emits nothing when the number is not
    accepted.  When it is accepted the [div] emits, in this order: a
    line feed followed by the number and a dot; if a paragraph of
    section text has text, a space followed by the texts of these
    paragraphs, joined by spaces, without their leading number; if a
    citation has text, a line feed followed by the text of the last
    citation.  A citation is a paragraph whose style has
    [font-size:0.9em] or that holds an [i] element; a paragraph of
    section text is one that is no citation and whose style has
    [display:inline] or [margin:0]; a paragraph of neither kind, or
    without text, is not emitted.  The leading number goes with the dot
    and the whitespace that follow it. *)
Theorem flat_section
        (div h6 section_link : node)
        (no_header : find is_header div = None)
        (has_h6 : find (named "h6") div = Some h6)
        (has_link : find (named "a") h6 = Some section_link)
        (no_line_feed : chomp (section_number_of section_link) = None) :
  (forall link,
     chomp (section_number_of link) = None ->
     (match_section_number (section_number_of link) = true
      <-> strict_section_number (section_number_of link)))
  /\ (~ strict_section_number (section_number_of section_link) ->
      section_lines div = [])
  /\ (strict_section_number (section_number_of section_link) ->
      section_lines div
      = [fstr [nl; section_number_of section_link; "."]]
        ++ match section_texts_of (find_all (named "p") div) with
           | [] => []
           | _ :: _ =>
               [fstr [" ";
                      strip_section_number
                        (section_number_of section_link)
                        (join " " (section_texts_of
                                     (find_all (named "p") div)))]]
           end
        ++ match last_of (citations_of (find_all (named "p") div)) with
           | Some citation => [fstr [nl; citation]]
           | None => []
           end)
  /\ (strict_section_number (section_number_of section_link) ->
      forall rest,
        strip_section_number
          (section_number_of section_link)
          (section_number_of section_link ++ String "." (String " " rest))
        = lstrip rest).
Proof.
  split; [intros link; apply match_section_number_strict |].
  split; [| split].
  - intros Hno. unfold section_lines.
    rewrite no_header, has_h6, has_link.
    destruct (match_section_number (section_number_of section_link)) eqn:E;
      [| reflexivity].
    apply (match_section_number_strict _ no_line_feed) in E. contradiction.
  - intros Hstrict.
    apply (match_section_number_strict _ no_line_feed) in Hstrict.
    unfold section_lines.
    rewrite no_header, has_h6, has_link, Hstrict, classify_fold.
    cbn [fst snd]. rewrite app_nil_l.
    destruct (last_of _); reflexivity.
  - intros Hstrict rest. unfold strip_section_number.
    rewrite (number_matches_itself _ false _ (strict_is_accepted _ Hstrict)).
    reflexivity.
Qed.

Lemma flat_section_witness :
  strict_section_number "1011.5"
  /\ section_lines
       (Samples.law_section "1011.5." "1011.5. The board shall act."
                            "(Added by Stats. 1980, Ch. 933.)")
     = [fstr [nl; "1011.5."]; " The board shall act.";
        fstr [nl; "(Added by Stats. 1980, Ch. 933.)"]]
  /\ WaterCode.parse_legal_code_html
       (Samples.law_page
          [Samples.law_section "1011.5." "1011.5. The board shall act."
                               "(Added by Stats. 1980, Ch. 933.)"])
     = fstr [nl; "1011.5."; nl; " The board shall act."; nl; nl;
             "(Added by Stats. 1980, Ch. 933.)"].
Proof.
  assert (Hs : strict_section_number "1011.5").
  { exists "1011", ["5"]. repeat split; try discriminate.
    constructor; [| constructor]. split; [reflexivity | discriminate]. }
  split; [exact Hs |]. split; [| reflexivity].
  exact (proj1 (proj2 (proj2
           (flat_section
              (Samples.law_section "1011.5." "1011.5. The board shall act."
                                   "(Added by Stats. 1980, Ch. 933.)")
              (Tag "h6" None [] [Tag "a" None [("href", "#")]
                                     [Text "1011.5."]])
              (Tag "a" None [("href", "#")] [Text "1011.5."])
              eq_refl eq_refl eq_refl eq_refl))) Hs).
Defined.

End FlatSchema.

(* ===================================================================== *)
(** * File names *)
(* ===================================================================== *)

Module Names.
Import PyStr Bs4 Env Props.

Lemma append_assoc (a b c : string) : ((a ++ b) ++ c)%string = (a ++ b ++ c)%string.
Proof. induction a as [| x a IH]; cbn; [reflexivity | now rewrite IH]. Qed.

Lemma all_chars_app p a b :
  all_chars p (a ++ b) = all_chars p a && all_chars p b.
Proof.
  induction a as [| c a IH]; cbn; [reflexivity |].
  now rewrite IH, andb_assoc.
Qed.

Lemma all_chars_weaken (p q : ascii -> bool) s :
  (forall c, p c = true -> q c = true) ->
  all_chars p s = true -> all_chars q s = true.
Proof.
  intros Hpq. induction s as [| c r IH]; cbn; [reflexivity |].
  intros H. apply andb_prop in H. destruct H as [Hc Hr].
  now rewrite (Hpq c Hc), IH.
Qed.

Lemma all_chars_lstrip p s :
  all_chars p s = true -> all_chars p (lstrip s) = true.
Proof.
  induction s as [| c r IH]; cbn; [reflexivity |].
  intros H. destruct (isspace c); [| exact H].
  apply andb_prop in H. now apply IH.
Qed.

Lemma all_chars_rstrip p s :
  all_chars p s = true -> all_chars p (rstrip s) = true.
Proof.
  induction s as [| c r IH]; cbn; [reflexivity |].
  intros H. apply andb_prop in H. destruct H as [Hc Hr].
  specialize (IH Hr).
  destruct (rstrip r) as [| c' r'].
  - destruct (isspace c); cbn; [reflexivity | now rewrite Hc].
  - cbn in *. now rewrite Hc, IH.
Qed.

Lemma all_chars_substring p s :
  forall m n, all_chars p s = true ->
              all_chars p (String.substring m n s) = true.
Proof.
  induction s as [| c r IH]; intros m n H.
  - destruct m, n; reflexivity.
  - cbn in H. apply andb_prop in H. destruct H as [Hc Hr].
    destruct m as [| m]; destruct n as [| n]; cbn; try reflexivity.
    + now rewrite Hc, IH.
    + now apply IH.
    + now apply IH.
Qed.

Lemma substring_length_le s :
  forall n, String.length (String.substring 0 n s) <= n.
Proof.
  induction s as [| c r IH]; intros [| n]; cbn; try lia.
  specialize (IH n). lia.
Qed.

(** Deleting the characters of a class leaves none of them. *)
Lemma sub_class_deletes cls s :
  all_chars (fun c => negb (cls c)) (sub_class cls EmptyString s) = true.
Proof.
  induction s as [| c r IH]; cbn; [reflexivity |].
  destruct (cls c) eqn:E; cbn; [exact IH | now rewrite E, IH].
Qed.

(** Replacing them by an underscore leaves none of them either, as the
    underscore is in neither class. *)
Lemma sub_class_replaces cls s :
  cls "_"%char = false ->
  all_chars (fun c => negb (cls c)) (sub_class cls "_" s) = true.
Proof.
  intros Hu. induction s as [| c r IH]; cbn; [reflexivity |].
  destruct (cls c) eqn:E; cbn.
  - now rewrite Hu, IH.
  - now rewrite E, IH.
Qed.

(** [sub_spaces] leaves no whitespace and brings in underscores only. *)
Lemma sub_spaces_plain (q : ascii -> bool) s :
  q "_"%char = true ->
  all_chars q s = true ->
  all_chars (fun c => q c && negb (isspace c)) (sub_spaces s) = true.
Proof.
  intros Hu. induction s as [| c r IH]; [reflexivity |].
  intros H. cbn [all_chars] in H.
  apply andb_prop in H. destruct H as [Hc Hr]. specialize (IH Hr).
  cbn [sub_spaces]. destruct (isspace c) eqn:Ec.
  - destruct r as [| c' r']; [cbn; now rewrite Hu |].
    destruct (isspace c') eqn:Ec'; [exact IH |].
    cbn [all_chars]. rewrite Hu. cbn. exact IH.
  - cbn [all_chars]. rewrite Hc, Ec. cbn. exact IH.
Qed.

(** [create_safe_filename] of the regulations scraper (lines 256-264):
    whatever the title, the name has at most 100 characters, none of
    them whitespace or one of the characters removed (the section sign
    and the nine characters of the class of line 259). *)
Theorem create_safe_filename_is_safe (title : string) :
  String.length (CCR.create_safe_filename title) <= 100
  /\ all_chars plain_char (CCR.create_safe_filename title) = true.
Proof.
  unfold CCR.create_safe_filename.
  set (clean := sub_spaces (strip (sub_class CCR.filename_class
                                             EmptyString title))).
  assert (Hplain : all_chars plain_char clean = true).
  { unfold clean, plain_char.
    apply (sub_spaces_plain (fun c => negb (CCR.filename_class c)));
      [reflexivity |].
    unfold strip. apply all_chars_lstrip, all_chars_rstrip.
    apply sub_class_deletes. }
  destruct (Nat.ltb 100 (String.length clean)) eqn:E.
  - split; [apply substring_length_le |].
    unfold take. now apply all_chars_substring.
  - apply Nat.ltb_ge in E. split; assumption.
Qed.

Lemma contains_slash_false s :
  contains "/" s = false -> all_chars no_slash s = true.
Proof.
  induction s as [| c r IH]; [reflexivity |].
  cbn [contains all_chars].
  intros H. apply orb_false_elim in H. destruct H as [Hp Hr].
  rewrite (IH Hr), andb_true_r.
  unfold no_slash. destruct (Ascii.eqb c "/") eqn:E; [| reflexivity].
  apply Ascii.eqb_eq in E. subst c.
  destruct r; vm_compute in Hp; discriminate.
Qed.

Lemma last_segment_no_slash s : all_chars no_slash (last_segment s) = true.
Proof.
  induction s as [| c r IH]; [reflexivity |].
  cbn [last_segment].
  destruct (contains "/" r) eqn:E; [exact IH |].
  apply contains_slash_false in E.
  destruct (Ascii.eqb c "/") eqn:Ec; [exact E |].
  cbn [all_chars]. rewrite E, andb_true_r. unfold no_slash. now rewrite Ec.
Qed.

(** [download_image] (lines 95-124): a download that succeeds writes one
    file, the body of the response, and no other; its name holds no
    slash, so the file lies in [images_dir] itself. *)
Theorem download_image_writes_in_images_dir
        (w : World) (self : CCR.CaliforniaRegulationsScraper)
        (img_url section_title local_filename : string) (st st' : CCR.sys)
        (downloaded :
           CCR.download_image w self img_url section_title st
           = (Some local_filename, st')) :
  all_chars no_slash local_filename = true
  /\ exists body,
      http_get w img_url = Some body
      /\ files st'
         = files st
           ++ [(path_join (CCR.images_dir self) local_filename, Bytes body)].
Proof.
  unfold CCR.download_image in downloaded.
  destruct (urlparse w img_url) as [parsed |]; [| discriminate].
  destruct (http_get w img_url) as [body |]; [| discriminate].
  match type of downloaded with
  | (if ?b then _ else _) = _ => destruct b; [| discriminate]
  end.
  injection downloaded as <- <-. split.
  - cbn [fstr String.concat]. rewrite all_chars_app. apply andb_true_intro.
    split.
    + apply (all_chars_weaken
               (fun c => negb (CCR.filename_class c || Ascii.eqb c ".")
                         && negb (isspace c))).
      * intros c H. apply andb_prop in H. destruct H as [H _].
        apply negb_true_iff, orb_false_elim in H. destruct H as [H _].
        unfold no_slash.
        destruct (Ascii.eqb c "/") eqn:E; [| reflexivity].
        apply Ascii.eqb_eq in E. subst c. discriminate H.
      * apply (sub_spaces_plain
                 (fun c => negb (CCR.filename_class c || Ascii.eqb c ".")));
          [reflexivity |].
        apply (sub_class_replaces
                 (fun c => CCR.filename_class c || Ascii.eqb c ".")).
        reflexivity.
    + change (all_chars no_slash
                (String "_"
                   (if negb (truthy (last_segment (url_path parsed)))
                       || negb (contains "."
                                         (last_segment (url_path parsed)))
                    then "formula.png"
                    else last_segment (url_path parsed))) = true).
      cbn [all_chars]. apply andb_true_intro. split; [reflexivity |].
      destruct (negb (truthy (last_segment (url_path parsed)))
                || negb (contains "." (last_segment (url_path parsed))));
        [reflexivity | apply last_segment_no_slash].
  - exists body. split; reflexivity.
Qed.

Lemma download_image_writes_in_images_dir_witness :
  CCR.download_image (Samples.world [] [] []) Samples.scraper
                     "https://govt.westlaw.com/i/x.png" "966. Water/loss"
                     start
  = (Some "966__Water_loss_x.png",
     {| requests := ["https://govt.westlaw.com/i/x.png"];
        files := [("ca_regs_chapter_3_5/images/966__Water_loss_x.png",
                   Bytes "https://govt.westlaw.com/i/x.png")] |})
  /\ all_chars no_slash "966__Water_loss_x.png" = true.
Proof.
  split; [reflexivity |].
  exact (proj1 (download_image_writes_in_images_dir
                  (Samples.world [] [] []) Samples.scraper
                  "https://govt.westlaw.com/i/x.png" "966. Water/loss"
                  "966__Water_loss_x.png" start _ eq_refl)).
Defined.

Lemma append_empty_r (a : string) : (a ++ EmptyString)%string = a.
Proof. induction a as [| x a IH]; cbn; [reflexivity | now rewrite IH]. Qed.

Lemma fstr_cons x l : fstr (x :: l) = (x ++ fstr l)%string.
Proof.
  unfold fstr. destruct l; cbn; [now rewrite append_empty_r | reflexivity].
Qed.

Lemma fstr_app l1 l2 : fstr (l1 ++ l2) = (fstr l1 ++ fstr l2)%string.
Proof.
  induction l1 as [| x l1 IH]; [reflexivity |].
  rewrite <- app_comm_cons. now rewrite !fstr_cons, IH, append_assoc.
Qed.

Lemma fstr_stem pieces clean :
  fstr (pieces ++ [clean; ".txt"]) = fstr [fstr pieces; clean; ".txt"].
Proof. now rewrite fstr_app, (fstr_cons (fstr pieces)). Qed.

(** A character class leaves alone a text that has none of its
    characters, and so do the replacement of whitespace and the cut. *)
Lemma sub_class_fixed cls repl s :
  all_chars (fun c => negb (cls c)) s = true -> sub_class cls repl s = s.
Proof.
  induction s as [| c r IH]; cbn; [reflexivity |].
  intros H. apply andb_prop in H. destruct H as [Hc Hr].
  apply negb_true_iff in Hc. now rewrite Hc, IH.
Qed.

Lemma sub_spaces_fixed s :
  all_chars (fun c => negb (isspace c)) s = true -> sub_spaces s = s.
Proof.
  induction s as [| c r IH]; cbn; [reflexivity |].
  intros H. apply andb_prop in H. destruct H as [Hc Hr].
  apply negb_true_iff in Hc. now rewrite Hc, IH.
Qed.

Lemma take_fixed s :
  forall n, String.length s <= n -> take n s = s.
Proof.
  unfold take. induction s as [| c r IH]; intros [| n] H; cbn in *;
    try reflexivity; try lia.
  rewrite IH; [reflexivity | lia].
Qed.

(** [create_filename] of the statute scraper (lines 332-353): the name
    is a stem, made of the code and the numbers, followed by the
    cleaned title and [.txt].  The cleaned title has at most 50
    characters, none of them whitespace or one of the nine characters
    of the class of line 342; it is the title itself when the title has
    at most 50 characters and none of those. *)
Theorem create_filename_title_is_safe
        (code division part chapter article title : string) :
  (exists stem,
     WaterCode.create_filename code division part chapter article title
     = fstr [stem; cleaned_title title; ".txt"])
  /\ String.length (cleaned_title title) <= 50
  /\ all_chars plain_title_char (cleaned_title title) = true
  /\ (all_chars plain_title_char title = true ->
      String.length title <= 50 ->
      cleaned_title title = title).
Proof.
  split; [| split; [| split]].
  - unfold WaterCode.create_filename. cbv zeta.
    fold (cleaned_title title).
    set (part' := if truthy part then replace_char "." "_" part
                  else "unknown").
    destruct (truthy (replace_char "." "_" article)).
    + exists (fstr [code; "_div"; replace_char "." "_" division; "_part";
                    part'; "_ch"; replace_char "." "_" chapter; "_art";
                    replace_char "." "_" article; "_"]).
      exact (fstr_stem [code; "_div"; replace_char "." "_" division;
                        "_part"; part'; "_ch";
                        replace_char "." "_" chapter; "_art";
                        replace_char "." "_" article; "_"]
                       (cleaned_title title)).
    + destruct (truthy (replace_char "." "_" chapter)).
      * exists (fstr [code; "_div"; replace_char "." "_" division; "_part";
                      part'; "_ch"; replace_char "." "_" chapter; "_"]).
        exact (fstr_stem [code; "_div"; replace_char "." "_" division;
                          "_part"; part'; "_ch";
                          replace_char "." "_" chapter; "_"]
                         (cleaned_title title)).
      * exists (fstr [code; "_div"; replace_char "." "_" division; "_part";
                      part'; "_"]).
        exact (fstr_stem [code; "_div"; replace_char "." "_" division;
                          "_part"; part'; "_"] (cleaned_title title)).
  - apply substring_length_le.
  - unfold cleaned_title, take. apply all_chars_substring.
    unfold plain_title_char.
    apply (sub_spaces_plain (fun c => negb (WaterCode.title_class c)));
      [reflexivity |].
    now apply sub_class_replaces.
  - intros Hplain Hlen. unfold cleaned_title.
    rewrite sub_class_fixed, sub_spaces_fixed, take_fixed; auto.
    + apply (all_chars_weaken plain_title_char); [| exact Hplain].
      intros c H. unfold plain_title_char in H.
      apply andb_prop in H. tauto.
    + apply (all_chars_weaken plain_title_char); [| exact Hplain].
      intros c H. unfold plain_title_char in H.
      apply andb_prop in H. tauto.
Qed.

End Names.

(* ===================================================================== *)
(** * The regulations scraper: more on the extractor and the blocks *)
(* ===================================================================== *)

Module ExtractorFacts.
Import PyStr Bs4 Env CCR Props Bs4Facts Notions.Regulations.

Section Extractor.
Variable w : World.
Variable self : CaliforniaRegulationsScraper.
Variable section_title : string.

Lemma at_node_quiet pc nm c a cs st :
  quiet w pc (Tag nm c a cs) = true ->
  at_node w self section_title pc nm (Tag nm c a cs) st = (Ok None, st).
Proof.
  cbn [quiet]. intros H. apply andb_prop in H. destruct H as [H _].
  unfold at_node.
  destruct (String.eqb nm "img"); [| reflexivity].
  rewrite Walk.process_image_writes.
  destruct (truthy (get_default "src" "" (Tag nm c a cs)));
    [| reflexivity].
  cbn [negb orb] in H.
  destruct (image_url w _); [| discriminate].
  cbn [andb] in H. apply negb_true_iff in H. now rewrite H.
Qed.

Lemma quiet_list pc l :
  Forall (fun n => forall pc st,
            quiet w pc n = true ->
            process_images_in w self section_title pc n st
            = (Ok (n, []), st)) l ->
  forall st,
    forallb (quiet w pc) l = true ->
    process_images_list w self section_title pc l st = (Ok (l, []), st).
Proof.
  induction 1 as [| x r Hx _ IHr]; intros st Hq; [reflexivity |].
  cbn in Hq. apply andb_prop in Hq. destruct Hq as [Hqx Hqr].
  rewrite Walk.walk_cons, (Hx pc st Hqx). now rewrite (IHr st Hqr).
Qed.

Lemma quiet_node n :
  forall pc st,
    quiet w pc n = true ->
    process_images_in w self section_title pc n st = (Ok (n, []), st).
Proof.
  induction n as [s | nm c a cs IH] using node_induction; intros pc st Hq.
  - reflexivity.
  - rewrite Walk.process_images_in_tag.
    rewrite (at_node_quiet pc nm c a cs st Hq).
    cbn [quiet] in Hq. apply andb_prop in Hq. destruct Hq as [_ Hcs].
    now rewrite (quiet_list (get_class (Tag nm c a cs)) cs IH st Hcs).
Qed.

End Extractor.

(** [process_mathematical_images] (lines 126-163): the files written by
    a call that returns are the files of the records it returns, one
    for each record and in the same order, all of them in
    [images_dir]; a download that is not recorded leaves no file. *)
Theorem extractor_writes_one_file_per_record
        (w : World) (self : CaliforniaRegulationsScraper)
        (soup : node) (section_title : string) (st : sys)
        (soup' : node) (images : list image_record) (st' : sys)
        (returned :
           process_mathematical_images w self soup section_title st
           = (Ok (soup', images), st')) :
  map fst (files st')
  = map fst (files st)
    ++ map (fun record => path_join (images_dir self) (local_file record))
           images.
Proof.
  rewrite (EmptySections.extractor_files w self section_title _ _ _ _ _
             returned).
  rewrite map_app, map_map. reflexivity.
Qed.

Lemma extractor_writes_one_file_per_record_witness :
  process_mathematical_images
    (Samples.world [] ["https://govt.westlaw.com/i/y.png"] [])
    Samples.scraper
    (document [Samples.figure [Samples.img "/i/x.png" "Plot";
                               Samples.img "/i/y.png" "Chart"]])
    "T" start
  = (Ok (document
           [Samples.figure
              [Text (fstr [nl; "[IMAGE: T_x.png - Plot]"; nl]);
               Samples.img "/i/y.png" "Chart"]],
         [ {| original_url := "https://govt.westlaw.com/i/x.png";
              local_file := "T_x.png";
              alt_text := "Plot";
              description := "Mathematical formula from T" |} ]),
     {| requests := ["https://govt.westlaw.com/i/x.png";
                     "https://govt.westlaw.com/i/y.png"];
        files := [("ca_regs_chapter_3_5/images/T_x.png",
                   Bytes "https://govt.westlaw.com/i/x.png")] |})
  /\ map fst [("ca_regs_chapter_3_5/images/T_x.png",
               @Bytes json "https://govt.westlaw.com/i/x.png")]
     = ["ca_regs_chapter_3_5/images/T_x.png"].
Proof.
  split; [reflexivity |].
  exact (extractor_writes_one_file_per_record
           (Samples.world [] ["https://govt.westlaw.com/i/y.png"] [])
           Samples.scraper
           (document [Samples.figure [Samples.img "/i/x.png" "Plot";
                                      Samples.img "/i/y.png" "Chart"]])
           "T" start _ _ _ eq_refl).
Defined.

(** [process_mathematical_images] (lines 126-163): when no image of the
    document would be downloaded (each lacks a source, or has one that
    [urljoin] accepts and fails the test of lines 147-149), the call
    returns no record, leaves the document as it is, sends no request
    and writes no file. *)
Theorem extractor_is_silent
        (w : World) (self : CaliforniaRegulationsScraper)
        (soup : node) (section_title : string) (st : sys)
        (nothing_qualifies :
           forallb (quiet w (get_class soup)) (children_of soup) = true) :
  process_mathematical_images w self soup section_title st
  = (Ok (soup, []), st).
Proof.
  destruct soup as [s | nm c a cs]; [reflexivity |].
  rewrite Walk.process_mathematical_images_tag.
  cbn [children_of] in nothing_qualifies.
  assert (HF : Forall (fun n => forall pc st,
                quiet w pc n = true ->
                process_images_in w self section_title pc n st
                = (Ok (n, []), st)) cs).
  { rewrite Forall_forall. intros x _. apply quiet_node. }
  now rewrite (quiet_list w self section_title (get_class (Tag nm c a cs))
                 cs HF st nothing_qualifies).
Qed.

Lemma extractor_is_silent_witness :
  forallb (quiet (Samples.world [] [] []) [])
          [Tag "p" None [] [Samples.img "/logo.png" "Logo";
                            Samples.img "" "formula"]] = true
  /\ process_mathematical_images
       (Samples.world [] [] []) Samples.scraper
       (document [Tag "p" None [] [Samples.img "/logo.png" "Logo";
                                   Samples.img "" "formula"]])
       "T" start
     = (Ok (document [Tag "p" None [] [Samples.img "/logo.png" "Logo";
                                       Samples.img "" "formula"]], []),
        start).
Proof.
  split; [reflexivity |].
  exact (extractor_is_silent (Samples.world [] [] []) Samples.scraper
           (document [Tag "p" None [] [Samples.img "/logo.png" "Logo";
                                       Samples.img "" "formula"]])
           "T" start eq_refl).
Defined.

(** [convert_subscripts_to_text] (lines 81-93): once it has run, no
    [sub] and no [sup] element is left below the element, however they
    were nested. *)
Theorem no_run_survives (element : node) :
  forallb (free_of "sub")
          (children_of (convert_subscripts_to_text element)) = true
  /\ forallb (free_of "sup")
             (children_of (convert_subscripts_to_text element)) = true.
Proof.
  unfold convert_subscripts_to_text. split.
  - apply Runs.children_stay_free, Runs.children_free_after.
  - apply Runs.children_free_after.
Qed.

(** [process_section_block] (lines 228-241): the call appends to the
    lines and changes none of those it was given; apart from empty
    lines, what it appends is the text of the paragraphs of the block
    that have text, each once and in document order. *)
Theorem section_block_keeps_texts (block : node)
        (content_lines : list string) :
  exists added,
    process_section_block block content_lines = content_lines ++ added
    /\ filter truthy added
       = filter truthy
           (map get_text_strip
                (find_all (fun n => named "div" n
                                    && has_class "co_paragraph" n) block)).
Proof.
  exists (process_section_block block []). split.
  - apply Heading.process_section_block_appends.
  - unfold process_section_block.
    rewrite (Heading.fold_left_appends _
               (fun para : node =>
                  if truthy (get_text_strip para)
                  then (if starts_with_letter_item (get_text_strip para)
                        then [""] else []) ++ [get_text_strip para]
                  else [])).
    + rewrite app_nil_l.
      induction (find_all (fun n => named "div" n
                                    && has_class "co_paragraph" n) block)
        as [| para rest IH]; [reflexivity |].
      cbn [flat_map map]. rewrite <- app_assoc, filter_app, IH.
      cbn [filter].
      destruct (truthy (get_text_strip para)) eqn:E; [| reflexivity].
      destruct (starts_with_letter_item (get_text_strip para));
        cbn; now rewrite E.
    + intros acc x. cbn zeta.
      destruct (truthy (get_text_strip x)); [| now rewrite app_nil_r].
      destruct (starts_with_letter_item (get_text_strip x)).
      * now rewrite <- app_assoc.
      * reflexivity.
Qed.

End ExtractorFacts.

(* ===================================================================== *)
(** * The regulations scraper: more on a run *)
(* ===================================================================== *)

Module RegulationsRunFacts.
Import PyStr Bs4 Env CCR Props Notions.Regulations.

Section Writable.
Variable w : World.
Variable self : CaliforniaRegulationsScraper.
Hypothesis every_path_writable : forall path, writable w path = true.
Hypothesis every_address_joins :
  forall base ref, urljoin w base ref <> None.

Lemma listed_links_ends soup : exists links, listed_links w soup = Ok links.
Proof.
  unfold listed_links. destruct (find _ soup) as [box |]; [| eauto].
  apply LoopFacts.collect_ends. intros li. unfold link_of.
  destruct (find (named "a") li) as [link |]; [| discriminate].
  destruct (get "href" link) as [href |]; [| discriminate].
  destruct (truthy href); [| discriminate].
  destruct (urljoin w base_url href) eqn:E; [discriminate |].
  now apply every_address_joins in E.
Qed.

Lemma image_url_ends src : exists img_url, image_url w src = Some img_url.
Proof.
  unfold image_url.
  destruct (startswith "/" src).
  - destruct (urljoin w _ src) eqn:E; [eauto |].
    now apply every_address_joins in E.
  - destruct (startswith "http" src); [eauto |].
    destruct (urljoin w _ src) eqn:E; [eauto |].
    now apply every_address_joins in E.
Qed.

Lemma at_node_ends title pc nm n st :
  exists found st1, at_node w self title pc nm n st = (Ok found, st1).
Proof.
  unfold at_node. destruct (String.eqb nm "img"); [| eauto].
  rewrite Walk.process_image_writes.
  destruct (truthy _); [| eauto].
  destruct (image_url_ends (get_default "src" "" n)) as [img_url ->].
  destruct (looks_mathematical pc _); eauto.
Qed.

Lemma walk_ends_list title pc l :
  Forall (fun n => forall pc st,
            exists result st',
              process_images_in w self title pc n st = (Ok result, st')) l ->
  forall st,
  exists result st',
    process_images_list w self title pc l st = (Ok result, st').
Proof.
  induction 1 as [| x r Hx _ IHr]; intros st; [cbn; eauto |].
  rewrite Walk.walk_cons.
  destruct (Hx pc st) as [[x' r1] [st1 ->]].
  destruct (IHr st1) as [[r' r2] [st2 ->]]. eauto.
Qed.

Lemma walk_ends_node title n :
  forall pc st,
  exists result st',
    process_images_in w self title pc n st = (Ok result, st').
Proof.
  induction n as [s | nm c a cs IH] using Bs4Facts.node_induction; intros pc st.
  - cbn. eauto.
  - rewrite Walk.process_images_in_tag.
    destruct (at_node_ends title pc nm (Tag nm c a cs) st)
      as [found [st1 ->]].
    destruct (walk_ends_list title (get_class (Tag nm c a cs)) cs IH st1)
      as [[cs' below] [st2 ->]].
    destruct found as [[record text] |]; eauto.
Qed.

Lemma extract_section_content_ends url title st :
  exists result st',
    extract_section_content w self url title st = (Ok result, st').
Proof.
  unfold extract_section_content, get_page_content.
  destruct (http_get w url) as [body |]; cbn [option_map]; [| eauto].
  destruct (html_parser w body) as [s | nm c a cs]; [cbn; eauto |].
  rewrite Walk.process_mathematical_images_tag.
  assert (HF : Forall (fun n => forall pc st,
                exists result st',
                  process_images_in w self title pc n st = (Ok result, st'))
                      cs).
  { rewrite Forall_forall. intros x _. apply walk_ends_node. }
  destruct (walk_ends_list title (get_class (Tag nm c a cs)) cs HF
              (sent url st)) as [[cs' images] [st1 ->]].
  eauto.
Qed.

Lemma scrape_sections_ends i article sections :
  forall j logged t st,
  exists result st',
    scrape_sections w self i article j sections logged t st
    = (Ok result, st').
Proof.
  induction sections as [| s rest IH]; intros j logged t st.
  - cbn. eauto.
  - cbn [scrape_sections].
    destruct (extract_section_content_ends (section_url s)
                (section_title s) st) as [[content images] [st1 ->]].
    destruct (truthy content); [| apply IH].
    rewrite every_path_writable. apply IH.
Qed.

Lemma scrape_articles_ends articles :
  forall i logged t st,
  exists result st',
    scrape_articles w self i articles logged t st = (Ok result, st').
Proof.
  induction articles as [| a rest IH]; intros i logged t st.
  - cbn. eauto.
  - cbn [scrape_articles].
    unfold extract_sections_from_article, get_page_content.
    destruct (http_get w (article_url a)) as [body |]; cbn [option_map].
    + destruct (listed_links_ends (html_parser w body)) as [links ->].
      match goal with
      | |- context [scrape_sections w self i a 1 ?ss [] t ?s0] =>
          destruct (scrape_sections_ends i a ss 1 [] t s0)
            as [[article_sections t1] [st2 ->]]
      end.
      apply IH.
    + destruct (scrape_sections_ends i a [] 1 [] t (sent (article_url a) st))
        as [[article_sections t1] [st2 H]].
      rewrite H. apply IH.
Qed.

End Writable.



(** A source that [urljoin] rejects ends the run: the exception leaves
    [process_mathematical_images], [extract_section_content] and
    [scrape_chapter_3_5], none of which catches it, and the log is not
    written. *)
Lemma malformed_source_ends_the_run :
  scrape_chapter_3_5
    (Samples.world
       [("chapter", Samples.white_box [("/art1", "Article 1. Definitions")]);
        ("https://shared-govt.westlaw.com/art1",
         Samples.white_box [("/s1", "965. Definitions")]);
        ("https://shared-govt.westlaw.com/s1",
         document [Samples.co_document [Samples.img "//[" "Logo"]])]
       [] [])
    Samples.scraper "chapter" start
  = (Raise,
     {| requests := ["chapter"; "https://shared-govt.westlaw.com/art1";
                     "https://shared-govt.westlaw.com/s1"];
        files := [] |}).
Proof. vm_compute. reflexivity. Qed.

(** The decimal writing of a number is made of digits, and two numbers
    with the same writing are equal. *)
Lemma digits_of_uint d : all_digits (NilEmpty.string_of_uint d) = true.
Proof. induction d; cbn; [reflexivity | ..]; exact IHd. Qed.

Lemma to_uint_not_nil n : Nat.to_uint n <> Decimal.Nil.
Proof.
  rewrite <- (DecimalNat.Unsigned.of_to n) at 1.
  rewrite DecimalNat.Unsigned.to_of. apply DecimalFacts.unorm_nonnil.
Qed.

Lemma of_nat_empty n :
  of_nat n = NilEmpty.string_of_uint (Nat.to_uint n).
Proof.
  unfold of_nat, NilZero.string_of_uint.
  pose proof (to_uint_not_nil n) as H.
  destruct (Nat.to_uint n); [contradiction | reflexivity ..].
Qed.

Lemma of_nat_digits n : all_digits (of_nat n) = true.
Proof. rewrite of_nat_empty. apply digits_of_uint. Qed.

Lemma of_nat_inj n m : of_nat n = of_nat m -> n = m.
Proof.
  rewrite !of_nat_empty. intros H.
  apply DecimalNat.Unsigned.to_uint_inj.
  apply (f_equal NilEmpty.uint_of_string) in H.
  rewrite !NilEmpty.usu in H. now injection H.
Qed.

(** Digits followed by an underscore can be read in one way only. *)
Lemma digits_then_underscore d1 :
  forall d2 r1 r2,
    all_digits d1 = true -> all_digits d2 = true ->
    (d1 ++ String "_" r1)%string = (d2 ++ String "_" r2)%string ->
    d1 = d2 /\ r1 = r2.
Proof.
  induction d1 as [| c1 d1 IH]; intros [| c2 d2] r1 r2 H1 H2 E; cbn in *.
  - injection E as ->. auto.
  - injection E as <- _. discriminate.
  - injection E as -> _. discriminate.
  - injection E as -> E.
    apply andb_prop in H1. apply andb_prop in H2.
    destruct H1 as [_ H1]. destruct H2 as [_ H2].
    destruct (IH d2 r1 r2 H1 H2 E) as [-> ->]. auto.
Qed.

Lemma section_file_name_inj i j safe i' j' safe' :
  section_file_name i j safe = section_file_name i' j' safe' ->
  i = i' /\ j = j'.
Proof.
  unfold section_file_name. intros H.
  change (("article_"
           ++ (of_nat i
               ++ String "_"
                    ("section_"
                     ++ (of_nat j ++ String "_" (safe ++ ".txt")))))%string
          = ("article_"
             ++ (of_nat i'
                 ++ String "_"
                      ("section_"
                       ++ (of_nat j'
                           ++ String "_" (safe' ++ ".txt")))))%string)
    in H.
  cbn [append] in H. injection H as H.
  apply digits_then_underscore in H; try apply of_nat_digits.
  destruct H as [Hi H]. injection H as H.
  apply digits_then_underscore in H; try apply of_nat_digits.
  destruct H as [Hj _].
  split; now apply of_nat_inj.
Qed.

Section Names.
Variable w : World.
Variable self : CaliforniaRegulationsScraper.

Lemma entries_names i sections :
  forall j0 name,
    In name (map ls_filename (entries w self i j0 sections)) ->
    exists j safe, j0 <= j /\ name = section_file_name i j safe.
Proof.
  induction sections as [| s rest IH]; intros j0 name Hin; [contradiction |].
  cbn [entries] in Hin. rewrite map_app in Hin.
  apply in_app_or in Hin. destruct Hin as [Hin | Hin].
  - destruct (has_content w self s); [| contradiction].
    destruct Hin as [<- | []].
    exists j0, (create_safe_filename (section_title s)). split; [lia |].
    reflexivity.
  - destruct (IH (S j0) name Hin) as [j [safe [Hle ->]]].
    exists j, safe. split; [lia | reflexivity].
Qed.

Lemma entries_nodup i sections :
  forall j0, NoDup (map ls_filename (entries w self i j0 sections)).
Proof.
  induction sections as [| s rest IH]; intros j0; [constructor |].
  cbn [entries]. rewrite map_app. apply NoDup_app.
  - destruct (has_content w self s); cbn.
    + constructor; [intros [] | constructor].
    + constructor.
  - apply IH.
  - intros name H1 H2.
    destruct (has_content w self s); [| contradiction].
    destruct H1 as [<- | []].
    apply entries_names in H2. destruct H2 as [j [safe [Hle E]]].
    change (ls_filename (entry w self i j0 s))
      with (section_file_name i j0 (create_safe_filename (section_title s)))
      in E.
    apply section_file_name_inj in E. lia.
Qed.

Lemma article_entries_names articles :
  forall i0 name,
    In name (map ls_filename
                 (concat (map la_sections
                              (article_entries w self i0 articles)))) ->
    exists i j safe, i0 <= i /\ name = section_file_name i j safe.
Proof.
  induction articles as [| a rest IH]; intros i0 name Hin; [contradiction |].
  cbn [article_entries map concat la_sections] in Hin.
  rewrite map_app in Hin. apply in_app_or in Hin.
  destruct Hin as [Hin | Hin].
  - apply entries_names in Hin. destruct Hin as [j [safe [_ ->]]].
    exists i0, j, safe. split; [lia | reflexivity].
  - destruct (IH (S i0) name Hin) as [i [j [safe [Hle ->]]]].
    exists i, j, safe. split; [lia | reflexivity].
Qed.

Lemma article_entries_nodup articles :
  forall i0,
    NoDup (map ls_filename
               (concat (map la_sections
                            (article_entries w self i0 articles)))).
Proof.
  induction articles as [| a rest IH]; intros i0; [constructor |].
  cbn [article_entries map concat la_sections]. rewrite map_app.
  apply NoDup_app.
  - apply entries_nodup.
  - apply IH.
  - intros name H1 H2.
    apply entries_names in H1. destruct H1 as [j [safe [_ ->]]].
    apply article_entries_names in H2.
    destruct H2 as [i' [j' [safe' [Hle E]]]].
    apply section_file_name_inj in E. lia.
Qed.

End Names.

(** [scrape_chapter_3_5] (lines 283-330): in the log of a run that ends,
    no two sections have the same file name, whatever their titles: the
    numbers of the article and of the section make the names differ, so
    no section file is written over another. *)
Theorem section_file_names_differ
        (w : World) (self : CaliforniaRegulationsScraper)
        (chapter_url : string) (st st' : sys)
        (log : scraping_log) (images : list image_record)
        (run : scrape_chapter_3_5 w self chapter_url st
               = (Ok (log, images), st')) :
  NoDup (map ls_filename (concat (map la_sections (articles log)))).
Proof.
  apply CCRRun.scrape_chapter_records in run.
  destruct run as [discovered [_ [-> _]]]. apply article_entries_nodup.
Qed.

Lemma section_file_names_differ_witness :
  exists log images st',
    scrape_chapter_3_5 (Samples.world Samples.regulations_site [] [])
                       Samples.scraper "chapter" start
    = (Ok (log, images), st')
    /\ NoDup (map ls_filename (concat (map la_sections (articles log)))).
Proof.
  do 3 eexists. split; [vm_compute; reflexivity |].
  eapply (section_file_names_differ
            (Samples.world Samples.regulations_site [] [])
            Samples.scraper "chapter" start).
  vm_compute. reflexivity.
Defined.

End RegulationsRunFacts.

(* ===================================================================== *)
(** * The statute scraper: more on discovery and on a run *)
(* ===================================================================== *)

Module StatuteFacts.
Import PyStr Bs4 Env WaterCode Props Notions.Statutes.

(** [get_division_structure] (lines 41-107): every part discovered has
    a part number read from its address, a title that names a part, the
    code and the division asked for, and no chapter yet; under a filter
    that names parts, its number without trailing dots is one of them. *)
Theorem discovered_parts_are_well_formed
        (w : World) (code division : string)
        (specific_parts : option (list string)) (st : sys)
        (parts : list part_info)
        (listed : fst (get_division_structure w code division
                                              specific_parts st) = Ok parts) :
  Forall (fun p =>
            truthy (p_part p) = true
            /\ contains "PART" (upper (p_title p)) = true
            /\ p_code p = code /\ p_division p = division
            /\ p_chapters p = []
            /\ match specific_parts with
               | Some (x :: l) => In (rstrip_char "." (p_part p)) (x :: l)
               | _ => True
               end) parts.
Proof.
  unfold get_division_structure in listed.
  destruct (http_get w _) as [body |]; [| discriminate].
  destruct (find is_branch _) as [content_div |]; cbn [fst] in listed;
    [| injection listed as <-; constructor].
  rewrite Forall_forall. intros p Hp.
  destruct (LoopFacts.collect_in _ _ _ _ listed Hp)
    as [anchor [found [_ [Hf Hin]]]].
  unfold part_of_anchor in Hf.
  destruct (find (indented "margin-left:20px") anchor);
    [| injection Hf as <-; contradiction].
  destruct (negb (contains "PART" _)) eqn:Etitle;
    [injection Hf as <-; contradiction |].
  destruct (contains "(Reserved)" _);
    [injection Hf as <-; contradiction |].
  destruct (urlparse w _) as [parsed |]; [| discriminate].
  destruct (negb (truthy _)) eqn:Epart;
    [injection Hf as <-; contradiction |].
  destruct (filtered_out _ _) eqn:Efilter;
    [injection Hf as <-; contradiction |].
  destruct (urljoin w _ _) as [url |]; [| discriminate].
  injection Hf as <-. destruct Hin as [<- | []]. cbn.
  apply negb_false_iff in Etitle, Epart.
  repeat split; try assumption.
  destruct specific_parts as [[| x l] |]; try exact I.
  unfold filtered_out in Efilter. apply negb_false_iff in Efilter.
  apply existsb_exists in Efilter. destruct Efilter as [y [Hy E]].
  apply String.eqb_eq in E. now rewrite E.
Qed.

Lemma discovered_parts_are_well_formed_witness :
  fst (get_division_structure (Samples.world Samples.statute_site [] [])
                              "WAT" "6" (Some ["2"]) start)
  = Ok [ {| p_url := Samples.site_url
                       (Samples.leaf "part=2.&chapter=&article=");
            p_title := "PART 2. THE CALIFORNIA WATER PLAN";
            p_part := "2."; p_code := "WAT"; p_division := "6";
            p_has_chapters := false; p_range := "10004-10013";
            p_chapters := [] |} ]
  /\ Forall (fun p => In (rstrip_char "." (p_part p)) ["2"])
            [ {| p_url := Samples.site_url
                            (Samples.leaf "part=2.&chapter=&article=");
                 p_title := "PART 2. THE CALIFORNIA WATER PLAN";
                 p_part := "2."; p_code := "WAT"; p_division := "6";
                 p_has_chapters := false; p_range := "10004-10013";
                 p_chapters := [] |} ].
Proof.
  split; [vm_compute; reflexivity |].
  eapply Forall_impl;
    [| exact (discovered_parts_are_well_formed
                (Samples.world Samples.statute_site [] []) "WAT" "6"
                (Some ["2"]) start _ eq_refl)].
  intros p H. cbn beta in H. tauto.
Defined.

(** [get_chapters_for_part] (lines 109-185): every chapter discovered
    has a chapter number read from its address, a title that names a
    chapter, the code and the division asked for, and no article yet. *)
Theorem discovered_chapters_are_well_formed
        (w : World) (part_url code division part : string) (st : sys)
        (chapters : list chapter_info)
        (listed : fst (get_chapters_for_part w part_url code division part st)
                  = Ok chapters) :
  Forall (fun c =>
            truthy (c_chapter c) = true
            /\ contains "CHAPTER" (upper (c_title c)) = true
            /\ c_code c = code /\ c_division c = division
            /\ c_articles c = []) chapters.
Proof.
  unfold get_chapters_for_part in listed.
  destruct (http_get w _) as [body |]; [| discriminate].
  destruct (find is_branch _) as [content_div |]; cbn [fst] in listed;
    [| injection listed as <-; constructor].
  rewrite Forall_forall. intros c Hc.
  destruct (LoopFacts.collect_in _ _ _ _ listed Hc)
    as [anchor [found [_ [Hf Hin]]]].
  unfold chapter_of_anchor in Hf.
  destruct (find (indented "margin-left:30px") anchor);
    [| injection Hf as <-; contradiction].
  destruct (contains "(Reserved)" _);
    [injection Hf as <-; contradiction |].
  destruct (negb (contains "CHAPTER" _)) eqn:Etitle;
    [injection Hf as <-; contradiction |].
  destruct (urlparse w _) as [parsed |]; [| discriminate].
  destruct (negb (truthy _)) eqn:Enum;
    [injection Hf as <-; contradiction |].
  apply negb_false_iff in Etitle, Enum.
  destruct (contains "codes_displayexpandedbranch.xhtml" _).
  - destruct (urljoin w _ _) as [url |]; [| discriminate].
    injection Hf as <-. destruct Hin as [<- | []]. cbn. auto.
  - destruct (contains "codes_displayText.xhtml" _);
      [| injection Hf as <-; contradiction].
    destruct (urljoin w _ _) as [url |]; [| discriminate].
    injection Hf as <-. destruct Hin as [<- | []]. cbn. auto.
Qed.

Lemma discovered_chapters_are_well_formed_witness :
  fst (get_chapters_for_part
         (Samples.world Samples.statute_site [] [])
         (Samples.site_url (Samples.branch "part=1.&chapter=&article="))
         "WAT" "6" "1." start)
  = Ok Samples.discovered_chapters
  /\ map c_chapter Samples.discovered_chapters = ["1."; "2."]
  /\ Forall (fun c => c_code c = "WAT" /\ c_articles c = [])
            Samples.discovered_chapters.
Proof.
  split; [vm_compute; reflexivity |].
  split; [reflexivity |].
  eapply Forall_impl;
    [| exact (discovered_chapters_are_well_formed
                (Samples.world Samples.statute_site [] [])
                (Samples.site_url
                   (Samples.branch "part=1.&chapter=&article="))
                "WAT" "6" "1." start Samples.discovered_chapters eq_refl)].
  intros c H. cbn beta in H. tauto.
Defined.

Section Fetched.
Variable w : World.
Variable cfg : config.
Hypothesis every_fetch_succeeds : forall url, http_get w url <> None.
Hypothesis every_address_joins :
  forall base ref, urljoin w base ref <> None.
Hypothesis every_address_parses : forall url, urlparse w url <> None.

Lemma part_of_anchor_ends code division specific_parts anchor :
  part_of_anchor w code division specific_parts anchor <> Raise.
Proof.
  unfold part_of_anchor.
  destruct (find _ anchor); [| discriminate].
  destruct (negb _); [discriminate |].
  destruct (contains "(Reserved)" _); [discriminate |].
  destruct (urlparse w _) as [parsed |] eqn:Ep;
    [| now apply every_address_parses in Ep].
  destruct (negb _); [discriminate |].
  destruct (filtered_out _ _); [discriminate |].
  destruct (urljoin w _ _) eqn:Ej; [discriminate |].
  now apply every_address_joins in Ej.
Qed.

Lemma chapter_of_anchor_ends code division anchor :
  chapter_of_anchor w code division anchor <> Raise.
Proof.
  unfold chapter_of_anchor.
  destruct (find _ anchor); [| discriminate].
  destruct (contains "(Reserved)" _); [discriminate |].
  destruct (negb _); [discriminate |].
  destruct (urlparse w _) as [parsed |] eqn:Ep;
    [| now apply every_address_parses in Ep].
  destruct (negb _); [discriminate |].
  destruct (urljoin w _ _) eqn:Ej;
    [| now apply every_address_joins in Ej].
  destruct (contains "codes_displayexpandedbranch.xhtml" _);
    [discriminate |].
  destruct (contains "codes_displayText.xhtml" _); discriminate.
Qed.

Lemma article_of_anchor_ends code division anchor :
  article_of_anchor w code division anchor <> Raise.
Proof.
  unfold article_of_anchor.
  destruct (find _ anchor); [| discriminate].
  destruct (_ && _); [| discriminate].
  destruct (urlparse w _) as [parsed |] eqn:Ep;
    [| now apply every_address_parses in Ep].
  destruct (urljoin w _ _) eqn:Ej; [discriminate |].
  now apply every_address_joins in Ej.
Qed.

Lemma scrape_chapter_ends chapter c st :
  exists result st', scrape_chapter w cfg chapter c st = (Ok result, st').
Proof.
  unfold scrape_chapter. destruct (c_has_articles chapter).
  - unfold get_articles_for_chapter.
    destruct (http_get w (c_url chapter)) as [body |] eqn:E;
      [| now apply every_fetch_succeeds in E].
    destruct (find is_branch _) as [content_div |]; [| eauto].
    destruct (LoopFacts.collect_ends
                (article_of_anchor w (code cfg) (division cfg))
                (find_all is_link content_div)
                (article_of_anchor_ends _ _)) as [[| a rest] ->];
      [eauto |].
    destruct (scrape_articles w cfg (a :: rest) c _); eauto.
  - destruct (try_leaf w _ _ _ _ st); eauto.
Qed.

Lemma scrape_chapters_ends chapters :
  forall c st,
  exists result st', scrape_chapters w cfg chapters c st = (Ok result, st').
Proof.
  induction chapters as [| ch rest IH]; intros c st; [cbn; eauto |].
  cbn [scrape_chapters].
  destruct (scrape_chapter_ends ch c st) as [[ch1 c1] [st1 ->]].
  destruct (IH c1 st1) as [[rest1 c2] [st2 ->]]. eauto.
Qed.

Lemma scrape_part_ends part c st :
  exists result st', scrape_part w cfg part c st = (Ok result, st').
Proof.
  unfold scrape_part. destruct (p_has_chapters part).
  - unfold get_chapters_for_part.
    destruct (http_get w (p_url part)) as [body |] eqn:E;
      [| now apply every_fetch_succeeds in E].
    destruct (find is_branch _) as [content_div |]; [| eauto].
    destruct (LoopFacts.collect_ends
                (chapter_of_anchor w (code cfg) (division cfg))
                (find_all is_link content_div)
                (chapter_of_anchor_ends _ _)) as [[| ch rest] ->];
      [eauto |].
    match goal with
    | |- context [scrape_chapters w cfg ?chs ?c0 ?s] =>
        destruct (scrape_chapters_ends chs c0 s) as [[chapters c1] [st1 ->]]
    end.
    eauto.
  - destruct (try_leaf w _ _ _ _ st); eauto.
Qed.

Lemma scrape_parts_ends parts :
  forall c st,
  exists result st', scrape_parts w cfg parts c st = (Ok result, st').
Proof.
  induction parts as [| p rest IH]; intros c st; [cbn; eauto |].
  cbn [scrape_parts].
  destruct (scrape_part_ends p c st) as [[p1 c1] [st1 ->]].
  destruct (IH c1 st1) as [[rest1 c2] [st2 ->]]. eauto.
Qed.

End Fetched.



(** An address that [urlparse] rejects ends the run: the exception
    leaves [get_division_structure] and [scrape_code_section], neither
    of which catches it, and nothing is written. *)
Lemma malformed_address_ends_the_run :
  scrape_code_section
    (Samples.world
       [(fstr [BASE_URL;
               "/faces/codes_displayexpandedbranch.xhtml?tocCode=WAT";
               "&division=6.&title=&part=&chapter=&article="],
         document
           [Tag "div" None [("id", "expandedbranchcodesid")]
              [Tag "a" None [("href", "//[")]
                 [Tag "div" None [("style", "margin-left:20px")]
                    [Text "PART 1. GENERAL"]]]])]
       [] [])
    Samples.water_division start
  = (Raise,
     {| requests :=
          [fstr [BASE_URL;
                 "/faces/codes_displayexpandedbranch.xhtml?tocCode=WAT";
                 "&division=6.&title=&part=&chapter=&article="]];
        files := [] |}).
Proof. vm_compute. reflexivity. Qed.

Lemma scrape_all_totals w configs :
  forall totals st successful items st',
    fst totals <= snd totals ->
    scrape_all w configs totals st = (Ok (successful, items), st') ->
    successful <= items.
Proof.
  induction configs as [| cfg rest IH];
    intros totals st successful items st' Hle.
  - cbn. intros [= E _]. subst totals. exact Hle.
  - cbn [scrape_all].
    destruct (scrape_code_section w cfg st) as [[[s i] |] st1] eqn:E;
      [| discriminate].
    apply WaterRun.scrape_code_section_records in E.
    destruct E as [discovered [_ [[_ [-> [-> _]]] | [_ [_ [_ H]]]]]];
      apply IH; cbn; lia.
Qed.

(** [main] (lines 516-543): when it ends, the total of the downloads it
    reports is at most the total of the items it reports. *)
Theorem main_totals
        (w : World) (st st' : sys) (successful items : nat)
        (ended : main w st = (Ok (successful, items), st')) :
  successful <= items.
Proof.
  unfold main in ended.
  now apply (scrape_all_totals w CODE_SECTIONS_TO_SCRAPE (0, 0) st
               successful items st').
Qed.

Lemma main_totals_witness :
  main (Samples.world Samples.statute_site [] []) start
  = (Ok (3, 4),
     snd (main (Samples.world Samples.statute_site [] []) start))
  /\ 3 <= 4.
Proof.
  split; [vm_compute; reflexivity |].
  apply (main_totals (Samples.world Samples.statute_site [] []) start
           (snd (main (Samples.world Samples.statute_site [] []) start))).
  vm_compute. reflexivity.
Defined.

(** [get_articles_for_chapter] (lines 187-233): every article
    discovered has a title that names an article and the code and the
    division asked for; its address is the absolute form of a link to a
    text page, as [urljoin] gives it. *)
Theorem discovered_articles_are_well_formed
        (w : World) (chapter_url code division part chapter : string)
        (st : sys) (articles : list article_info)
        (listed : fst (get_articles_for_chapter w chapter_url code division
                                                part chapter st)
                  = Ok articles) :
  Forall (fun a =>
            contains "ARTICLE" (upper (a_title a)) = true
            /\ a_code a = code /\ a_division a = division
            /\ exists href,
                contains "codes_displayText.xhtml" href = true
                /\ urljoin w BASE_URL href = Some (a_url a)) articles.
Proof.
  unfold get_articles_for_chapter in listed.
  destruct (http_get w _) as [body |]; [| discriminate].
  destruct (find is_branch _) as [content_div |]; cbn [fst] in listed;
    [| injection listed as <-; constructor].
  rewrite Forall_forall. intros a Ha.
  destruct (LoopFacts.collect_in _ _ _ _ listed Ha)
    as [anchor [found [_ [Hf Hin]]]].
  unfold article_of_anchor in Hf.
  destruct (find (indented "margin-left:40px") anchor);
    [| injection Hf as <-; contradiction].
  destruct (contains "codes_displayText.xhtml" _) eqn:Ehref;
    [| injection Hf as <-; contradiction].
  destruct (contains "ARTICLE" _) eqn:Etitle;
    [| injection Hf as <-; contradiction].
  cbn [andb] in Hf.
  destruct (urlparse w _) as [parsed |]; [| discriminate].
  destruct (urljoin w _ _) as [url |] eqn:Eurl; [| discriminate].
  injection Hf as <-. destruct Hin as [<- | []]. cbn.
  repeat split; try assumption.
  eexists. split; [exact Ehref | exact Eurl].
Qed.

Lemma discovered_articles_are_well_formed_witness :
  fst (get_articles_for_chapter
         (Samples.world Samples.statute_site [] [])
         (Samples.site_url (Samples.branch "part=1.&chapter=1.&article="))
         "WAT" "6" "1." "1." start)
  = Ok Samples.discovered_articles
  /\ map a_article Samples.discovered_articles = ["1."; "2."]
  /\ Forall (fun a => a_code a = "WAT" /\ a_division a = "6")
            Samples.discovered_articles.
Proof.
  split; [vm_compute; reflexivity |].
  split; [reflexivity |].
  eapply Forall_impl;
    [| exact (discovered_articles_are_well_formed
                (Samples.world Samples.statute_site [] [])
                (Samples.site_url
                   (Samples.branch "part=1.&chapter=1.&article="))
                "WAT" "6" "1." "1." start Samples.discovered_articles
                eq_refl)].
  intros a H. cbn beta in H. tauto.
Defined.

Lemma match_pattern_suffix pat :
  forall text rest,
    match_pattern pat text = Some rest ->
    exists matched, text = (matched ++ rest)%string.
Proof.
  induction pat as [| p pat IH]; intros text rest H; cbn in H.
  - injection H as <-. now exists EmptyString.
  - destruct text as [| c text]; [discriminate |].
    destruct (pattern_char p c); [| discriminate].
    destruct (IH _ _ H) as [matched ->]. now exists (String c matched).
Qed.

Lemma lstrip_suffix s : exists blank, s = (blank ++ lstrip s)%string.
Proof.
  induction s as [| c r [blank IH]]; [now exists EmptyString |].
  cbn. destruct (isspace c).
  - exists (String c blank). cbn. now rewrite <- IH.
  - now exists EmptyString.
Qed.

Lemma skip_dot_suffix s : exists dot, s = (dot ++ skip_dot s)%string.
Proof.
  destruct s as [| c r]; [now exists EmptyString |].
  cbn. destruct (Ascii.eqb c ".") eqn:E.
  - exists (String c EmptyString). reflexivity.
  - now exists EmptyString.
Qed.

(** Line 311: removing the leading section number only takes characters
    from the front of the text; what is kept is the end of the text,
    unchanged. *)
Theorem strip_section_number_keeps_the_rest (section_num text : string) :
  exists removed,
    text = (removed ++ strip_section_number section_num text)%string.
Proof.
  unfold strip_section_number.
  destruct (match_pattern section_num text) as [rest |] eqn:E.
  - destruct (match_pattern_suffix _ _ _ E) as [matched ->].
    destruct (skip_dot_suffix rest) as [dot Hd].
    destruct (lstrip_suffix (skip_dot rest)) as [blank Hb].
    exists (matched ++ dot ++ blank)%string.
    rewrite !Names.append_assoc. rewrite <- Hb, <- Hd. reflexivity.
  - now exists EmptyString.
Qed.

Lemma digits_match digits :
  all_digits digits = true ->
  forall pat text,
    match_pattern (digits ++ pat) (digits ++ text) = match_pattern pat text.
Proof.
  induction digits as [| c r IH]; intros H pat text; [reflexivity |].
  cbn in H. apply andb_prop in H. destruct H as [Hc Hr].
  cbn. unfold pattern_char.
  rewrite (FlatSchema.digit_is_no_dot c Hc), Ascii.eqb_refl.
  now apply IH.
Qed.

(** Line 311: the section number is used as a regular expression, so
    its dot stands for any character but a line feed.  For a number
    [a.b], a text that starts with the digits of [a], any such
    character and the digits of [b] loses all of them, with the dot and
    the whitespace that follow. *)
Theorem number_dot_matches_any_character
        (a b tail : string) (c : ascii)
        (a_digits : all_digits a = true)
        (b_digits : all_digits b = true)
        (no_line_feed : Ascii.eqb c (ascii_of_nat 10) = false) :
  strip_section_number (a ++ String "." b) (a ++ String c (b ++ tail))
  = lstrip (skip_dot tail).
Proof.
  unfold strip_section_number.
  rewrite (digits_match a a_digits). cbn [match_pattern].
  unfold pattern_char at 1. cbn [Ascii.eqb Bool.eqb].
  rewrite no_line_feed. cbn [negb].
  replace b with (b ++ EmptyString)%string at 1
    by apply Names.append_empty_r.
  rewrite (digits_match b b_digits). reflexivity.
Qed.

Lemma number_dot_matches_any_character_witness :
  match_section_number "1011.5" = true
  /\ strip_section_number "1011.5" "101175 acre-feet" = "acre-feet".
Proof.
  split; [reflexivity |].
  exact (number_dot_matches_any_character "1011" "5" " acre-feet" "7"
           eq_refl eq_refl eq_refl).
Defined.

End StatuteFacts.
